(** * HidroTakip: the cloud-sync protocol of [App.tsx] and [storageService]

    A shallow embedding of the synchronisation slice of the application:
    the remote client ([fetchCloudTasks], [updateCloudTasks]), and the
    handlers of [App] that drive it ([handleConnectCloud],
    [handleDisconnectCloud], [updateTasksAndSync] and the polling effect). *)

From Stdlib Require Import ZArith NArith List Bool Lia String Ascii DecimalZ.
From stdpp Require Import base gmap strings list.
Import ListNotations.

(** ** JavaScript strings

    A JavaScript string is a sequence of UTF-16 code units.  The three
    [String.prototype] methods that [handleConnectCloud] chains work on
    code units (the regular expression has no [u] flag), so code units are
    the data. *)

Module JsString.

Abbreviation t := (list N).

(** A source literal made of ASCII characters only. *)
Definition lit (s : string) : t :=
  map N_of_ascii (list_ascii_of_string s).

(** [WhiteSpace] and [LineTerminator] of ECMAScript: what [trim] strips. *)
Definition isWhiteSpace (c : N) : bool :=
  ((9 <=? c) && (c <=? 13)           (* TAB LF VT FF CR *)
   || (c =? 32)                      (* SPACE *)
   || (c =? 160)                     (* NO-BREAK SPACE *)
   || (c =? 5760)                    (* OGHAM SPACE MARK *)
   || (8192 <=? c) && (c <=? 8202)   (* EN QUAD .. HAIR SPACE *)
   || (c =? 8232) || (c =? 8233)     (* LINE / PARAGRAPH SEPARATOR *)
   || (c =? 8239) || (c =? 8287)
   || (c =? 12288)                   (* IDEOGRAPHIC SPACE *)
   || (c =? 65279))%N.               (* BYTE ORDER MARK *)

Fixpoint trimStart (s : t) : t :=
  match s with
  | [] => []
  | c :: s' => if isWhiteSpace c then trimStart s' else s
  end.

Definition trimEnd (s : t) : t := rev (trimStart (rev s)).

(** [s.trim()] *)
Definition trim (s : t) : t := trimEnd (trimStart s).

Definition hyphen : N := 45.
Definition underscore : N := 95.

Definition isLower (c : N) : bool := ((97 <=? c) && (c <=? 122))%N.
Definition isUpper (c : N) : bool := ((65 <=? c) && (c <=? 90))%N.
Definition isDigit (c : N) : bool := ((48 <=? c) && (c <=? 57))%N.

(** The character class [a-zA-Z0-9-_] of the regular expression. *)
Definition inClass (c : N) : bool :=
  isLower c || isUpper c || isDigit c || (c =? hyphen)%N || (c =? underscore)%N.

(** [s.replace(/[^a-zA-Z0-9-_]/g, '-')]: every code unit outside the
    class becomes one hyphen (global flag, one unit per match). *)
Definition replaceOutsideClass (s : t) : t :=
  map (fun c => if inClass c then c else hyphen) s.

Definition lowerUnit (c : N) : N := if isUpper c then (c + 32)%N else c.

(** [s.toLowerCase()].  [handleConnectCloud] applies it to the output of
    the replacement only, whose code units all lie in [a-zA-Z0-9-_]
    (lemma [replaceOutsideClass_inClass] below); on such strings
    the builtin is this map of [A-Z] onto [a-z], and that is all of it
    that is modelled. *)
Definition toLowerCase (s : t) : t := map lowerUnit s.

(** What a normalised identifier is made of: [a-z0-9-_]. *)
Definition isIdUnit (c : N) : bool :=
  isLower c || isDigit c || (c =? hyphen)%N || (c =? underscore)%N.

End JsString.

(** The normalisation of [handleConnectCloud] (line 194):
    [inputCloudId.trim().replace(/[^a-zA-Z0-9-_]/g, '-').toLowerCase()] *)
Definition cleanIdOf (inputCloudId : JsString.t) : JsString.t :=
  JsString.toLowerCase (JsString.replaceOutsideClass (JsString.trim inputCloudId)).


(** ** JSON text

    [JSON.stringify] as the program uses it: on task collections, to
    compare the remote copy with the local one and to write the local
    mirror.  The text is a JavaScript string. *)

Module Json.

Abbreviation text := (list N).

Definition quote : N := 34.       (* the double quote *)
Definition backslash : N := 92.
Definition comma : N := 44.
Definition colon : N := 58.

Definition isLeadSurrogate (c : N) : bool := ((55296 <=? c) && (c <=? 56319))%N.
Definition isTrailSurrogate (c : N) : bool := ((56320 <=? c) && (c <=? 57343))%N.

Definition hexDigit (d : N) : N := (if d <? 10 then 48 + d else 87 + d)%N.

(** [\uXXXX], four lowercase hexadecimal digits (UnicodeEscape). *)
Definition unicodeEscape (c : N) : text :=
  [backslash; 117;
   hexDigit (c / 4096 mod 16); hexDigit (c / 256 mod 16);
   hexDigit (c / 16 mod 16); hexDigit (c mod 16)]%N.

(** One code point of QuoteJSONString that is a single code unit: the
    short escapes of the table, [\uXXXX] for the other control
    characters and for a surrogate on its own, the unit itself
    otherwise. *)
Definition escapeUnit (c : N) : text :=
  (if c =? 8 then [backslash; 98]            (* \b *)
   else if c =? 9 then [backslash; 116]      (* \t *)
   else if c =? 10 then [backslash; 110]     (* \n *)
   else if c =? 12 then [backslash; 102]     (* \f *)
   else if c =? 13 then [backslash; 114]     (* \r *)
   else if c =? quote then [backslash; quote]
   else if c =? backslash then [backslash; backslash]
   else if (c <? 32) || isLeadSurrogate c || isTrailSurrogate c
        then unicodeEscape c
   else [c])%N.

(** The body of QuoteJSONString: code points are read off the code
    units, a lead surrogate followed by a trail surrogate being one code
    point, which is copied as it is. *)
Fixpoint escapeUnits (s : JsString.t) : text :=
  match s with
  | [] => []
  | c :: s' =>
      match s' with
      | d :: s'' =>
          if isLeadSurrogate c && isTrailSurrogate d
          then c :: d :: escapeUnits s''
          else escapeUnit c ++ escapeUnits s'
      | [] => escapeUnit c
      end
  end.

Definition QuoteJSONString (s : JsString.t) : text :=
  quote :: escapeUnits s ++ [quote].

(** Number::toString on the integers (timestamps, ratings): the decimal
    digits, with a minus sign below zero.  Numbers that are not
    integers are outside the model. *)
Fixpoint digitsOf (u : Decimal.uint) : text :=
  match u with
  | Decimal.Nil => []
  | Decimal.D0 u => 48%N :: digitsOf u
  | Decimal.D1 u => 49%N :: digitsOf u
  | Decimal.D2 u => 50%N :: digitsOf u
  | Decimal.D3 u => 51%N :: digitsOf u
  | Decimal.D4 u => 52%N :: digitsOf u
  | Decimal.D5 u => 53%N :: digitsOf u
  | Decimal.D6 u => 54%N :: digitsOf u
  | Decimal.D7 u => 55%N :: digitsOf u
  | Decimal.D8 u => 56%N :: digitsOf u
  | Decimal.D9 u => 57%N :: digitsOf u
  end.

Definition intText (i : Decimal.int) : text :=
  match i with
  | Decimal.Pos u => digitsOf u
  | Decimal.Neg u => JsString.hyphen :: digitsOf u
  end.

Definition numberToString (z : Z) : text := intText (Z.to_int z).

(** The reading back of a quoted string body, up to its closing quote:
    used to show that the text determines the string. *)
Definition hexValue (u : N) : option N :=
  (if JsString.isDigit u then Some (u - 48)
   else if (97 <=? u) && (u <=? 102) then Some (u - 87)
   else None)%N.

Definition shortEscapeValue (e : N) : option N :=
  (if e =? 98 then Some 8
   else if e =? 116 then Some 9
   else if e =? 110 then Some 10
   else if e =? 102 then Some 12
   else if e =? 114 then Some 13
   else if e =? quote then Some quote
   else if e =? backslash then Some backslash
   else None)%N.

Definition pushUnit (c : N) (o : option (JsString.t * text)) : option (JsString.t * text) :=
  match o with
  | Some (s, r) => Some (c :: s, r)
  | None => None
  end.

Fixpoint unescapeUnits (x : text) : option (JsString.t * text) :=
  match x with
  | [] => None
  | c :: r =>
      if (c =? quote)%N then Some ([], r)
      else if (c =? backslash)%N then
        match r with
        | [] => None
        | e :: r1 =>
            if (e =? 117)%N then
              match r1 with
              | h3 :: h2 :: h1 :: h0 :: r2 =>
                  match hexValue h3, hexValue h2, hexValue h1, hexValue h0 with
                  | Some a, Some b, Some c', Some d =>
                      pushUnit (((a * 16 + b) * 16 + c') * 16 + d)%N (unescapeUnits r2)
                  | _, _, _, _ => None
                  end
              | _ => None
              end
            else
              match shortEscapeValue e with
              | Some v => pushUnit v (unescapeUnits r1)
              | None => None
              end
        end
      else pushUnit c (unescapeUnits r)
  end.


(** The array brackets and the object braces. *)
Definition lbracket : N := 91.
Definition rbracket : N := 93.
Definition lbrace : N := 123.
Definition rbrace : N := 125.

(** A number starts with a digit or with the minus sign. *)
Definition startsNumber (c : N) : bool :=
  JsString.isDigit c || (c =? JsString.hyphen)%N.

(** What may follow a number inside an object or an array. *)
Definition endsNumber (x : text) : bool :=
  match x with
  | [] => true
  | c :: _ => negb (JsString.isDigit c) && negb (c =? JsString.hyphen)%N
  end.

End Json.

(** ** The task objects ([types.ts]) *)

Module Types.

(** Modelled from the spec: the enumeration [TaskPriority] of [types.ts],
    which is not among the sources (LOW/MEDIUM/HIGH/URGENT). *)
Inductive TaskPriority := LOW | MEDIUM | HIGH | URGENT.

(** Modelled from the spec: the enumeration [TaskStatus] of [types.ts],
    which is not among the sources (PENDING/IN_PROGRESS/COMPLETED). *)
Inductive TaskStatus := PENDING | IN_PROGRESS | COMPLETED.

#[global] Instance TaskStatus_eq_dec : EqDecision TaskStatus.
Proof. solve_decision. Defined.

(** Modelled from the spec: the property names of the interface [Task]
    of [types.ts], which is not among the sources.  They are the
    properties that [handleCreateTask] and [handleUpdateStatus] of
    [App.tsx] write.  None of them is an array index, so the properties
    of a task are enumerated, by the spread of [handleUpdateStatus] and by
    [JSON.stringify], in the order in which they were created. *)
Inductive Key :=
| id | title | description | machineName | imageUrl | assigneeId | creatorId
| priority | status | createdAt | startedAt | completedAt | managerNote | rating.

#[global] Instance Key_eq_dec : EqDecision Key.
Proof. solve_decision. Defined.

Definition keyName (k : Key) : JsString.t :=
  match k with
  | id => JsString.lit "id"
  | title => JsString.lit "title"
  | description => JsString.lit "description"
  | machineName => JsString.lit "machineName"
  | imageUrl => JsString.lit "imageUrl"
  | assigneeId => JsString.lit "assigneeId"
  | creatorId => JsString.lit "creatorId"
  | priority => JsString.lit "priority"
  | status => JsString.lit "status"
  | createdAt => JsString.lit "createdAt"
  | startedAt => JsString.lit "startedAt"
  | completedAt => JsString.lit "completedAt"
  | managerNote => JsString.lit "managerNote"
  | rating => JsString.lit "rating"
  end.

(** What a property holds: the primitive values that JSON has.  Numbers
    are the integers (timestamps, ratings). *)
Inductive Value :=
| VNull
| VBool (b : bool)
| VNumber (z : Z)
| VString (s : JsString.t).

#[global] Instance Value_eq_dec : EqDecision Value.
Proof. solve_decision. Defined.

(** Modelled from the spec: a task, of the interface [Task] of
    [types.ts], which is not among the sources.  A task is a JavaScript
    object, given by its properties in the order of their creation.  The
    order is part of the value: the spread of [handleUpdateStatus] copies
    the properties in it, [JSON.stringify] writes them in it, and
    [response.json()] creates them in the order of the text it reads.  A
    property that holds [undefined] is left out: reading it gives
    [undefined] as reading an absent one does, [JSON.stringify] skips it,
    and the one property the program creates with [undefined] in it
    ([imageUrl], in [handleCreateTask]) is never assigned afterwards. *)
Definition Task : Type := list (Key * Value).

(** [t.key]; [None] is [undefined]. *)
Fixpoint get (key : Key) (t : Task) : option Value :=
  match t with
  | [] => None
  | (k, v) :: t' => if bool_decide (k = key) then Some v else get key t'
  end.

(** [t.key = v]: a property that exists keeps its place, a new one goes
    behind the others. *)
Fixpoint assign (key : Key) (v : Value) (t : Task) : Task :=
  match t with
  | [] => [(key, v)]
  | (k, x) :: t' =>
      if bool_decide (k = key) then (k, v) :: t' else (k, x) :: assign key v t'
  end.

(** The property names of an object, in their order. *)
Definition keys (t : Task) : list Key := map fst t.

(** An object has a property once. *)
Definition wellFormed (t : Task) : Prop := NoDup (keys t).


(** Modelled from the spec: the run-time values of the two enumerations,
    taken to be their names. *)
Definition priorityName (p : TaskPriority) : JsString.t :=
  match p with
  | LOW => JsString.lit "LOW"
  | MEDIUM => JsString.lit "MEDIUM"
  | HIGH => JsString.lit "HIGH"
  | URGENT => JsString.lit "URGENT"
  end.

Definition statusName (s : TaskStatus) : JsString.t :=
  match s with
  | PENDING => JsString.lit "PENDING"
  | IN_PROGRESS => JsString.lit "IN_PROGRESS"
  | COMPLETED => JsString.lit "COMPLETED"
  end.

(** The members of the two enumerations as property values. *)
Definition priorityValue (p : TaskPriority) : Value := VString (priorityName p).
Definition statusValue (s : TaskStatus) : Value := VString (statusName s).

End Types.

(** [JSON.stringify] on a task collection: an array of objects, the
    members of an object in the order of its properties, no white
    space. *)

Module JSON.
Import Json.

Definition SerializeValue (v : Types.Value) : text :=
  match v with
  | Types.VNull => JsString.lit "null"
  | Types.VBool true => JsString.lit "true"
  | Types.VBool false => JsString.lit "false"
  | Types.VNumber z => numberToString z
  | Types.VString s => QuoteJSONString s
  end.

Definition member (p : Types.Key * Types.Value) : text :=
  QuoteJSONString (Types.keyName p.1) ++ colon :: SerializeValue p.2.

(** The members after the first, each behind its comma, and the closing
    brace. *)
Fixpoint moreMembers (ps : Types.Task) : text :=
  match ps with
  | [] => [rbrace]
  | p :: ps' => comma :: member p ++ moreMembers ps'
  end.

Definition SerializeTask (t : Types.Task) : text :=
  lbrace ::
  match t with
  | [] => [rbrace]
  | p :: ps => member p ++ moreMembers ps
  end.

(** The elements after the first, each behind its comma, and the
    closing bracket. *)
Fixpoint moreElements (ts : list Types.Task) : text :=
  match ts with
  | [] => [rbracket]
  | t :: ts' => comma :: SerializeTask t ++ moreElements ts'
  end.

Definition stringify (ts : list Types.Task) : text :=
  lbracket ::
  match ts with
  | [] => [rbracket]
  | t :: ts' => SerializeTask t ++ moreElements ts'
  end.

End JSON.


(** ** Completions

    An awaited promise either yields a value or throws; the exception
    value is never inspected by the program ([catch (error)] ignores it). *)

Inductive Completion (A : Type) : Type :=
| Normal (a : A)
| Throw.
Arguments Normal {A} a.
Arguments Throw {A}.

#[global] Instance Completion_ret : MRet Completion := fun A a => Normal a.
#[global] Instance Completion_bind : MBind Completion :=
  fun A B f c => match c with Normal a => f a | Throw => Throw end.

(** [try { body } catch (error) { handler }] *)
Definition tryCatch {A : Type} (body : Completion A) (handler : Completion A) : Completion A :=
  match body with
  | Normal a => Normal a
  | Throw => handler
  end.

(** ** The remote client ([services/storageService.ts]) *)

Module StorageService.

Definition BASE_URL : JsString.t := JsString.lit "https://kvdb.io".

Inductive Method := GET | POST.

Record Request := mkRequest {
  url : JsString.t;
  method : Method;
  headers : list (JsString.t * JsString.t);
  body : option Json.text
}.

(** What [response.json()] resolves to.  The program looks at one thing
    only, whether the value is an array, and then trusts the array to be
    a [Task[]]. *)
Inductive JsonValue :=
| JNull
| JBool (b : bool)
| JNumber (z : Z)
| JString (s : JsString.t)
| JObject
| JArray (elements : list Types.Task).

Definition Array_isArray (v : JsonValue) : bool :=
  match v with JArray _ => true | _ => false end.

(** A response: its status, and the outcome of reading its body as
    JSON, which throws when the body is not JSON. *)
Record Response := mkResponse {
  status : N;
  json : Completion JsonValue
}.

(** [response.ok]: the status is in the range 200-299. *)
Definition ok (r : Response) : bool := ((200 <=? status r) && (status r <=? 299))%N.

(** The [fetch] builtin: throws on a network-level failure. *)
Definition Fetch := Request -> Completion Response.

Record SyncResult := mkSyncResult {
  success : bool;
  data : option (list Types.Task);
  error : option JsString.t;
  blobId : option JsString.t
}.

Definition NOT_FOUND : JsString.t := JsString.lit "NOT_FOUND".
(** 'Veri çekilemedi.' *)
Definition FETCH_FAILED : JsString.t :=
  JsString.lit "Veri " ++ [231%N] ++ JsString.lit "ekilemedi.".
(** 'İnternet bağlantısı yok.' *)
Definition NO_CONNECTION : JsString.t :=
  [304%N] ++ JsString.lit "nternet ba" ++ [287%N] ++ JsString.lit "lant"
  ++ [305%N] ++ JsString.lit "s" ++ [305%N] ++ JsString.lit " yok.".
(** 'Sunucuya kayıt yapılamadı.' *)
Definition SAVE_FAILED : JsString.t :=
  JsString.lit "Sunucuya kay" ++ [305%N] ++ JsString.lit "t yap" ++ [305%N]
  ++ JsString.lit "lamad" ++ [305%N] ++ JsString.lit ".".
(** 'Bağlantı hatası.' *)
Definition CONNECTION_ERROR : JsString.t :=
  JsString.lit "Ba" ++ [287%N] ++ JsString.lit "lant" ++ [305%N]
  ++ JsString.lit " hatas" ++ [305%N] ++ JsString.lit ".".

Definition fetchRequest (now : Z) (blobId : JsString.t) : Request :=
  {| url := BASE_URL ++ JsString.lit "/" ++ blobId ++ JsString.lit "/tasks?_t="
            ++ Json.numberToString now;
     method := GET;
     headers := [(JsString.lit "Accept", JsString.lit "application/json")];
     body := None |}.

(** [fetchCloudTasks], [now] being what [Date.now()] returns in it. *)
Definition fetchCloudTasks (fetch : Fetch) (now : Z) (blobId : JsString.t)
  : Completion SyncResult :=
  tryCatch
    (response ← fetch (fetchRequest now blobId);
     if ok response then
       result ← json response;
       match result with
       | JArray elements =>
           mret {| success := true; data := Some elements; error := None; blobId := None |}
       | _ =>
           mret {| success := true; data := Some []; error := None; blobId := None |}
       end
     else if (status response =? 404)%N then
       mret {| success := true; data := Some []; error := Some NOT_FOUND; blobId := None |}
     else
       mret {| success := false; data := None; error := Some FETCH_FAILED; blobId := None |})
    (mret {| success := false; data := None; error := Some NO_CONNECTION; blobId := None |}).

Definition updateRequest (blobId : JsString.t) (tasks : list Types.Task) : Request :=
  {| url := BASE_URL ++ JsString.lit "/" ++ blobId ++ JsString.lit "/tasks";
     method := POST;
     headers := [(JsString.lit "Content-Type", JsString.lit "application/json")];
     body := Some (JSON.stringify tasks) |}.

Definition updateCloudTasks (fetch : Fetch) (blobId : JsString.t) (tasks : list Types.Task)
  : Completion SyncResult :=
  tryCatch
    (response ← fetch (updateRequest blobId tasks);
     if ok response then
       mret {| success := true; data := None; error := None; blobId := None |}
     else
       mret {| success := false; data := None; error := Some SAVE_FAILED; blobId := None |})
    (mret {| success := false; data := None; error := Some CONNECTION_ERROR; blobId := None |}).

End StorageService.


(** ** The application ([App.tsx])

    The React state the sync handlers touch, the browser's
    [localStorage], and what the handlers do to the outside: dialogs and
    calls of the remote client. *)

Module App.
Import StorageService.

Inductive SyncStatus := offline | syncing | online | error.

#[global] Instance SyncStatus_eq_dec : EqDecision SyncStatus.
Proof. solve_decision. Defined.

Record AppState := mkAppState {
  tasks : list Types.Task;
  cloudId : option JsString.t;          (* string | null *)
  inputCloudId : JsString.t;
  syncStatus : SyncStatus;
  lastSyncTime : Z;
  isSyncModalOpen : bool
}.

(** The dialogs, by the place that opens them. *)
Inductive Message :=
| MinLengthAlert                           (* line 196 *)
| RoomCreatedAlert                         (* line 210 *)
| SetupFailedAlert                         (* line 212 *)
| ServerErrorAlert (err : option JsString.t)  (* line 230 *)
| LoadRemoteConfirm                        (* line 218 *)
| DisconnectConfirm.                       (* line 236 *)

Inductive Effect :=
| Alert (msg : Message)
| Confirm (msg : Message) (answer : bool)
| Call_fetchCloudTasks (blobId : JsString.t)
| Call_updateCloudTasks (blobId : JsString.t) (tasks : list Types.Task).

(** What the outside answers: the network, the user in front of a
    [confirm] dialog, and the clock at its successive readings. *)
Record Env := mkEnv {
  fetch : Fetch;
  confirmAnswer : Message -> bool;
  clock : nat -> Z
}.

Record World := mkWorld {
  react : AppState;
  localStorage : gmap string JsString.t;
  clockReads : nat;
  effects : list Effect                    (* oldest first *)
}.

(** A piece of handler code: runs on the world, returns or throws. *)
Definition M (A : Type) : Type := World -> Completion A * World.

#[global] Instance M_ret : MRet M := fun A a w => (Normal a, w).
#[global] Instance M_bind : MBind M :=
  fun A B f m w =>
    match m w with
    | (Normal a, w') => f a w'
    | (Throw, w') => (Throw, w')
    end.

(** The values the handler closes over: those of the current render. *)
Definition render : M AppState := fun w => (Normal (react w), w).

Definition modifyReact (f : AppState -> AppState) : M unit :=
  fun w => (Normal (),
            {| react := f (react w); localStorage := localStorage w;
               clockReads := clockReads w; effects := effects w |}).

Definition localStorage_setItem (key : string) (value : JsString.t) : M unit :=
  fun w => (Normal (),
            {| react := react w; localStorage := <[key := value]> (localStorage w);
               clockReads := clockReads w; effects := effects w |}).

Definition localStorage_removeItem (key : string) : M unit :=
  fun w => (Normal (),
            {| react := react w; localStorage := delete key (localStorage w);
               clockReads := clockReads w; effects := effects w |}).

Definition perform (e : Effect) : M unit :=
  fun w => (Normal (),
            {| react := react w; localStorage := localStorage w;
               clockReads := clockReads w; effects := effects w ++ [e] |}).

(** [Date.now()] *)
Definition Date_now (env : Env) : M Z :=
  fun w => (Normal (clock env (clockReads w)),
            {| react := react w; localStorage := localStorage w;
               clockReads := S (clockReads w); effects := effects w |}).

Definition alert (msg : Message) : M unit := perform (Alert msg).

Definition confirm (env : Env) (msg : Message) : M bool :=
  perform (Confirm msg (confirmAnswer env msg));; mret (confirmAnswer env msg).

(** [await c] *)
Definition await {A : Type} (c : Completion A) : M A := fun w => (c, w).

(** [setTasks], with the persistence effect of lines 85-87 that the
    change of [tasks] triggers:
    [localStorage.setItem('hidro_tasks', JSON.stringify(tasks))]. *)
Definition setTasks (newTasks : list Types.Task) : M unit :=
  modifyReact (fun s =>
    {| tasks := newTasks; cloudId := cloudId s; inputCloudId := inputCloudId s;
       syncStatus := syncStatus s; lastSyncTime := lastSyncTime s;
       isSyncModalOpen := isSyncModalOpen s |});;
  localStorage_setItem "hidro_tasks" (JSON.stringify newTasks).

Definition setCloudId (v : option JsString.t) : M unit :=
  modifyReact (fun s =>
    {| tasks := tasks s; cloudId := v; inputCloudId := inputCloudId s;
       syncStatus := syncStatus s; lastSyncTime := lastSyncTime s;
       isSyncModalOpen := isSyncModalOpen s |}).

Definition setInputCloudId (v : JsString.t) : M unit :=
  modifyReact (fun s =>
    {| tasks := tasks s; cloudId := cloudId s; inputCloudId := v;
       syncStatus := syncStatus s; lastSyncTime := lastSyncTime s;
       isSyncModalOpen := isSyncModalOpen s |}).

Definition setSyncStatus (v : SyncStatus) : M unit :=
  modifyReact (fun s =>
    {| tasks := tasks s; cloudId := cloudId s; inputCloudId := inputCloudId s;
       syncStatus := v; lastSyncTime := lastSyncTime s;
       isSyncModalOpen := isSyncModalOpen s |}).

Definition setLastSyncTime (v : Z) : M unit :=
  modifyReact (fun s =>
    {| tasks := tasks s; cloudId := cloudId s; inputCloudId := inputCloudId s;
       syncStatus := syncStatus s; lastSyncTime := v;
       isSyncModalOpen := isSyncModalOpen s |}).

Definition setIsSyncModalOpen (v : bool) : M unit :=
  modifyReact (fun s =>
    {| tasks := tasks s; cloudId := cloudId s; inputCloudId := inputCloudId s;
       syncStatus := syncStatus s; lastSyncTime := lastSyncTime s;
       isSyncModalOpen := v |}).

(** Truthiness of a string: the empty string is falsy. *)
Definition truthy (s : JsString.t) : bool :=
  match s with [] => false | _ :: _ => true end.

(** [res.data && res.data.length > 0] *)
Definition hasTasks (res : SyncResult) : bool :=
  match data res with
  | Some (_ :: _) => true
  | _ => false
  end.

Definition dataOf (res : SyncResult) : list Types.Task :=
  match data res with Some ts => ts | None => [] end.

(** [await fetchCloudTasks(blobId)] *)
Definition call_fetchCloudTasks (env : Env) (blobId : JsString.t) : M SyncResult :=
  perform (Call_fetchCloudTasks blobId);;
  now ← Date_now env;
  await (fetchCloudTasks (fetch env) now blobId).

(** [await updateCloudTasks(blobId, tasks)] *)
Definition call_updateCloudTasks (env : Env) (blobId : JsString.t) (ts : list Types.Task)
  : M SyncResult :=
  perform (Call_updateCloudTasks blobId ts);;
  await (updateCloudTasks (fetch env) blobId ts).

(** *** The polling effect (lines 65-82)

    [pollCallback] is the body of the interval callback; [r] holds the
    [cloudId], [tasks] and [syncStatus] of the render that installed the
    interval (the dependencies of the effect). *)
Definition pollCallback (env : Env) (blobId : JsString.t) (r : AppState) : M unit :=
  res ← call_fetchCloudTasks env blobId;
  if success res && hasTasks res then
    ((if bool_decide (JSON.stringify (dataOf res) ≠ JSON.stringify (tasks r)) then
        setTasks (dataOf res);;
        now ← Date_now env;
        setLastSyncTime now
      else mret ()) : M unit);;
    (if bool_decide (syncStatus r ≠ online) then setSyncStatus online else mret ())
  else mret ().

(** One tick of the poll loop, the callback running to its end before
    anything else happens.  No interval exists while [cloudId] is
    falsy. *)
Definition poll (env : Env) : M unit :=
  r ← render;
  match cloudId r with
  | Some blobId => if truthy blobId then pollCallback env blobId r else mret ()
  | None => mret ()
  end.

(** *** [updateTasksAndSync] (lines 106-121)

    The synchronous part, which starts the remote write, and the
    [then] callback, which runs when the write has settled. *)
Definition updateTasksAndSync (newTasks : list Types.Task) : M unit :=
  r ← render;
  setTasks newTasks;;
  match cloudId r with
  | Some blobId =>
      if truthy blobId then
        setSyncStatus syncing;;
        perform (Call_updateCloudTasks blobId newTasks)
      else mret ()
  | None => mret ()
  end.

Definition updateTasksAndSync_then (env : Env) (res : SyncResult) : M unit :=
  if success res then
    setSyncStatus online;;
    now ← Date_now env;
    setLastSyncTime now
  else
    setSyncStatus error.

(** The promise of [updateCloudTasks] settles: fulfilled, it runs the
    callback; rejected, nothing is registered to run. *)
Definition pushSettled (env : Env) (outcome : Completion SyncResult) : M unit :=
  match outcome with
  | Normal res => updateTasksAndSync_then env res
  | Throw => mret ()
  end.

(** *** [handleUpdateStatus] and [handleCreateTask] (lines 123-163) *)

(** Truthiness of what reading a property gives: [undefined], [null],
    [false], zero and the empty string are falsy. *)
Definition truthyProperty (o : option Types.Value) : bool :=
  match o with
  | None => false
  | Some Types.VNull => false
  | Some (Types.VBool b) => b
  | Some (Types.VNumber z) => negb (z =? 0)%Z
  | Some (Types.VString s) => truthy s
  end.

(** The callback of the [map] in [handleUpdateStatus], on a task with
    the given id: the copy [{...t, status: newStatus}], then the four
    conditional assignments in the order of lines 128-133, each of which
    creates its property behind the others when the task has none.  At
    most one of the two [Date.now()] is evaluated for a task; [now] is
    its value. *)
Definition updatedTask (now : Z) (newStatus : Types.TaskStatus)
    (note : option JsString.t) (rating : option Z) (t : Types.Task) : Types.Task :=
  let copied := Types.assign Types.status (Types.statusValue newStatus) t in
  let started :=
    if bool_decide (newStatus = Types.IN_PROGRESS)
       && negb (truthyProperty (Types.get Types.startedAt t))
    then Types.assign Types.startedAt (Types.VNumber now) copied else copied in
  let completed :=
    if bool_decide (newStatus = Types.COMPLETED)
       && negb (truthyProperty (Types.get Types.completedAt t))
    then Types.assign Types.completedAt (Types.VNumber now) started else started in
  let noted :=
    match note with
    | Some n =>
        if truthy n then Types.assign Types.managerNote (Types.VString n) completed
        else completed
    | None => completed
    end in
  match rating with
  | Some x =>
      if (x =? 0)%Z then noted else Types.assign Types.rating (Types.VNumber x) noted
  | None => noted
  end.

Definition newTaskList (now : Z) (taskId : JsString.t)
    (newStatus : Types.TaskStatus) (note : option JsString.t) (rating : option Z)
    (ts : list Types.Task) : list Types.Task :=
  map (fun t => if bool_decide (Types.get Types.id t ≠ Some (Types.VString taskId)) then t
                else updatedTask now newStatus note rating t) ts.

Definition handleUpdateStatus (now : Z) (taskId : JsString.t)
    (newStatus : Types.TaskStatus) (note : option JsString.t) (rating : option Z) : M unit :=
  r ← render;
  updateTasksAndSync (newTaskList now taskId newStatus note rating (tasks r)).

(** [newTask] is the task the handler builds from the form, a random id
    and the clock; the form fields it resets afterwards are not part of
    the state modelled here. *)
Definition handleCreateTask (newTask : Types.Task) : M unit :=
  r ← render;
  updateTasksAndSync (newTask :: tasks r).

(** *** [handleConnectCloud] (lines 190-233) *)
Definition connectSuccessFlow (cleanId : JsString.t) : M unit :=
  setCloudId (Some cleanId);;
  localStorage_setItem "hidro_cloud_id" cleanId;;
  setSyncStatus online;;
  setIsSyncModalOpen false;;
  setInputCloudId [].

(** Lines 206-221: what is done with a successful fetch.  The value
    tells whether the handler goes on to the success flow ([false] is
    the [return] of line 214). *)
Definition connectReconcile (env : Env) (cleanId : JsString.t) (r : AppState)
    (res : SyncResult) : M bool :=
  if bool_decide (StorageService.error res = Some NOT_FOUND) then
    initRes ← call_updateCloudTasks env cleanId (tasks r);
    if success initRes then
      alert RoomCreatedAlert;; mret true
    else
      alert SetupFailedAlert;;
      setSyncStatus error;;
      mret false
  else if hasTasks res then
    yes ← confirm env LoadRemoteConfirm;
    ((if (yes : bool) then setTasks (dataOf res) else mret ()) : M unit);;
    mret true
  else mret true.

Definition handleConnectCloud (env : Env) : M unit :=
  r ← render;
  if negb (truthy (inputCloudId r)) then mret ()
  else
    let cleanId := cleanIdOf (inputCloudId r) in
    if (length cleanId <? 3)%nat then alert MinLengthAlert
    else
      setSyncStatus syncing;;
      res ← call_fetchCloudTasks env cleanId;
      if success res then
        proceed ← connectReconcile env cleanId r res;
        if (proceed : bool) then connectSuccessFlow cleanId else mret ()
      else
        alert (ServerErrorAlert (StorageService.error res));;
        setSyncStatus error.

(** *** [handleDisconnectCloud] (lines 235-241) *)
Definition handleDisconnectCloud (env : Env) : M unit :=
  yes ← confirm env DisconnectConfirm;
  if (yes : bool) then
    setCloudId None;;
    localStorage_removeItem "hidro_cloud_id";;
    setSyncStatus offline
  else mret ().

(** The world a run of handler code leaves. *)
Definition after {A : Type} (m : M A) (w : World) : World := snd (m w).

(** *** Local mutations and settling writes, in any order

    A local mutation is a handler that computes a new collection from
    the one on screen and hands it to [updateTasksAndSync], as
    [handleCreateTask] and [handleUpdateStatus] do; the write it started
    settles at some later point, between other events. *)
Inductive Event :=
| LocalMutation (change : list Types.Task -> list Types.Task)
| RemoteWriteSettled (outcome : Completion SyncResult).

Definition handleEvent (env : Env) (e : Event) : M unit :=
  match e with
  | LocalMutation change => r ← render; updateTasksAndSync (change (tasks r))
  | RemoteWriteSettled outcome => pushSettled env outcome
  end.

Fixpoint handleEvents (env : Env) (es : list Event) : M unit :=
  match es with
  | [] => mret ()
  | e :: es' => handleEvent env e;; handleEvents env es'
  end.

(** The mutations of a schedule, applied one after the other. *)
Fixpoint applyMutations (es : list Event) (ts : list Types.Task) : list Types.Task :=
  match es with
  | [] => ts
  | LocalMutation change :: es' => applyMutations es' (change ts)
  | RemoteWriteSettled _ :: es' => applyMutations es' ts
  end.

Definition isNetworkCall (e : Effect) : bool :=
  match e with
  | Call_fetchCloudTasks _ | Call_updateCloudTasks _ _ => true
  | _ => false
  end.

Definition isAlert (e : Effect) : bool :=
  match e with Alert _ => true | _ => false end.

End App.


(** ** Sample data, for the examples *)

Module Samples.
Import StorageService App.

Definition pumpTask : Types.Task :=
  [(Types.id, Types.VString (JsString.lit "k3x9q2m1a"));
   (Types.title, Types.VString (JsString.lit "Pompa sizdiriyor"));
   (Types.description, Types.VString (JsString.lit "Ana pompa contasi"));
   (Types.machineName, Types.VString (JsString.lit "Pres 1"));
   (Types.assigneeId, Types.VString (JsString.lit "u2"));
   (Types.creatorId, Types.VString (JsString.lit "u1"));
   (Types.priority, Types.priorityValue Types.HIGH);
   (Types.status, Types.statusValue Types.PENDING);
   (Types.createdAt, Types.VNumber 1700000000000)].

Definition valveTask : Types.Task :=
  [(Types.id, Types.VString (JsString.lit "b7w0z5c4d"));
   (Types.title, Types.VString (JsString.lit "Valf degisimi"));
   (Types.description, Types.VString (JsString.lit "Emniyet valfi"));
   (Types.machineName, Types.VString (JsString.lit "Pres 2"));
   (Types.assigneeId, Types.VString (JsString.lit "u3"));
   (Types.creatorId, Types.VString (JsString.lit "u1"));
   (Types.priority, Types.priorityValue Types.LOW);
   (Types.status, Types.statusValue Types.IN_PROGRESS);
   (Types.createdAt, Types.VNumber 1700000100000);
   (Types.startedAt, Types.VNumber 1700000200000)].

(** The valve task closed on two devices: on one the manager's note was
    given first and the rating afterwards, on the other the rating first
    and the note afterwards. *)
Definition notedThenRated : Types.Task :=
  updatedTask 1700000700000 Types.COMPLETED None (Some 5%Z)
    (updatedTask 1700000600000 Types.COMPLETED (Some (JsString.lit "iyi")) None valveTask).

Definition ratedThenNoted : Types.Task :=
  updatedTask 1700000700000 Types.COMPLETED (Some (JsString.lit "iyi")) None
    (updatedTask 1700000600000 Types.COMPLETED None (Some 5%Z) valveTask).

Definition state (ts : list Types.Task) (id : option JsString.t) (raw : JsString.t)
    (st : SyncStatus) : AppState :=
  {| tasks := ts; cloudId := id; inputCloudId := raw; syncStatus := st;
     lastSyncTime := 1700000300000%Z; isSyncModalOpen := true |}.

(** A device connected to the bucket [fabrika-1]. *)
Definition connected (ts : list Types.Task) (st : SyncStatus) : World :=
  {| react := state ts (Some (JsString.lit "fabrika-1")) [] st;
     localStorage :=
       <["hidro_cloud_id" := JsString.lit "fabrika-1"]>
         (<["hidro_tasks" := JSON.stringify ts]> ∅);
     clockReads := 0;
     effects := [] |}.

(** A device without bucket, [raw] typed into the connect dialog. *)
Definition disconnected (ts : list Types.Task) (raw : JsString.t) : World :=
  {| react := state ts None raw offline;
     localStorage := <["hidro_tasks" := JSON.stringify ts]> ∅;
     clockReads := 0;
     effects := [] |}.

Definition ticking (n : nat) : Z := (1700000400000 + 4000 * Z.of_nat n)%Z.

(** An environment whose network answers every request alike. *)
Definition env (answer : Completion Response) (yes : bool) : Env :=
  {| fetch := fun _ => answer; confirmAnswer := fun _ => yes; clock := ticking |}.

(** A fresh bucket: reads find nothing (404), writes answer [write]. *)
Definition freshBucket (write : Completion Response) : Env :=
  {| fetch := fun request =>
       match method request with
       | GET => Normal {| status := 404; json := Throw |}
       | POST => write
       end;
     confirmAnswer := fun _ => true;
     clock := ticking |}.

Definition holding (ts : list Types.Task) : Completion Response :=
  Normal {| status := 200; json := Normal (JArray ts) |}.

Definition serverError : Completion Response :=
  Normal {| status := 500; json := Throw |}.

(** A JSON text written with apostrophes for the double quotes. *)
Definition jsonText (s : string) : Json.text :=
  map (fun c => if (c =? 39)%N then Json.quote else c) (JsString.lit s).

End Samples.

(** ** The rest of the component ([App.tsx])

    The state and the code of [App] outside the sync handlers: login and
    logout, the load on mount, the task form, and what a render computes
    from the task collection. *)

Module Users.

(** Modelled from the spec: the enumeration [Role] of [types.ts], which
    is not among the sources (managers and technicians); [App.tsx] names
    its members [Role.MANAGER] and [Role.MASTER]. *)
Inductive Role := MANAGER | MASTER.

#[global] Instance Role_eq_dec : EqDecision Role.
Proof. solve_decision. Defined.

(** Modelled from the spec: the interface [User] of [types.ts], which is
    not among the sources; the fields are those [App.tsx] reads. *)
Record User := mkUser {
  id : JsString.t;
  name : JsString.t;
  role : Role;
  avatar : JsString.t
}.

End Users.

Module Screen.
Import StorageService App.

Record Page := mkPage {
  currentUser : option Users.User;       (* User | null *)
  currentView : JsString.t;
  newTaskTitle : JsString.t;
  newTaskDesc : JsString.t;
  machineNameInput : JsString.t;
  taskImage : option JsString.t;         (* string | null *)
  selectedAssignee : JsString.t;
  selectedPriority : Types.TaskPriority;
  isGeneratingAI : bool;
  world : World
}.

(** What [App.tsx] takes from elsewhere: the constants of
    [constants.ts] and the AI service, which are not among the sources,
    the builtins [JSON.stringify] on a user and [JSON.parse], and the
    string that [Math.random().toString(36).substr(2, 9)] gives. *)
Record Host := mkHost {
  env : Env;
  USERS : list Users.User;
  INITIAL_TASKS : list Types.Task;
  stringifyUser : Users.User -> Json.text;
  parseUser : JsString.t -> Completion Users.User;
  parseTasks : JsString.t -> Completion (list Types.Task);
  generateTaskDetails : JsString.t -> JsString.t -> Completion JsString.t;
  randomId : JsString.t
}.

(** A piece of code of the component: runs on the page, returns or
    throws. *)
Definition P (A : Type) : Type := Page -> Completion A * Page.

#[global] Instance P_ret : MRet P := fun A a p => (Normal a, p).
#[global] Instance P_bind : MBind P :=
  fun A B f m p =>
    match m p with
    | (Normal a, p') => f a p'
    | (Throw, p') => (Throw, p')
    end.

Definition renderPage : P Page := fun p => (Normal p, p).

Definition awaitP {A : Type} (c : Completion A) : P A := fun p => (c, p).

(** Handler code of the sync part, run on the page's world. *)
Definition liftApp {A : Type} (m : M A) : P A :=
  fun p =>
    let (c, w') := m (world p) in
    (c, {| currentUser := currentUser p; currentView := currentView p;
           newTaskTitle := newTaskTitle p; newTaskDesc := newTaskDesc p;
           machineNameInput := machineNameInput p; taskImage := taskImage p;
           selectedAssignee := selectedAssignee p;
           selectedPriority := selectedPriority p;
           isGeneratingAI := isGeneratingAI p; world := w' |}).

Definition setCurrentUser (v : option Users.User) : P unit :=
  fun p =>
    (Normal (),
     {| currentUser := v; currentView := currentView p;
        newTaskTitle := newTaskTitle p; newTaskDesc := newTaskDesc p;
        machineNameInput := machineNameInput p; taskImage := taskImage p;
        selectedAssignee := selectedAssignee p;
        selectedPriority := selectedPriority p;
        isGeneratingAI := isGeneratingAI p; world := world p |}).

Definition setCurrentView (v : JsString.t) : P unit :=
  fun p =>
    (Normal (),
     {| currentUser := currentUser p; currentView := v;
        newTaskTitle := newTaskTitle p; newTaskDesc := newTaskDesc p;
        machineNameInput := machineNameInput p; taskImage := taskImage p;
        selectedAssignee := selectedAssignee p;
        selectedPriority := selectedPriority p;
        isGeneratingAI := isGeneratingAI p; world := world p |}).

Definition setNewTaskTitle (v : JsString.t) : P unit :=
  fun p =>
    (Normal (),
     {| currentUser := currentUser p; currentView := currentView p;
        newTaskTitle := v; newTaskDesc := newTaskDesc p;
        machineNameInput := machineNameInput p; taskImage := taskImage p;
        selectedAssignee := selectedAssignee p;
        selectedPriority := selectedPriority p;
        isGeneratingAI := isGeneratingAI p; world := world p |}).

(** [setNewTaskDesc(prev => f(prev))]; [setNewTaskDesc(v)] is the
    constant update. *)
Definition updateNewTaskDesc (f : JsString.t -> JsString.t) : P unit :=
  fun p =>
    (Normal (),
     {| currentUser := currentUser p; currentView := currentView p;
        newTaskTitle := newTaskTitle p; newTaskDesc := f (newTaskDesc p);
        machineNameInput := machineNameInput p; taskImage := taskImage p;
        selectedAssignee := selectedAssignee p;
        selectedPriority := selectedPriority p;
        isGeneratingAI := isGeneratingAI p; world := world p |}).

Definition setNewTaskDesc (v : JsString.t) : P unit := updateNewTaskDesc (fun _ => v).

Definition setMachineNameInput (v : JsString.t) : P unit :=
  fun p =>
    (Normal (),
     {| currentUser := currentUser p; currentView := currentView p;
        newTaskTitle := newTaskTitle p; newTaskDesc := newTaskDesc p;
        machineNameInput := v; taskImage := taskImage p;
        selectedAssignee := selectedAssignee p;
        selectedPriority := selectedPriority p;
        isGeneratingAI := isGeneratingAI p; world := world p |}).

Definition setTaskImage (v : option JsString.t) : P unit :=
  fun p =>
    (Normal (),
     {| currentUser := currentUser p; currentView := currentView p;
        newTaskTitle := newTaskTitle p; newTaskDesc := newTaskDesc p;
        machineNameInput := machineNameInput p; taskImage := v;
        selectedAssignee := selectedAssignee p;
        selectedPriority := selectedPriority p;
        isGeneratingAI := isGeneratingAI p; world := world p |}).

Definition setIsGeneratingAI (v : bool) : P unit :=
  fun p =>
    (Normal (),
     {| currentUser := currentUser p; currentView := currentView p;
        newTaskTitle := newTaskTitle p; newTaskDesc := newTaskDesc p;
        machineNameInput := machineNameInput p; taskImage := taskImage p;
        selectedAssignee := selectedAssignee p;
        selectedPriority := selectedPriority p;
        isGeneratingAI := v; world := world p |}).

(** [localStorage.getItem(key)] *)
Definition localStorage_getItem (key : string) : P (option JsString.t) :=
  fun p => (Normal (localStorage (world p) !! key), p).

(** Truthiness of [string | null]. *)
Definition truthyItem (o : option JsString.t) : bool :=
  match o with Some s => truthy s | None => false end.

(** *** [handleLogin] and [handleLogout] (lines 91-103) *)
Definition handleLogin (host : Host) (userId : JsString.t) : P unit :=
  match List.find (fun u => bool_decide (Users.id u = userId)) (USERS host) with
  | Some user =>
      setCurrentUser (Some user);;
      liftApp (localStorage_setItem "hidro_user" (stringifyUser host user));;
      setCurrentView (JsString.lit "tasks")
  | None => mret ()
  end.

Definition handleLogout : P unit :=
  setCurrentUser None;;
  liftApp (localStorage_removeItem "hidro_user").

(** *** [handleCreateTask] (lines 141-163) *)

(** [taskImage || undefined] *)
Definition imageOrUndefined (taskImage : option JsString.t) : option JsString.t :=
  match taskImage with
  | Some s => if truthy s then Some s else None
  | None => None
  end.

(** The object literal of lines 143-154, for a logged-in user. *)
Definition newTaskOf (host : Host) (p : Page) (user : Users.User) (now : Z) : Types.Task :=
  [(Types.id, Types.VString (randomId host));
   (Types.title, Types.VString (newTaskTitle p));
   (Types.description, Types.VString (newTaskDesc p));
   (Types.machineName, Types.VString (machineNameInput p))]
  ++ match imageOrUndefined (taskImage p) with
     | Some image => [(Types.imageUrl, Types.VString image)]
     | None => []
     end
  ++ [(Types.assigneeId, Types.VString (selectedAssignee p));
      (Types.creatorId, Types.VString (Users.id user));
      (Types.priority, Types.priorityValue (selectedPriority p));
      (Types.status, Types.statusValue Types.PENDING);
      (Types.createdAt, Types.VNumber now)].

(** [currentUser!.id] throws on [null], before the clock is read. *)
Definition handleCreateTask (host : Host) : P unit :=
  p ← renderPage;
  match currentUser p with
  | None => awaitP Throw
  | Some user =>
      now ← liftApp (Date_now (env host));
      liftApp (updateTasksAndSync (newTaskOf host p user now :: tasks (react (world p))));;
      setCurrentView (JsString.lit "tasks");;
      setNewTaskTitle [];;
      setNewTaskDesc [];;
      setMachineNameInput [];;
      setTaskImage None
  end.

(** *** [handleEnrichWithAI] (lines 165-172) *)
Definition blankLine : JsString.t := [10; 10]%N.

Definition handleEnrichWithAI (host : Host) : P unit :=
  p ← renderPage;
  if negb (truthy (newTaskTitle p)) then mret ()
  else
    setIsGeneratingAI true;;
    let context :=
      if truthy (machineNameInput p) then machineNameInput p
      else JsString.lit "Hidrolik Makine" in
    suggestion ← awaitP (generateTaskDetails host (newTaskTitle p) context);
    updateNewTaskDesc (fun prev =>
      (if truthy prev then prev ++ blankLine else []) ++ suggestion);;
    setIsGeneratingAI false.

(** *** [handleRemoveImage] (lines 184-187), without the reset of the
    file input element. *)
Definition handleRemoveImage : P unit := setTaskImage None.

(** *** The load on mount (lines 36-62) and the first commit

    [setTasksOnly] is the state setter alone; the persistence effect is
    written out where it runs. *)
Definition setTasksOnly (newTasks : list Types.Task) : M unit :=
  modifyReact (fun s =>
    {| tasks := newTasks; cloudId := cloudId s; inputCloudId := inputCloudId s;
       syncStatus := syncStatus s; lastSyncTime := lastSyncTime s;
       isSyncModalOpen := isSyncModalOpen s |}).

(** The effect of lines 36-62 up to where it returns.  The value tells
    what it left behind: the fetch it started (bucket and the clock
    reading in its URL), if any, and whether it called [setTasks]. *)
Definition loadEffect (host : Host) : P (option (JsString.t * Z) * bool) :=
  savedUser ← localStorage_getItem "hidro_user";
  ((if truthyItem savedUser then
      user ← awaitP (parseUser host (default [] savedUser));
      setCurrentUser (Some user)
    else mret ()) : P unit);;
  savedCloudId ← localStorage_getItem "hidro_cloud_id";
  if truthyItem savedCloudId then
    liftApp (setCloudId (Some (default [] savedCloudId)));;
    liftApp (setSyncStatus syncing);;
    liftApp (perform (Call_fetchCloudTasks (default [] savedCloudId)));;
    now ← liftApp (Date_now (env host));
    mret (Some (default [] savedCloudId, now), false)
  else
    savedTasks ← localStorage_getItem "hidro_tasks";
    if truthyItem savedTasks then
      ts ← awaitP (parseTasks host (default [] savedTasks));
      liftApp (setTasksOnly ts);;
      mret (None, true)
    else mret (None, false).

(** The first commit: the load effect, then the persistence effect of
    lines 85-87 with the tasks of the first render, and, when the load
    effect has set the tasks, the persistence effect of the render that
    follows.  (The polling effect of the first render returns at once,
    [cloudId] being [null] in it.) *)
Definition mount (host : Host) : P (option (JsString.t * Z)) :=
  p ← renderPage;
  loaded ← loadEffect host;
  liftApp (localStorage_setItem "hidro_tasks" (JSON.stringify (tasks (react (world p)))));;
  q ← renderPage;
  ((if (loaded.2 : bool) then
      liftApp (localStorage_setItem "hidro_tasks" (JSON.stringify (tasks (react (world q)))))
    else mret ()) : P unit);;
  mret loaded.1.

(** The [then] callback of the initial fetch (lines 47-56). *)
Definition initialFetchThen (res : SyncResult) : M unit :=
  if success res && bool_decide (is_Some (data res)) then
    ((if hasTasks res then setTasks (dataOf res) else mret ()) : M unit);;
    setSyncStatus online
  else setSyncStatus error.

(** The mount and, when a fetch was started, its completion, nothing
    else happening in between. *)
Definition reload (host : Host) : P unit :=
  pending ← mount host;
  match pending with
  | Some (blobId, now) =>
      res ← awaitP (fetchCloudTasks (fetch (env host)) now blobId);
      liftApp (initialFetchThen res)
  | None => mret ()
  end.

(** The page a run of code leaves. *)
Definition afterP {A : Type} (m : P A) (p : Page) : Page := snd (m p).

(** *** What a render computes (lines 271-278, 328-345) *)
Definition relevantTasks (user : Users.User) (ts : list Types.Task) : list Types.Task :=
  List.filter
    (fun task =>
       if bool_decide (Users.role user = Users.MANAGER) then true
       else bool_decide (Types.get Types.assigneeId task
                         = Some (Types.VString (Users.id user))))
    ts.

Definition hasStatus (s : Types.TaskStatus) (t : Types.Task) : bool :=
  bool_decide (Types.get Types.status t = Some (Types.statusValue s)).

Definition pendingCount (user : Users.User) (ts : list Types.Task) : nat :=
  length (List.filter (hasStatus Types.PENDING) (relevantTasks user ts)).

Definition inProgressCount (user : Users.User) (ts : list Types.Task) : nat :=
  length (List.filter (hasStatus Types.IN_PROGRESS) (relevantTasks user ts)).

Definition completedCount (user : Users.User) (ts : list Types.Task) : nat :=
  length (List.filter (hasStatus Types.COMPLETED) (relevantTasks user ts)).

Definition isPressing (t : Types.Task) : bool :=
  bool_decide (Types.get Types.priority t = Some (Types.priorityValue Types.URGENT))
  || bool_decide (Types.get Types.priority t = Some (Types.priorityValue Types.HIGH)).

(** The cards under the "urgent" heading: [.filter(...).slice(0, 3)]. *)
Definition pressingCards (user : Users.User) (ts : list Types.Task) : list Types.Task :=
  take 3 (List.filter isPressing (relevantTasks user ts)).

(** Whether the "no urgent task" box is shown instead. *)
Definition showsAllClear (user : Users.User) (ts : list Types.Task) : bool :=
  (length (List.filter isPressing (relevantTasks user ts)) =? 0)%nat.

End Screen.

(** ** Everything that can happen to a page

    The handlers of the component and the callbacks of its pending
    promises and of its timer, each run to its end on the page, under
    whatever the outside answers at that moment. *)

Module Session.
Import StorageService App Screen.

Inductive Action :=
| Login (userId : JsString.t)
| Logout
| CreateTask
| UpdateStatus (now : Z) (taskId : JsString.t) (newStatus : Types.TaskStatus)
    (note : option JsString.t) (rating : option Z)
| EnrichWithAI
| RemoveImage
| TypeCloudId (raw : JsString.t)            (* onChange of the input, line 483 *)
| ShowSyncModal (open : bool)               (* lines 286, 308, 424 *)
| ConnectCloud
| DisconnectCloud
| PollTick
| RemoteWriteSettles (outcome : Completion SyncResult)
| InitialFetchSettles (outcome : Completion SyncResult).

Definition act (host : Host) (a : Action) : P unit :=
  match a with
  | Login userId => Screen.handleLogin host userId
  | Logout => Screen.handleLogout
  | CreateTask => Screen.handleCreateTask host
  | UpdateStatus now taskId newStatus note rating =>
      liftApp (App.handleUpdateStatus now taskId newStatus note rating)
  | EnrichWithAI => Screen.handleEnrichWithAI host
  | RemoveImage => Screen.handleRemoveImage
  | TypeCloudId raw => liftApp (setInputCloudId raw)
  | ShowSyncModal open => liftApp (setIsSyncModalOpen open)
  | ConnectCloud => liftApp (handleConnectCloud (env host))
  | DisconnectCloud => liftApp (handleDisconnectCloud (env host))
  | PollTick => liftApp (poll (env host))
  | RemoteWriteSettles outcome => liftApp (pushSettled (env host) outcome)
  | InitialFetchSettles outcome =>
      match outcome with
      | Normal res => liftApp (initialFetchThen res)
      | Throw => mret ()
      end
  end.

(** A history: what happened, each time with what the outside was.  A
    handler that throws leaves the page as it was when it threw. *)
Fixpoint history (steps : list (Host * Action)) (p : Page) : Page :=
  match steps with
  | [] => p
  | (host, a) :: steps' => history steps' (afterP (act host a) p)
  end.

(** The local mirror holds the text of the tasks on screen. *)
Definition mirrored (w : World) : Prop :=
  localStorage w !! "hidro_tasks" = Some (JSON.stringify (tasks (react w))).

(** The persisted bucket id is the active one. *)
Definition bucketPersisted (w : World) : Prop :=
  localStorage w !! "hidro_cloud_id" = cloudId (react w).

(** The active bucket id, if any, is a normalised identifier. *)
Definition bucketNormalised (w : World) : Prop :=
  forall blobId, cloudId (react w) = Some blobId ->
    (3 <= length blobId)%nat /\ Forall (fun c => JsString.isIdUnit c = true) blobId.

(** What a step may do to the tasks and their mirror, and to the
    active bucket and its persisted id: leave the pair alone or write
    both sides together. *)
Definition footprint (w w' : World) : Prop :=
  ((tasks (react w') = tasks (react w)
    /\ localStorage w' !! "hidro_tasks" = localStorage w !! "hidro_tasks")
   \/ localStorage w' !! "hidro_tasks" = Some (JSON.stringify (tasks (react w'))))
  /\ ((cloudId (react w') = cloudId (react w)
       /\ localStorage w' !! "hidro_cloud_id" = localStorage w !! "hidro_cloud_id")
      \/ (cloudId (react w') = None /\ localStorage w' !! "hidro_cloud_id" = None)
      \/ (exists blobId,
            cloudId (react w') = Some blobId
            /\ localStorage w' !! "hidro_cloud_id" = Some blobId
            /\ (3 <= length blobId)%nat
            /\ Forall (fun c => JsString.isIdUnit c = true) blobId)).

End Session.

Module ScreenSamples.
Import StorageService App Screen.

Definition chief : Users.User :=
  {| Users.id := JsString.lit "u1"; Users.name := JsString.lit "Erkan Usta";
     Users.role := Users.MANAGER; Users.avatar := JsString.lit "a1.png" |}.

Definition fitter : Users.User :=
  {| Users.id := JsString.lit "u2"; Users.name := JsString.lit "Ahmet Usta";
     Users.role := Users.MASTER; Users.avatar := JsString.lit "a2.png" |}.

(** A stand-in for the two JSON builtins on the sample data: the text
    of a user is its id, and the texts read back are those of the
    samples. *)
Definition host (e : Env) (advice : Completion JsString.t) : Host :=
  {| env := e;
     USERS := [chief; fitter];
     INITIAL_TASKS := [Samples.valveTask];
     stringifyUser := Users.id;
     parseUser := fun text =>
       if bool_decide (text = JsString.lit "u1") then Normal chief
       else if bool_decide (text = JsString.lit "u2") then Normal fitter
       else Throw;
     parseTasks := fun text =>
       if bool_decide (text = JSON.stringify [Samples.pumpTask]) then Normal [Samples.pumpTask]
       else if bool_decide (text = JSON.stringify [Samples.valveTask])
            then Normal [Samples.valveTask]
       else Throw;
     generateTaskDetails := fun _ _ => advice;
     randomId := JsString.lit "q1w2e3r4t" |}.

Definition page (user : option Users.User) (w : World) : Page :=
  {| currentUser := user; currentView := JsString.lit "dashboard";
     newTaskTitle := JsString.lit "Hortum patladi";
     newTaskDesc := JsString.lit "Acil";
     machineNameInput := JsString.lit "Pres 4";
     taskImage := Some [];
     selectedAssignee := JsString.lit "u2";
     selectedPriority := Types.URGENT;
     isGeneratingAI := false;
     world := w |}.

(** The first render over a given storage. *)
Definition firstRender (h : Host) (storage : gmap string JsString.t) : Page :=
  page None
    {| react := {| tasks := INITIAL_TASKS h; cloudId := None; inputCloudId := [];
                   syncStatus := offline; lastSyncTime := 1700000300000;
                   isSyncModalOpen := false |};
       localStorage := storage; clockReads := 0; effects := [] |}.

End ScreenSamples.

(** * Properties *)

(** ** Examples *)

Example cleanId_sample :
  cleanIdOf (JsString.lit "Erkan Usta!") = JsString.lit "erkan-usta-".
Proof. reflexivity. Qed.

Example cleanId_trims_then_replaces :
  cleanIdOf ([160; 9]%N ++ JsString.lit " Pres_2 / Hat-B " ++ [8232]%N)
  = JsString.lit "pres_2---hat-b".
Proof. reflexivity. Qed.

Example cleanId_astral_unit_by_unit :
  cleanIdOf (JsString.lit "a" ++ [55357; 56832]%N ++ JsString.lit "b") = JsString.lit "a--b".
Proof. reflexivity. Qed.

Example QuoteJSONString_sample :
  Json.QuoteJSONString (JsString.lit "a" ++ [34; 10; 92; 1; 55357; 56832; 56832; 233]%N)
  = Samples.jsonText "'a" ++ [Json.backslash; Json.quote] ++ JsString.lit "\n\\\u0001"
    ++ [55357; 56832]%N
    ++ JsString.lit "\ude00" ++ [233; 34]%N.
Proof. reflexivity. Qed.

Example stringify_sample :
  JSON.stringify [Samples.valveTask] =
  Samples.jsonText "[{'id':'b7w0z5c4d','title':'Valf degisimi','description':'Emniyet valfi','machineName':'Pres 2','assigneeId':'u3','creatorId':'u1','priority':'LOW','status':'IN_PROGRESS','createdAt':1700000100000,'startedAt':1700000200000}]".
Proof. reflexivity. Qed.

Example stringify_empty : JSON.stringify [] = JsString.lit "[]".
Proof. reflexivity. Qed.

Example fetchRequest_url :
  StorageService.url (StorageService.fetchRequest 1700000400000 (JsString.lit "fabrika-1"))
  = JsString.lit "https://kvdb.io/fabrika-1/tasks?_t=1700000400000".
Proof. reflexivity. Qed.

Example newTaskList_sample :
  App.newTaskList 1700000500000 (JsString.lit "k3x9q2m1a") Types.IN_PROGRESS
    (Some (JsString.lit "acil")) None [Samples.valveTask; Samples.pumpTask]
  = [Samples.valveTask;
     [(Types.id, Types.VString (JsString.lit "k3x9q2m1a"));
      (Types.title, Types.VString (JsString.lit "Pompa sizdiriyor"));
      (Types.description, Types.VString (JsString.lit "Ana pompa contasi"));
      (Types.machineName, Types.VString (JsString.lit "Pres 1"));
      (Types.assigneeId, Types.VString (JsString.lit "u2"));
      (Types.creatorId, Types.VString (JsString.lit "u1"));
      (Types.priority, Types.priorityValue Types.HIGH);
      (Types.status, Types.statusValue Types.IN_PROGRESS);
      (Types.createdAt, Types.VNumber 1700000000000);
      (Types.startedAt, Types.VNumber 1700000500000);
      (Types.managerNote, Types.VString (JsString.lit "acil"))]].
Proof. reflexivity. Qed.

(** The same closing of a task, the note and the rating given in the
    two orders: the same properties, written in different orders. *)
Example stringify_property_order :
  JSON.stringify [Samples.notedThenRated] =
  Samples.jsonText "[{'id':'b7w0z5c4d','title':'Valf degisimi','description':'Emniyet valfi','machineName':'Pres 2','assigneeId':'u3','creatorId':'u1','priority':'LOW','status':'COMPLETED','createdAt':1700000100000,'startedAt':1700000200000,'completedAt':1700000600000,'managerNote':'iyi','rating':5}]"
  /\ JSON.stringify [Samples.ratedThenNoted] =
  Samples.jsonText "[{'id':'b7w0z5c4d','title':'Valf degisimi','description':'Emniyet valfi','machineName':'Pres 2','assigneeId':'u3','creatorId':'u1','priority':'LOW','status':'COMPLETED','createdAt':1700000100000,'startedAt':1700000200000,'completedAt':1700000600000,'rating':5,'managerNote':'iyi'}]".
Proof. split; reflexivity. Qed.

(** ** The text of [JSON.stringify] determines the collection *)

Section JsonText.
Import Json.

Lemma hexValue_hexDigit d : (d < 16)%N -> hexValue (hexDigit d) = Some d.
Proof.
  intros H. unfold hexValue, hexDigit, JsString.isDigit.
  destruct (N.ltb_spec d 10).
  - replace ((48 <=? 48 + d) && (48 + d <=? 57))%N with true.
    + f_equal. lia.
    + symmetry. apply andb_true_iff. split; apply N.leb_le; lia.
  - replace ((48 <=? 87 + d) && (87 + d <=? 57))%N with false.
    + replace ((97 <=? 87 + d) && (87 + d <=? 102))%N with true.
      * f_equal. lia.
      * symmetry. apply andb_true_iff. split; apply N.leb_le; lia.
    + symmetry. apply andb_false_iff. right. apply N.leb_gt. lia.
Qed.

Lemma hex_recompose c : (c < 65536)%N ->
  ((((c / 4096 mod 16) * 16 + c / 256 mod 16) * 16 + c / 16 mod 16) * 16 + c mod 16 = c)%N.
Proof.
  intros H.
  change 4096%N with (16*16*16)%N. change 256%N with (16*16)%N.
  rewrite <- !N.Div0.div_div.
  assert (c / 16 / 16 / 16 < 16)%N.
  { repeat (apply N.Div0.div_lt_upper_bound). lia. }
  rewrite (N.mod_small (c/16/16/16) 16) by assumption.
  pose proof (N.div_mod c 16 ltac:(lia)).
  pose proof (N.div_mod (c/16) 16 ltac:(lia)).
  pose proof (N.div_mod (c/16/16) 16 ltac:(lia)).
  lia.
Qed.

Lemma unescape_unicode a b c d x :
  unescapeUnits (backslash :: 117%N :: a :: b :: c :: d :: x) =
  match hexValue a, hexValue b, hexValue c, hexValue d with
  | Some a, Some b, Some c', Some d =>
      pushUnit (((a * 16 + b) * 16 + c') * 16 + d)%N (unescapeUnits x)
  | _, _, _, _ => None
  end.
Proof. reflexivity. Qed.

Lemma unescape_plain c x :
  c <> quote -> c <> backslash ->
  unescapeUnits (c :: x) = pushUnit c (unescapeUnits x).
Proof.
  intros Hq Hb. cbn [unescapeUnits].
  apply N.eqb_neq in Hq, Hb. now rewrite Hq, Hb.
Qed.

Lemma unescape_unicodeEscape c x :
  (c < 65536)%N ->
  unescapeUnits (unicodeEscape c ++ x) = pushUnit c (unescapeUnits x).
Proof.
  intros H. unfold unicodeEscape. cbn [app]. rewrite unescape_unicode.
  rewrite !hexValue_hexDigit by (apply N.mod_lt; lia).
  now rewrite hex_recompose.
Qed.

Lemma unescape_escapeUnit c x :
  unescapeUnits (escapeUnit c ++ x) = pushUnit c (unescapeUnits x).
Proof.
  unfold escapeUnit, quote, backslash.
  repeat match goal with
  | |- context [if (c =? ?k)%N then _ else _] =>
      destruct (N.eqb_spec c k); [subst c; reflexivity|]
  end.
  destruct ((c <? 32)%N || isLeadSurrogate c || isTrailSurrogate c) eqn:E.
  - apply unescape_unicodeEscape.
    unfold isLeadSurrogate, isTrailSurrogate in E.
    repeat (apply orb_true_iff in E; destruct E as [E|E]).
    + apply N.ltb_lt in E. lia.
    + apply andb_true_iff in E. destruct E as [_ E]. apply N.leb_le in E. lia.
    + apply andb_true_iff in E. destruct E as [_ E]. apply N.leb_le in E. lia.
  - cbn [app]. now apply unescape_plain.
Qed.

Lemma escapeUnits_cons2 c d s :
  escapeUnits (c :: d :: s) =
  if isLeadSurrogate c && isTrailSurrogate d
  then c :: d :: escapeUnits s
  else escapeUnit c ++ escapeUnits (d :: s).
Proof. reflexivity. Qed.

Lemma unescape_escapeUnits s : forall r,
  unescapeUnits (escapeUnits s ++ quote :: r) = Some (s, r).
Proof.
  remember (length s) as n eqn:Hn.
  assert (Hle : (length s <= n)%nat) by lia. clear Hn. revert s Hle.
  induction n as [|n IH]; intros s Hle r.
  - destruct s; [reflexivity | cbn in Hle; lia].
  - destruct s as [|c [|d s'']].
    + reflexivity.
    + cbn [escapeUnits]. rewrite unescape_escapeUnit. reflexivity.
    + rewrite escapeUnits_cons2.
      destruct (isLeadSurrogate c && isTrailSurrogate d) eqn:E.
      * apply andb_true_iff in E. destruct E as [Ec Ed].
        unfold isLeadSurrogate in Ec. unfold isTrailSurrogate in Ed.
        apply andb_true_iff in Ec, Ed.
        destruct Ec as [Ec _]. destruct Ed as [Ed _].
        apply N.leb_le in Ec, Ed.
        cbn [app].
        rewrite unescape_plain by (unfold quote, backslash; lia).
        rewrite unescape_plain by (unfold quote, backslash; lia).
        rewrite IH by (cbn [length] in *; lia). reflexivity.
      * rewrite <- app_assoc. rewrite unescape_escapeUnit.
        rewrite IH by (cbn [length] in *; lia). reflexivity.
Qed.

(** A quoted string is read off the front of a text in one way only. *)
Lemma QuoteJSONString_cancel s1 s2 r1 r2 :
  QuoteJSONString s1 ++ r1 = QuoteJSONString s2 ++ r2 -> s1 = s2 /\ r1 = r2.
Proof.
  unfold QuoteJSONString. cbn [app]. intros H.
  injection H as H. rewrite <- !app_assoc in H. cbn [app] in H.
  apply (f_equal unescapeUnits) in H.
  rewrite !unescape_escapeUnits in H. now injection H.
Qed.

Lemma digitsOf_cancel u1 : forall u2 r1 r2,
  endsNumber r1 = true -> endsNumber r2 = true ->
  digitsOf u1 ++ r1 = digitsOf u2 ++ r2 -> u1 = u2 /\ r1 = r2.
Proof.
  induction u1 as [|u1 IH|u1 IH|u1 IH|u1 IH|u1 IH|u1 IH|u1 IH|u1 IH|u1 IH|u1 IH];
    intros [|u2|u2|u2|u2|u2|u2|u2|u2|u2|u2] r1 r2 E1 E2 H; cbn [digitsOf app] in H;
    try (split; [reflexivity | assumption]);
    try (subst; discriminate E1); try (subst; discriminate E2);
    try discriminate H;
    injection H as H; destruct (IH _ _ _ E1 E2 H) as [-> ->]; split; reflexivity.
Qed.

Lemma numberToString_cancel z1 z2 r1 r2 :
  endsNumber r1 = true -> endsNumber r2 = true ->
  numberToString z1 ++ r1 = numberToString z2 ++ r2 -> z1 = z2 /\ r1 = r2.
Proof.
  intros E1 E2. unfold numberToString, intText.
  rewrite <- (DecimalZ.of_to z1), <- (DecimalZ.of_to z2) at 2.
  destruct (Z.to_int z1) as [u1|u1], (Z.to_int z2) as [u2|u2]; cbn [app]; intros H.
  - destruct (digitsOf_cancel _ _ _ _ E1 E2 H) as [-> ->]. split; reflexivity.
  - destruct u1; cbn [digitsOf app] in H; try discriminate H.
    subst r1. discriminate E1.
  - destruct u2; cbn [digitsOf app] in H; try discriminate H.
    subst r2. discriminate E2.
  - injection H as H.
    destruct (digitsOf_cancel _ _ _ _ E1 E2 H) as [-> ->]. split; reflexivity.
Qed.

End JsonText.

Section StringifyInjective.
Import Json JSON.

Lemma cons_inv_tail (c : N) (x y : text) : c :: x = c :: y -> x = y.
Proof. intros H. now inversion H. Qed.

Lemma keyName_inj k1 k2 : Types.keyName k1 = Types.keyName k2 -> k1 = k2.
Proof. destruct k1, k2; intros H; try reflexivity; vm_compute in H; discriminate H. Qed.

Lemma priorityName_inj p1 p2 : Types.priorityName p1 = Types.priorityName p2 -> p1 = p2.
Proof. destruct p1, p2; intros H; try reflexivity; vm_compute in H; discriminate H. Qed.

Lemma statusName_inj s1 s2 : Types.statusName s1 = Types.statusName s2 -> s1 = s2.
Proof. destruct s1, s2; intros H; try reflexivity; vm_compute in H; discriminate H. Qed.

Lemma digitsOf_head u :
  u <> Decimal.Nil -> exists c x, digitsOf u = c :: x /\ startsNumber c = true.
Proof. destruct u; intros H; try congruence; eexists _, _; split; reflexivity. Qed.

Lemma numberToString_head z :
  exists c x, numberToString z = c :: x /\ startsNumber c = true.
Proof.
  unfold numberToString. destruct z as [|p|p]; cbn [Z.to_int intText].
  - eexists _, _. split; reflexivity.
  - apply digitsOf_head, DecimalPos.Unsigned.to_uint_nonnil.
  - eexists _, _. split; reflexivity.
Qed.

(** The first unit tells the kinds of value apart. *)
Ltac by_heads H :=
  repeat match type of H with
         | context [numberToString ?z] =>
             let c := fresh "c" in
             let x := fresh "x" in
             let E := fresh "E" in
             let Hc := fresh "Hc" in
             destruct (numberToString_head z) as (c & x & E & Hc); rewrite E in H
         end;
  apply (f_equal (hd 0%N)) in H; cbn in H; subst; discriminate.

Lemma SerializeValue_cancel v1 v2 r1 r2 :
  endsNumber r1 = true -> endsNumber r2 = true ->
  SerializeValue v1 ++ r1 = SerializeValue v2 ++ r2 -> v1 = v2 /\ r1 = r2.
Proof.
  intros E1 E2 H.
  destruct v1 as [|[|]|z1|s1], v2 as [|[|]|z2|s2]; cbn [SerializeValue] in H;
    try (apply app_inv_head in H; split; [reflexivity | assumption]);
    try (destruct (numberToString_cancel _ _ _ _ E1 E2 H) as [-> ->]; split; reflexivity);
    try (destruct (QuoteJSONString_cancel _ _ _ _ H) as [-> ->]; split; reflexivity);
    by_heads H.
Qed.

Lemma moreMembers_ends ps r : endsNumber (moreMembers ps ++ r) = true.
Proof. destruct ps; reflexivity. Qed.

Lemma member_cancel p1 p2 r1 r2 :
  endsNumber r1 = true -> endsNumber r2 = true ->
  member p1 ++ r1 = member p2 ++ r2 -> p1 = p2 /\ r1 = r2.
Proof.
  intros E1 E2. destruct p1 as [k1 v1], p2 as [k2 v2]. unfold member. cbn [fst snd].
  rewrite <- !app_assoc. intros H.
  apply QuoteJSONString_cancel in H. destruct H as [Hk H].
  apply keyName_inj in Hk. subst k2.
  cbn [app] in H. apply cons_inv_tail in H.
  destruct (SerializeValue_cancel _ _ _ _ E1 E2 H) as [-> ->]. split; reflexivity.
Qed.

Lemma moreMembers_cancel ps1 : forall ps2 r1 r2,
  moreMembers ps1 ++ r1 = moreMembers ps2 ++ r2 -> ps1 = ps2 /\ r1 = r2.
Proof.
  induction ps1 as [|p1 ps1 IH]; intros [|p2 ps2] r1 r2 H; cbn [moreMembers app] in H.
  - apply cons_inv_tail in H. split; [reflexivity | assumption].
  - discriminate H.
  - discriminate H.
  - apply cons_inv_tail in H. rewrite <- !app_assoc in H.
    apply member_cancel in H; [| apply moreMembers_ends ..].
    destruct H as [-> H]. destruct (IH _ _ _ H) as [-> ->]. split; reflexivity.
Qed.

(** An object is read off the front of a text in one way only: its
    properties, their values and their order. *)
Lemma SerializeTask_cancel t1 t2 r1 r2 :
  SerializeTask t1 ++ r1 = SerializeTask t2 ++ r2 -> t1 = t2 /\ r1 = r2.
Proof.
  unfold SerializeTask. cbn [app]. intros H. apply cons_inv_tail in H.
  destruct t1 as [|p1 t1], t2 as [|p2 t2].
  - cbn [app] in H. apply cons_inv_tail in H. split; [reflexivity | assumption].
  - apply (f_equal (hd 0%N)) in H. discriminate H.
  - apply (f_equal (hd 0%N)) in H. discriminate H.
  - rewrite <- !app_assoc in H.
    apply member_cancel in H; [| apply moreMembers_ends ..].
    destruct H as [-> H]. destruct (moreMembers_cancel _ _ _ _ H) as [-> ->].
    split; reflexivity.
Qed.

Lemma moreElements_inj ts1 : forall ts2,
  moreElements ts1 = moreElements ts2 -> ts1 = ts2.
Proof.
  induction ts1 as [|t1 ts1 IH]; intros [|t2 ts2] H; cbn [moreElements] in H.
  - reflexivity.
  - discriminate H.
  - discriminate H.
  - apply cons_inv_tail, SerializeTask_cancel in H.
    destruct H as [-> H]. f_equal. now apply IH.
Qed.

(** The text [JSON.stringify] gives for a task collection determines
    the collection: the tasks, their properties with their values, and
    the order of the properties. *)
Lemma stringify_inj ts1 ts2 : stringify ts1 = stringify ts2 -> ts1 = ts2.
Proof.
  unfold stringify. intros H. apply cons_inv_tail in H.
  destruct ts1 as [|t1 ts1], ts2 as [|t2 ts2].
  - reflexivity.
  - apply (f_equal (hd 0%N)) in H. discriminate H.
  - apply (f_equal (hd 0%N)) in H. discriminate H.
  - apply SerializeTask_cancel in H. destruct H as [-> H].
    f_equal. now apply moreElements_inj.
Qed.

End StringifyInjective.

(** ** The normalisation of bucket identifiers *)

Section Normalisation.
Import JsString.

Ltac unit_facts :=
  unfold isIdUnit, inClass, isWhiteSpace, isLower, isUpper, isDigit, lowerUnit,
         hyphen, underscore in *;
  repeat match goal with
         | |- _ = false => apply not_true_is_false; intro
         | H : _ = false |- _ => apply not_true_iff_false in H
         end;
  rewrite ?orb_true_iff, ?andb_true_iff, ?N.leb_le, ?N.eqb_eq in *.

Lemma idUnit_not_space c : isIdUnit c = true -> isWhiteSpace c = false.
Proof. intros H. unit_facts. lia. Qed.

Lemma idUnit_inClass c : isIdUnit c = true -> inClass c = true.
Proof. intros H. unit_facts. lia. Qed.

Lemma idUnit_lower c : isIdUnit c = true -> lowerUnit c = c.
Proof.
  intros H. unfold lowerUnit. destruct (isUpper c) eqn:E; [|reflexivity].
  unit_facts. lia.
Qed.

Lemma inClass_lower_idUnit c : inClass c = true -> isIdUnit (lowerUnit c) = true.
Proof.
  intros H. unfold lowerUnit. destruct (isUpper c) eqn:E.
  - unit_facts. lia.
  - unit_facts. lia.
Qed.

(** Every code unit that leaves the replacement is in the class, so
    [toLowerCase] meets ASCII letters, digits, hyphens and underscores
    only. *)
Lemma replaceOutsideClass_inClass s :
  Forall (fun c => inClass c = true) (replaceOutsideClass s).
Proof.
  unfold replaceOutsideClass. apply Forall_fmap, Forall_true. intros c. cbn.
  destruct (inClass c) eqn:E; [assumption | reflexivity].
Qed.

Lemma cleanIdOf_idUnits s : Forall (fun c => isIdUnit c = true) (cleanIdOf s).
Proof.
  unfold cleanIdOf, toLowerCase. apply Forall_fmap.
  eapply Forall_impl; [apply replaceOutsideClass_inClass|].
  intros c H. now apply inClass_lower_idUnit.
Qed.

Lemma trimStart_no_space s :
  Forall (fun c => isWhiteSpace c = false) s -> trimStart s = s.
Proof. destruct 1 as [|c s Hc _]; [reflexivity|]. cbn. now rewrite Hc. Qed.

Lemma trim_no_space s :
  Forall (fun c => isWhiteSpace c = false) s -> trim s = s.
Proof.
  intros H. unfold trim, trimEnd. rewrite (trimStart_no_space s H).
  rewrite trimStart_no_space by now apply Forall_rev.
  apply rev_involutive.
Qed.

Lemma map_fixed (f : N -> N) (P : N -> Prop) s :
  (forall c, P c -> f c = c) -> Forall P s -> map f s = s.
Proof. intros Hf. induction 1; cbn; [reflexivity|]. f_equal; auto. Qed.

Lemma cleanIdOf_fixed s :
  Forall (fun c => isIdUnit c = true) s -> cleanIdOf s = s.
Proof.
  intros H. unfold cleanIdOf.
  rewrite trim_no_space
    by (eapply Forall_impl; [exact H | exact idUnit_not_space]).
  unfold replaceOutsideClass, toLowerCase. rewrite map_map.
  apply map_fixed with (P := fun c => isIdUnit c = true); [|assumption].
  intros c Hc. rewrite (idUnit_inClass c Hc). now apply idUnit_lower.
Qed.

(** What [trim] does: it takes a run of white space off each end, and
    what is left neither starts nor ends with white space. *)
Lemma trimStart_spec s :
  exists pre, s = pre ++ trimStart s
              /\ Forall (fun c => isWhiteSpace c = true) pre
              /\ (forall c, head (trimStart s) = Some c -> isWhiteSpace c = false).
Proof.
  induction s as [|c s (pre & E & Hpre & Hhd)].
  - exists []. repeat split; [constructor | discriminate].
  - cbn [trimStart]. destruct (isWhiteSpace c) eqn:Ec.
    + exists (c :: pre). repeat split.
      * cbn. now f_equal.
      * now constructor.
      * assumption.
    + exists []. repeat split; [constructor|]. intros c' [= <-]. assumption.
Qed.

Lemma trim_spec s :
  exists pre post,
    s = pre ++ trim s ++ post
    /\ Forall (fun c => isWhiteSpace c = true) pre
    /\ Forall (fun c => isWhiteSpace c = true) post
    /\ (forall c, head (trim s) = Some c -> isWhiteSpace c = false)
    /\ (forall c, last (trim s) = Some c -> isWhiteSpace c = false).
Proof.
  destruct (trimStart_spec s) as (pre & E & Hpre & Hhd).
  destruct (trimStart_spec (rev (trimStart s))) as (post & E' & Hpost & Hlast).
  exists pre, (rev post). unfold trim, trimEnd.
  assert (Ets : trimStart s = rev (trimStart (rev (trimStart s))) ++ rev post).
  { rewrite <- rev_app_distr, <- E'. symmetry. apply rev_involutive. }
  repeat split.
  - rewrite <- Ets. exact E.
  - assumption.
  - now apply Forall_rev.
  - intros c Hc.
    destruct (rev (trimStart (rev (trimStart s)))) as [|c0 l] eqn:El; [discriminate|].
    cbn in Hc. injection Hc as ->. apply Hhd. rewrite Ets. reflexivity.
  - intros c Hc. apply Hlast. apply last_Some in Hc as [l' El].
    apply (f_equal (@rev N)) in El.
    rewrite rev_involutive, rev_app_distr in El. now rewrite El.
Qed.

End Normalisation.

(** ** The remote client *)

Section RemoteClient.
Import StorageService.

Lemma not_found_status_not_ok response :
  status response = 404%N -> ok response = false.
Proof. unfold ok. intros ->. reflexivity. Qed.

(** A response whose body is not JSON makes [response.json()] throw:
    the [catch] turns that into the connectivity failure as well. *)
Lemma fetchCloudTasks_malformed_body fetch now blobId response :
  fetch (fetchRequest now blobId) = Normal response ->
  ok response = true -> json response = Throw ->
  fetchCloudTasks fetch now blobId =
    Normal {| success := false; data := None; error := Some NO_CONNECTION; blobId := None |}.
Proof. intros Hf Hok Hj. unfold fetchCloudTasks. now rewrite Hf; cbn; rewrite Hok, Hj. Qed.

Lemma fetchCloudTasks_total fetch now blobId :
  exists res, fetchCloudTasks fetch now blobId = Normal res.
Proof.
  unfold fetchCloudTasks.
  destruct (fetch (fetchRequest now blobId)) as [response|]; cbn; [|eauto].
  destruct (ok response); [|destruct (status response =? 404)%N; cbn; eauto].
  destruct (json response) as [[]|]; cbn; eauto.
Qed.

Lemma updateCloudTasks_total fetch blobId ts :
  exists res, updateCloudTasks fetch blobId ts = Normal res.
Proof.
  unfold updateCloudTasks.
  destruct (fetch (updateRequest blobId ts)) as [response|]; cbn; [|eauto].
  destruct (ok response); cbn; eauto.
Qed.

(** A fetch result that carries tasks is a success without sentinel. *)
Lemma fetchCloudTasks_with_tasks fetch now blobId res t ts :
  fetchCloudTasks fetch now blobId = Normal res ->
  data res = Some (t :: ts) ->
  success res = true /\ error res = None.
Proof.
  unfold fetchCloudTasks.
  destruct (fetch (fetchRequest now blobId)) as [response|]; cbn.
  - destruct (ok response); [|destruct (status response =? 404)%N]; cbn.
    + destruct (json response) as [[]|]; cbn; intros [= <-]; cbn; intros [=]; auto.
    + intros [= <-]; cbn; intros [=].
    + intros [= <-]; cbn; intros [=].
  - intros [= <-]; cbn; intros [=].
Qed.

(** The not-found sentinel comes with success and no task. *)
Lemma fetchCloudTasks_not_found fetch now blobId res :
  fetchCloudTasks fetch now blobId = Normal res ->
  error res = Some NOT_FOUND ->
  success res = true /\ data res = Some [].
Proof.
  unfold fetchCloudTasks.
  destruct (fetch (fetchRequest now blobId)) as [response|]; cbn.
  - destruct (ok response); [|destruct (status response =? 404)%N]; cbn.
    + destruct (json response) as [[]|]; cbn; intros [= <-]; cbn; intros [=]; auto.
    + intros [= <-]; cbn; auto.
    + intros [= <-]; cbn; intros [=].
  - intros [= <-]; cbn; intros [=].
Qed.

(** C2, as the code has it.  [fetchCloudTasks] answers: the parsed array
    on an ok response with a JSON array body; no task on an ok response
    with a JSON body that is not an array; no task and the not-found
    sentinel on status 404; the generic remote error on any other
    status; the generic connectivity error when [fetch] itself fails, and
    also when the body of an ok response is not JSON; and in every case
    it returns a result, it does not throw. *)
Theorem fetchCloudTasks_results (fetch : Fetch) (now : Z) (blobId : JsString.t) :
  (forall response elements,
      fetch (fetchRequest now blobId) = Normal response ->
      ok response = true -> json response = Normal (JArray elements) ->
      fetchCloudTasks fetch now blobId =
        Normal {| success := true; data := Some elements; error := None; blobId := None |})
  /\ (forall response v,
      fetch (fetchRequest now blobId) = Normal response ->
      ok response = true -> json response = Normal v -> Array_isArray v = false ->
      fetchCloudTasks fetch now blobId =
        Normal {| success := true; data := Some []; error := None; blobId := None |})
  /\ (forall response,
      fetch (fetchRequest now blobId) = Normal response ->
      status response = 404%N ->
      fetchCloudTasks fetch now blobId =
        Normal {| success := true; data := Some []; error := Some NOT_FOUND; blobId := None |})
  /\ (forall response,
      fetch (fetchRequest now blobId) = Normal response ->
      ok response = false -> status response <> 404%N ->
      fetchCloudTasks fetch now blobId =
        Normal {| success := false; data := None; error := Some FETCH_FAILED; blobId := None |})
  /\ (fetch (fetchRequest now blobId) = Throw ->
      fetchCloudTasks fetch now blobId =
        Normal {| success := false; data := None; error := Some NO_CONNECTION; blobId := None |})
  /\ (forall response,
      fetch (fetchRequest now blobId) = Normal response ->
      ok response = true -> json response = Throw ->
      fetchCloudTasks fetch now blobId =
        Normal {| success := false; data := None; error := Some NO_CONNECTION; blobId := None |})
  /\ (exists res, fetchCloudTasks fetch now blobId = Normal res).
Proof.
  repeat split.
  - intros response elements Hf Hok Hj. unfold fetchCloudTasks.
    rewrite Hf. cbn. now rewrite Hok, Hj.
  - intros response v Hf Hok Hj Hv. unfold fetchCloudTasks.
    rewrite Hf. cbn. rewrite Hok, Hj. cbn. now destruct v.
  - intros response Hf Hst. unfold fetchCloudTasks.
    rewrite Hf. cbn. rewrite (not_found_status_not_ok _ Hst), Hst. reflexivity.
  - intros response Hf Hok Hst. unfold fetchCloudTasks.
    rewrite Hf. cbn. rewrite Hok. apply N.eqb_neq in Hst. now rewrite Hst.
  - intros Hf. unfold fetchCloudTasks. now rewrite Hf.
  - apply fetchCloudTasks_malformed_body.
  - apply fetchCloudTasks_total.
Qed.

Lemma fetchCloudTasks_results_witness :
  fetchCloudTasks (fun _ => Samples.holding [Samples.pumpTask]) 1700000400000
                  (JsString.lit "fabrika-1")
    = Normal {| success := true; data := Some [Samples.pumpTask];
                error := None; blobId := None |}
  /\ fetchCloudTasks (fun _ => Normal {| status := 200; json := Normal JObject |})
                     1700000400000 (JsString.lit "fabrika-1")
    = Normal {| success := true; data := Some []; error := None; blobId := None |}
  /\ fetchCloudTasks (fun _ => Normal {| status := 404; json := Throw |})
                     1700000400000 (JsString.lit "fabrika-1")
    = Normal {| success := true; data := Some []; error := Some NOT_FOUND; blobId := None |}
  /\ fetchCloudTasks (fun _ => Samples.serverError) 1700000400000 (JsString.lit "fabrika-1")
    = Normal {| success := false; data := None; error := Some FETCH_FAILED; blobId := None |}
  /\ fetchCloudTasks (fun _ => Throw) 1700000400000 (JsString.lit "fabrika-1")
    = Normal {| success := false; data := None; error := Some NO_CONNECTION; blobId := None |}
  /\ fetchCloudTasks (fun _ => Normal {| status := 200; json := Throw |})
                     1700000400000 (JsString.lit "fabrika-1")
    = Normal {| success := false; data := None; error := Some NO_CONNECTION; blobId := None |}.
Proof.
  split; [|split; [|split; [|split; [|split]]]].
  - apply (proj1 (fetchCloudTasks_results _ _ _))
      with (response := {| status := 200; json := Normal (JArray [Samples.pumpTask]) |});
      reflexivity.
  - apply (proj1 (proj2 (fetchCloudTasks_results _ _ _)))
      with (response := {| status := 200; json := Normal JObject |}) (v := JObject);
      reflexivity.
  - apply (proj1 (proj2 (proj2 (fetchCloudTasks_results _ _ _))))
      with (response := {| status := 404; json := Throw |});
      reflexivity.
  - apply (proj1 (proj2 (proj2 (proj2 (fetchCloudTasks_results _ _ _)))))
      with (response := {| status := 500; json := Throw |});
      [reflexivity | reflexivity | discriminate].
  - apply (proj1 (proj2 (proj2 (proj2 (proj2 (fetchCloudTasks_results _ _ _)))))).
    reflexivity.
  - apply (proj1 (proj2 (proj2 (proj2 (proj2 (proj2 (fetchCloudTasks_results _ _ _)))))))
      with (response := {| status := 200; json := Throw |});
      reflexivity.
Defined.

(** The claim C2 fails on an ok response whose body is not JSON (so not
    an array): the answer is not a success with no task but the
    connectivity failure. *)
Lemma fetch_ok_body_not_json_counterexample :
  ok {| status := 200; json := Throw |} = true
  /\ json {| status := 200; json := Throw |} = Throw
  /\ fetchCloudTasks (fun _ => Normal {| status := 200; json := Throw |})
                     1700000400000 (JsString.lit "fabrika-1")
     = Normal {| success := false; data := None; error := Some NO_CONNECTION; blobId := None |}
  /\ fetchCloudTasks (fun _ => Normal {| status := 200; json := Throw |})
                     1700000400000 (JsString.lit "fabrika-1")
     <> Normal {| success := true; data := Some []; error := None; blobId := None |}.
Proof. repeat split. discriminate. Qed.

End RemoteClient.

(** ** The sync coordinator *)

Section SyncCoordinator.
Import StorageService App.

Ltac run :=
  repeat progress
    (cbv beta iota delta
       [after poll pollCallback call_fetchCloudTasks call_updateCloudTasks
        updateTasksAndSync updateTasksAndSync_then pushSettled
        handleConnectCloud connectReconcile connectSuccessFlow handleDisconnectCloud
        mbind mret M_bind M_ret render modifyReact
        localStorage_setItem localStorage_removeItem perform Date_now alert confirm
        await setTasks setCloudId setInputCloudId setSyncStatus setLastSyncTime
        setIsSyncModalOpen];
     cbn [react localStorage clockReads effects tasks cloudId inputCloudId syncStatus
          lastSyncTime isSyncModalOpen fst snd andb negb]).

Lemma hasTasks_cons res t ts : data res = Some (t :: ts) -> hasTasks res = true.
Proof. unfold hasTasks. now intros ->. Qed.

Lemma dataOf_Some res ts : data res = Some ts -> dataOf res = ts.
Proof. unfold dataOf. now intros ->. Qed.

(** What a poll does with a fetch that brings tasks: the comparison of
    the two texts decides. *)
Lemma poll_with_tasks (env : Env) (w : World) (blobId : JsString.t)
    (res : SyncResult) (remote : list Types.Task) :
  cloudId (react w) = Some blobId -> truthy blobId = true ->
  fetchCloudTasks (fetch env) (clock env (clockReads w)) blobId = Normal res ->
  data res = Some remote -> remote <> [] ->
  let w' := after (poll env) w in
  let differs :=
    bool_decide (JSON.stringify remote ≠ JSON.stringify (tasks (react w))) in
  tasks (react w') = (if differs then remote else tasks (react w))
  /\ lastSyncTime (react w') =
       (if differs then clock env (S (clockReads w)) else lastSyncTime (react w))
  /\ localStorage w' =
       (if differs then <["hidro_tasks" := JSON.stringify remote]> (localStorage w)
        else localStorage w)
  /\ syncStatus (react w') = online
  /\ cloudId (react w') = cloudId (react w).
Proof.
  intros Hid Ht Hf Hd Hne.
  destruct remote as [|t ts]; [congruence|]. clear Hne.
  destruct (fetchCloudTasks_with_tasks _ _ _ _ _ _ Hf Hd) as [Hs _].
  pose proof (hasTasks_cons _ _ _ Hd) as Hh.
  pose proof (dataOf_Some _ _ Hd) as Hdo.
  cbv zeta. run. rewrite Hid. run. rewrite Ht. run. rewrite Hf. run.
  rewrite Hs, Hh, Hdo. run.
  destruct (bool_decide (JSON.stringify (t :: ts) ≠ JSON.stringify (tasks (react w)))); run;
    (destruct (decide (syncStatus (react w) = online)) as [Eo|Eo];
     [ rewrite bool_decide_eq_false_2 by (intros X; now apply X)
     | rewrite bool_decide_eq_true_2 by assumption ];
     run; repeat split; assumption).
Qed.




(** C7, as the code has it.  A poll whose fetch fails changes nothing,
    whatever the status is: the React state (the status with it) and
    the local storage stay as they are. *)
Theorem poll_failed_fetch_changes_nothing (env : Env) (w : World) (blobId : JsString.t)
    (res : SyncResult) :
  cloudId (react w) = Some blobId -> truthy blobId = true ->
  fetchCloudTasks (fetch env) (clock env (clockReads w)) blobId = Normal res ->
  success res = false ->
  react (after (poll env) w) = react w
  /\ localStorage (after (poll env) w) = localStorage w.
Proof.
  intros Hid Ht Hf Hs.
  run. rewrite Hid. run. rewrite Ht. run. rewrite Hf. run. rewrite Hs. run.
  split; reflexivity.
Qed.

Lemma poll_failed_fetch_changes_nothing_witness :
  react (after (poll (Samples.env Samples.serverError true))
               (Samples.connected [Samples.pumpTask] online))
    = react (Samples.connected [Samples.pumpTask] online)
  /\ localStorage (after (poll (Samples.env Samples.serverError true))
                         (Samples.connected [Samples.pumpTask] online))
    = localStorage (Samples.connected [Samples.pumpTask] online).
Proof.
  apply (poll_failed_fetch_changes_nothing
           (Samples.env Samples.serverError true)
           (Samples.connected [Samples.pumpTask] online)
           (JsString.lit "fabrika-1")
           (mkSyncResult false None (Some FETCH_FAILED) None));
    reflexivity.
Defined.

(** The claim C7 fails where it says that a failed poll takes the
    status out of [online]: the bucket answers 500, the fetch fails, the
    status was [online] and still is. *)
Lemma poll_failure_while_online_counterexample :
  fetchCloudTasks (fetch (Samples.env Samples.serverError true)) (Samples.ticking 0)
                  (JsString.lit "fabrika-1")
    = Normal (mkSyncResult false None (Some FETCH_FAILED) None)
  /\ syncStatus (react (Samples.connected [Samples.pumpTask] online)) = online
  /\ syncStatus (react (after (poll (Samples.env Samples.serverError true))
                              (Samples.connected [Samples.pumpTask] online))) = online.
Proof. repeat split. Qed.

(** C8, as the code has it.  [handleDisconnectCloud] first asks for
    confirmation.  Confirmed, it clears the active bucket id, removes
    the persisted identifier, sets the status to [offline] and leaves
    the task collection and its mirror alone, after which a poll does
    nothing (no fetch).  Declined, it changes nothing. *)
Theorem handleDisconnectCloud_asks_first (env : Env) (w : World) :
  let w' := after (handleDisconnectCloud env) w in
  (confirmAnswer env DisconnectConfirm = true ->
     cloudId (react w') = None
     /\ localStorage w' = delete "hidro_cloud_id" (localStorage w)
     /\ localStorage w' !! "hidro_cloud_id" = None
     /\ syncStatus (react w') = offline
     /\ tasks (react w') = tasks (react w)
     /\ localStorage w' !! "hidro_tasks" = localStorage w !! "hidro_tasks"
     /\ forall env', after (poll env') w' = w')
  /\ (confirmAnswer env DisconnectConfirm = false ->
     react w' = react w /\ localStorage w' = localStorage w).
Proof.
  cbv zeta. split; intros Hc; run; rewrite Hc; run.
  - repeat split.
    + apply lookup_delete_eq.
    + now apply lookup_delete_ne.
  - split; reflexivity.
Qed.

Lemma handleDisconnectCloud_asks_first_witness :
  (cloudId (react (after (handleDisconnectCloud (Samples.env Samples.serverError true))
                         (Samples.connected [Samples.pumpTask] online))) = None
   /\ localStorage (after (handleDisconnectCloud (Samples.env Samples.serverError true))
                          (Samples.connected [Samples.pumpTask] online))
        !! "hidro_cloud_id" = None
   /\ syncStatus (react (after (handleDisconnectCloud (Samples.env Samples.serverError true))
                               (Samples.connected [Samples.pumpTask] online))) = offline)
  /\ react (after (handleDisconnectCloud (Samples.env Samples.serverError false))
                  (Samples.connected [Samples.pumpTask] online))
     = react (Samples.connected [Samples.pumpTask] online).
Proof.
  split.
  - destruct (handleDisconnectCloud_asks_first
                (Samples.env Samples.serverError true)
                (Samples.connected [Samples.pumpTask] online)) as [H _].
    destruct (H eq_refl) as (H1 & _ & H3 & H4 & _).
    split; [exact H1 | split; [exact H3 | exact H4]].
  - destruct (handleDisconnectCloud_asks_first
                (Samples.env Samples.serverError false)
                (Samples.connected [Samples.pumpTask] online)) as [_ H].
    destruct (H eq_refl) as [H1 _]. exact H1.
Defined.

(** The claim C8 fails when the user declines the dialog: the bucket
    stays active and persisted, the status stays [online]. *)
Lemma disconnect_declined_counterexample :
  cloudId (react (after (handleDisconnectCloud (Samples.env Samples.serverError false))
                        (Samples.connected [Samples.pumpTask] online)))
    = Some (JsString.lit "fabrika-1")
  /\ localStorage (after (handleDisconnectCloud (Samples.env Samples.serverError false))
                         (Samples.connected [Samples.pumpTask] online))
       !! "hidro_cloud_id" = Some (JsString.lit "fabrika-1")
  /\ syncStatus (react (after (handleDisconnectCloud (Samples.env Samples.serverError false))
                              (Samples.connected [Samples.pumpTask] online))) = online.
Proof. repeat split. Qed.

(** C6, as the code has it.  When the normalised identifier is shorter
    than three code units, [handleConnectCloud] calls neither
    [fetchCloudTasks] nor [updateCloudTasks] and changes nothing: the
    React state (active bucket, status, tasks), the local storage and
    the clock are as before.  It shows the alert when the raw
    identifier is not empty; on the empty identifier the guard of line
    191 returns before, and nothing is shown. *)
Theorem handleConnectCloud_rejects_short (env : Env) (w : World) :
  (length (cleanIdOf (inputCloudId (react w))) < 3)%nat ->
  let w' := after (handleConnectCloud env) w in
  react w' = react w
  /\ localStorage w' = localStorage w
  /\ clockReads w' = clockReads w
  /\ effects w' =
       effects w ++ (if truthy (inputCloudId (react w)) then [Alert MinLengthAlert] else [])
  /\ filter isNetworkCall (effects w') = filter isNetworkCall (effects w).
Proof.
  intros Hlen. apply Nat.ltb_lt in Hlen. cbv zeta. run.
  destruct (truthy (inputCloudId (react w))); run.
  - rewrite Hlen. run. repeat split. now rewrite filter_app, app_nil_r.
  - rewrite app_nil_r. destruct w. repeat split.
Qed.

Lemma handleConnectCloud_rejects_short_witness :
  (length (cleanIdOf (JsString.lit "ab")) < 3)%nat
  /\ react (after (handleConnectCloud (Samples.env (Samples.holding [Samples.valveTask]) true))
                  (Samples.disconnected [Samples.pumpTask] (JsString.lit "ab")))
     = react (Samples.disconnected [Samples.pumpTask] (JsString.lit "ab"))
  /\ effects (after (handleConnectCloud (Samples.env (Samples.holding [Samples.valveTask]) true))
                    (Samples.disconnected [Samples.pumpTask] (JsString.lit "ab")))
     = [Alert MinLengthAlert].
Proof.
  assert (H : (length (cleanIdOf (JsString.lit "ab")) < 3)%nat) by (vm_compute; lia).
  split; [exact H|].
  destruct (handleConnectCloud_rejects_short
              (Samples.env (Samples.holding [Samples.valveTask]) true)
              (Samples.disconnected [Samples.pumpTask] (JsString.lit "ab")) H)
    as (H1 & _ & _ & H4 & _).
  split; assumption.
Defined.

(** The claim C6 fails on the empty identifier: its normal form has
    length 0, and [handleConnectCloud] returns without any alert. *)
Lemma connect_empty_identifier_counterexample :
  (length (cleanIdOf []) < 3)%nat
  /\ filter isAlert
       (effects (after (handleConnectCloud (Samples.env (Samples.holding [Samples.valveTask]) true))
                       (Samples.disconnected [Samples.pumpTask] []))) = [].
Proof. split; [vm_compute; lia | reflexivity]. Qed.

(** What an accepted identifier starts: the status goes to [syncing]
    and [fetchCloudTasks] is called on the normalised identifier, before
    any dialog. *)
Lemma handleConnectCloud_accepts (env : Env) (w : World) :
  truthy (inputCloudId (react w)) = true ->
  (3 <= length (cleanIdOf (inputCloudId (react w))))%nat ->
  exists rest,
    effects (after (handleConnectCloud env) w)
      = effects w ++ Call_fetchCloudTasks (cleanIdOf (inputCloudId (react w))) :: rest
    /\ Forall (fun e => e <> Alert MinLengthAlert) rest.
Proof.
  intros Ht Hlen. apply Nat.ltb_ge in Hlen. run. rewrite Ht. run. rewrite Hlen. run.
  destruct (fetchCloudTasks _ _ _) as [res|]; run.
  2: { eexists; split; [reflexivity | constructor]. }
  destruct (success res); run.
  2: { rewrite <- app_assoc. eexists; split; [reflexivity|].
       repeat constructor; discriminate. }
  destruct (bool_decide (StorageService.error res = Some NOT_FOUND)); run.
  - destruct (updateCloudTasks _ _ _) as [initRes|]; run.
    2: { rewrite <- app_assoc. eexists; split; [reflexivity|].
         repeat constructor; discriminate. }
    destruct (success initRes); run; rewrite <- !app_assoc;
      (eexists; split; [reflexivity | repeat constructor; discriminate]).
  - destruct (hasTasks res); run.
    + destruct (confirmAnswer env LoadRemoteConfirm); run; rewrite <- !app_assoc;
        (eexists; split; [reflexivity | repeat constructor; discriminate]).
    + eexists; split; [reflexivity | constructor].
Qed.

(** C5.  When the fetch of an accepted identifier signals not-found,
    [handleConnectCloud] at once calls [updateCloudTasks] on the new
    bucket with the local tasks.  If that write fails the status is
    [error] and the active bucket id and the persisted one are what they
    were; if it succeeds the identifier is the active bucket id, it is
    persisted, and the status is [online]. *)
Theorem handleConnectCloud_creates_bucket (env : Env) (w : World) (res initRes : SyncResult) :
  let cleanId := cleanIdOf (inputCloudId (react w)) in
  truthy (inputCloudId (react w)) = true -> (3 <= length cleanId)%nat ->
  fetchCloudTasks (fetch env) (clock env (clockReads w)) cleanId = Normal res ->
  StorageService.error res = Some NOT_FOUND ->
  updateCloudTasks (fetch env) cleanId (tasks (react w)) = Normal initRes ->
  let w' := after (handleConnectCloud env) w in
  (exists shown,
      effects w' = effects w ++ [Call_fetchCloudTasks cleanId;
                                 Call_updateCloudTasks cleanId (tasks (react w));
                                 Alert shown])
  /\ tasks (react w') = tasks (react w)
  /\ (success initRes = false ->
        syncStatus (react w') = error
        /\ cloudId (react w') = cloudId (react w)
        /\ localStorage w' = localStorage w)
  /\ (success initRes = true ->
        cloudId (react w') = Some cleanId
        /\ localStorage w' !! "hidro_cloud_id" = Some cleanId
        /\ syncStatus (react w') = online).
Proof.
  cbv zeta. intros Ht Hlen Hf He Hu. apply Nat.ltb_ge in Hlen.
  destruct (fetchCloudTasks_not_found _ _ _ _ Hf He) as [Hs _].
  run. rewrite Ht. run. rewrite Hlen. run. rewrite Hf. run. rewrite Hs.
  rewrite bool_decide_eq_true_2 by assumption. run. rewrite Hu. run.
  destruct (success initRes); run; rewrite <- !app_assoc; cbn [app].
  - repeat split; try discriminate; eauto. apply lookup_insert_eq.
  - repeat split; try discriminate; eauto.
Qed.

Lemma handleConnectCloud_creates_bucket_witness :
  (cloudId (react (after (handleConnectCloud (Samples.freshBucket (Samples.holding [])))
                         (Samples.disconnected [Samples.pumpTask] (JsString.lit "Erkan Usta!"))))
     = Some (JsString.lit "erkan-usta-")
   /\ syncStatus (react (after (handleConnectCloud (Samples.freshBucket (Samples.holding [])))
                               (Samples.disconnected [Samples.pumpTask] (JsString.lit "Erkan Usta!"))))
     = online)
  /\ (cloudId (react (after (handleConnectCloud (Samples.freshBucket Samples.serverError))
                            (Samples.disconnected [Samples.pumpTask] (JsString.lit "Erkan Usta!"))))
     = None
   /\ syncStatus (react (after (handleConnectCloud (Samples.freshBucket Samples.serverError))
                               (Samples.disconnected [Samples.pumpTask] (JsString.lit "Erkan Usta!"))))
     = error).
Proof.
  split.
  - destruct (handleConnectCloud_creates_bucket
                (Samples.freshBucket (Samples.holding []))
                (Samples.disconnected [Samples.pumpTask] (JsString.lit "Erkan Usta!"))
                (mkSyncResult true (Some []) (Some NOT_FOUND) None)
                (mkSyncResult true None None None)
                eq_refl ltac:(vm_compute; lia) eq_refl eq_refl eq_refl)
      as (_ & _ & _ & H).
    destruct (H eq_refl) as (H1 & _ & H3). split; assumption.
  - destruct (handleConnectCloud_creates_bucket
                (Samples.freshBucket Samples.serverError)
                (Samples.disconnected [Samples.pumpTask] (JsString.lit "Erkan Usta!"))
                (mkSyncResult true (Some []) (Some NOT_FOUND) None)
                (mkSyncResult false None (Some SAVE_FAILED) None)
                eq_refl ltac:(vm_compute; lia) eq_refl eq_refl eq_refl)
      as (_ & _ & H & _).
    destruct (H eq_refl) as (H1 & H2 & _). split; assumption.
Defined.

Lemma long_id_truthy (s : JsString.t) : (3 <= length s)%nat -> truthy s = true.
Proof. destruct s; cbn; [lia | reflexivity]. Qed.

(** C10.  When the fetch of an accepted identifier brings a non-empty
    collection and the user declines to load it, the local tasks and
    their mirror stay, and still the identifier becomes the active
    bucket id, is persisted, and the status is [online]; so that a
    later poll that brings a non-empty collection different from the
    local one puts it in place of the tasks the user kept. *)
Theorem handleConnectCloud_declined_load (env : Env) (w : World) (res : SyncResult)
    (remote : list Types.Task) :
  let cleanId := cleanIdOf (inputCloudId (react w)) in
  truthy (inputCloudId (react w)) = true -> (3 <= length cleanId)%nat ->
  fetchCloudTasks (fetch env) (clock env (clockReads w)) cleanId = Normal res ->
  data res = Some remote -> remote <> [] ->
  confirmAnswer env LoadRemoteConfirm = false ->
  let w' := after (handleConnectCloud env) w in
  tasks (react w') = tasks (react w)
  /\ localStorage w' !! "hidro_tasks" = localStorage w !! "hidro_tasks"
  /\ cloudId (react w') = Some cleanId
  /\ localStorage w' !! "hidro_cloud_id" = Some cleanId
  /\ syncStatus (react w') = online
  /\ (forall env' res' remote',
        fetchCloudTasks (fetch env') (clock env' (clockReads w')) cleanId = Normal res' ->
        data res' = Some remote' -> remote' <> [] -> remote' <> tasks (react w) ->
        tasks (react (after (poll env') w')) = remote').
Proof.
  cbv zeta. intros Ht Hlen Hf Hd Hne Hc.
  assert (Htasks : tasks (react (after (handleConnectCloud env) w)) = tasks (react w)
          /\ cloudId (react (after (handleConnectCloud env) w))
             = Some (cleanIdOf (inputCloudId (react w)))
          /\ localStorage (after (handleConnectCloud env) w)
             = <["hidro_cloud_id" := cleanIdOf (inputCloudId (react w))]> (localStorage w)
          /\ syncStatus (react (after (handleConnectCloud env) w)) = online).
  { destruct remote as [|t ts]; [congruence|].
    destruct (fetchCloudTasks_with_tasks _ _ _ _ _ _ Hf Hd) as [Hs He].
    pose proof (hasTasks_cons _ _ _ Hd) as Hh.
    pose proof Hlen as Hlen'. apply Nat.ltb_ge in Hlen'.
    run. rewrite Ht. run. rewrite Hlen'. run. rewrite Hf. run. rewrite Hs.
    rewrite bool_decide_eq_false_2 by (rewrite He; discriminate).
    rewrite Hh. run. rewrite Hc. run. repeat split. }
  destruct Htasks as (H1 & H2 & H3 & H4).
  repeat split; try assumption.
  - rewrite H3. now apply lookup_insert_ne.
  - rewrite H3. apply lookup_insert_eq.
  - intros env' res' remote' Hf' Hd' Hne' Hdiff.
    destruct (poll_with_tasks env' _ _ res' remote' H2 (long_id_truthy _ Hlen) Hf' Hd' Hne')
      as [Hrep _].
    rewrite H1 in Hrep. rewrite Hrep. rewrite bool_decide_eq_true_2; [reflexivity|].
    intros Hj. apply Hdiff. now apply stringify_inj.
Qed.

Lemma handleConnectCloud_declined_load_witness :
  tasks (react (after (handleConnectCloud (Samples.env (Samples.holding [Samples.valveTask]) false))
                      (Samples.disconnected [Samples.pumpTask] (JsString.lit "Erkan Usta!"))))
    = [Samples.pumpTask]
  /\ cloudId (react (after (handleConnectCloud (Samples.env (Samples.holding [Samples.valveTask]) false))
                           (Samples.disconnected [Samples.pumpTask] (JsString.lit "Erkan Usta!"))))
    = Some (JsString.lit "erkan-usta-")
  /\ tasks (react (after (poll (Samples.env (Samples.holding [Samples.valveTask]) false))
             (after (handleConnectCloud (Samples.env (Samples.holding [Samples.valveTask]) false))
                    (Samples.disconnected [Samples.pumpTask] (JsString.lit "Erkan Usta!")))))
    = [Samples.valveTask].
Proof.
  destruct (handleConnectCloud_declined_load
              (Samples.env (Samples.holding [Samples.valveTask]) false)
              (Samples.disconnected [Samples.pumpTask] (JsString.lit "Erkan Usta!"))
              (mkSyncResult true (Some [Samples.valveTask]) None None)
              [Samples.valveTask]
              eq_refl ltac:(vm_compute; lia) eq_refl eq_refl ltac:(discriminate) eq_refl)
    as (H1 & _ & H3 & _ & _ & H6).
  split; [exact H1 | split; [exact H3 |]].
  apply (H6 (Samples.env (Samples.holding [Samples.valveTask]) false)
            (mkSyncResult true (Some [Samples.valveTask]) None None)
            [Samples.valveTask] eq_refl eq_refl);
    discriminate.
Defined.

(** C3.  The normalisation takes the white space off both ends of the
    identifier, then turns each remaining code unit into its lower-case
    form when it is a letter, digit, hyphen or underscore and into a
    hyphen when it is not.  "Erkan Usta!" becomes "erkan-usta-", eleven
    units long, and [handleConnectCloud] accepts it: it goes on to fetch
    that bucket and does not show the length alert. *)
Theorem cleanIdOf_normalises :
  (forall raw,
      exists pre post,
        raw = pre ++ JsString.trim raw ++ post
        /\ Forall (fun c => JsString.isWhiteSpace c = true) pre
        /\ Forall (fun c => JsString.isWhiteSpace c = true) post
        /\ (forall c, head (JsString.trim raw) = Some c -> JsString.isWhiteSpace c = false)
        /\ (forall c, last (JsString.trim raw) = Some c -> JsString.isWhiteSpace c = false)
        /\ cleanIdOf raw =
             map (fun c => if JsString.inClass c then JsString.lowerUnit c else JsString.hyphen)
                 (JsString.trim raw))
  /\ cleanIdOf (JsString.lit "Erkan Usta!") = JsString.lit "erkan-usta-"
  /\ (3 <= length (cleanIdOf (JsString.lit "Erkan Usta!")))%nat
  /\ (forall env w,
        inputCloudId (react w) = JsString.lit "Erkan Usta!" ->
        exists rest,
          effects (after (handleConnectCloud env) w)
            = effects w ++ Call_fetchCloudTasks (JsString.lit "erkan-usta-") :: rest
          /\ Forall (fun e => e <> Alert MinLengthAlert) rest).
Proof.
  split; [|split; [reflexivity | split; [vm_compute; lia|]]].
  - intros raw. destruct (trim_spec raw) as (pre & post & E & Hpre & Hpost & Hh & Hl).
    exists pre, post. repeat split; try assumption.
    unfold cleanIdOf, JsString.toLowerCase, JsString.replaceOutsideClass.
    rewrite map_map. apply map_ext. intros c.
    destruct (JsString.inClass c); reflexivity.
  - intros env w Hraw.
    destruct (handleConnectCloud_accepts env w) as (rest & E & Hrest).
    + now rewrite Hraw.
    + rewrite Hraw. vm_compute. lia.
    + exists rest. rewrite Hraw in E. split; assumption.
Qed.

Lemma cleanIdOf_normalises_witness :
  exists rest,
    effects (after (handleConnectCloud (Samples.env (Samples.holding []) true))
                   (Samples.disconnected [Samples.pumpTask] (JsString.lit "Erkan Usta!")))
      = Call_fetchCloudTasks (JsString.lit "erkan-usta-") :: rest
    /\ Forall (fun e => e <> Alert MinLengthAlert) rest.
Proof.
  destruct cleanIdOf_normalises as (_ & _ & _ & H).
  exact (H (Samples.env (Samples.holding []) true)
           (Samples.disconnected [Samples.pumpTask] (JsString.lit "Erkan Usta!"))
           eq_refl).
Defined.

(** *** Local mutations and the writes they start *)

Lemma handleCreateTask_is_mutation env newTask :
  handleCreateTask newTask = handleEvent env (LocalMutation (cons newTask)).
Proof. reflexivity. Qed.

Lemma handleUpdateStatus_is_mutation env now taskId newStatus note rating :
  handleUpdateStatus now taskId newStatus note rating
  = handleEvent env (LocalMutation (newTaskList now taskId newStatus note rating)).
Proof. reflexivity. Qed.

Lemma updateTasksAndSync_run newTasks w :
  updateTasksAndSync newTasks w = (Normal (), after (updateTasksAndSync newTasks) w)
  /\ tasks (react (after (updateTasksAndSync newTasks) w)) = newTasks
  /\ cloudId (react (after (updateTasksAndSync newTasks) w)) = cloudId (react w).
Proof.
  run. destruct (cloudId (react w)) as [blobId|] eqn:E; run.
  - destruct (truthy blobId); run; repeat split; assumption.
  - repeat split; assumption.
Qed.

Lemma pushSettled_run env outcome w :
  pushSettled env outcome w = (Normal (), after (pushSettled env outcome) w)
  /\ tasks (react (after (pushSettled env outcome) w)) = tasks (react w)
  /\ localStorage (after (pushSettled env outcome) w) = localStorage w
  /\ cloudId (react (after (pushSettled env outcome) w)) = cloudId (react w)
  /\ effects (after (pushSettled env outcome) w) = effects w.
Proof.
  destruct outcome as [res|]; run.
  - destruct (success res); run; repeat split.
  - repeat split.
Qed.

Lemma handleEvent_run env e w :
  handleEvent env e w = (Normal (), after (handleEvent env e) w)
  /\ tasks (react (after (handleEvent env e) w)) = applyMutations [e] (tasks (react w)).
Proof.
  destruct e as [change|outcome]; cbn [handleEvent applyMutations].
  - destruct (updateTasksAndSync_run (change (tasks (react w))) w) as (E & Ht & _).
    unfold after in *. unfold mbind, M_bind, render. cbn [fst snd].
    split; [exact E | exact Ht].
  - destruct (pushSettled_run env outcome w) as (E & Ht & _).
    split; [exact E | exact Ht].
Qed.

Lemma handleEvents_cons env e es w :
  after (handleEvents env (e :: es)) w
  = after (handleEvents env es) (after (handleEvent env e) w).
Proof.
  destruct (handleEvent_run env e w) as [E _].
  unfold after at 1. cbn [handleEvents]. unfold mbind, M_bind. now rewrite E.
Qed.

(** Whatever the order in which mutations happen and writes settle,
    the task collection is what the mutations alone make of it. *)
Lemma handleEvents_tasks env es : forall w,
  tasks (react (after (handleEvents env es) w)) = applyMutations es (tasks (react w)).
Proof.
  induction es as [|e es IH]; intros w.
  - reflexivity.
  - rewrite handleEvents_cons, IH.
    destruct (handleEvent_run env e w) as [_ ->]. now destruct e.
Qed.

(** C4.  While a bucket is active, [updateTasksAndSync] has put the new
    collection in the task store (and its mirror) by the time it
    returns, with the status at [syncing] and the remote write only
    started.  When that write settles, successfully or not, the task
    collection, its mirror and the active bucket are untouched: success
    sets the status to [online] and the last-sync time, failure sets
    the status to [error] and nothing else, so nothing is rolled back.
    Hence after any schedule of mutations and settling writes the task
    store is the mutations applied in order; in particular M1 then M2,
    wherever M1's write settles. *)
Theorem push_is_optimistic (env : Env) (w : World) (blobId : JsString.t) :
  cloudId (react w) = Some blobId -> truthy blobId = true ->
  (forall newTasks,
      let w1 := after (updateTasksAndSync newTasks) w in
      tasks (react w1) = newTasks
      /\ localStorage w1 !! "hidro_tasks" = Some (JSON.stringify newTasks)
      /\ syncStatus (react w1) = syncing
      /\ lastSyncTime (react w1) = lastSyncTime (react w)
      /\ effects w1 = effects w ++ [Call_updateCloudTasks blobId newTasks])
  /\ (forall w0 outcome,
      let w2 := after (pushSettled env outcome) w0 in
      tasks (react w2) = tasks (react w0)
      /\ localStorage w2 = localStorage w0
      /\ cloudId (react w2) = cloudId (react w0)
      /\ (forall res, outcome = Normal res -> success res = true ->
            syncStatus (react w2) = online
            /\ lastSyncTime (react w2) = clock env (clockReads w0))
      /\ (forall res, outcome = Normal res -> success res = false ->
            syncStatus (react w2) = error
            /\ lastSyncTime (react w2) = lastSyncTime (react w0)))
  /\ (forall es,
      tasks (react (after (handleEvents env es) w)) = applyMutations es (tasks (react w)))
  /\ (forall M1 M2 outcome,
      tasks (react (after (handleEvents env
               [LocalMutation M1; RemoteWriteSettled outcome; LocalMutation M2]) w))
        = M2 (M1 (tasks (react w)))
      /\ tasks (react (after (handleEvents env
               [LocalMutation M1; LocalMutation M2; RemoteWriteSettled outcome]) w))
        = M2 (M1 (tasks (react w)))).
Proof.
  intros Hid Ht. split; [|split; [|split]].
  - intros newTasks. cbv zeta. run. rewrite Hid. run. rewrite Ht. run.
    repeat split. apply lookup_insert_eq.
  - intros w0 outcome. cbv zeta.
    destruct (pushSettled_run env outcome w0) as (_ & H1 & H2 & H3 & _).
    split; [exact H1 | split; [exact H2 | split; [exact H3 | split]]].
    + intros res -> Hs. run. rewrite Hs. run. split; reflexivity.
    + intros res -> Hs. run. rewrite Hs. run. split; reflexivity.
  - intros es. apply handleEvents_tasks.
  - intros M1 M2 outcome. rewrite !handleEvents_tasks. split; reflexivity.
Qed.

Lemma push_is_optimistic_witness :
  tasks (react (after (handleEvents (Samples.env Samples.serverError true)
           [LocalMutation (cons Samples.valveTask);
            RemoteWriteSettled (Normal (mkSyncResult false None (Some SAVE_FAILED) None));
            LocalMutation (newTaskList 1700000500000 (JsString.lit "k3x9q2m1a")
                                             Types.IN_PROGRESS None None)])
          (Samples.connected [Samples.pumpTask] online)))
    = newTaskList 1700000500000 (JsString.lit "k3x9q2m1a") Types.IN_PROGRESS None None
        (Samples.valveTask :: [Samples.pumpTask])
  /\ syncStatus (react (after (pushSettled (Samples.env Samples.serverError true)
                                 (Normal (mkSyncResult false None (Some SAVE_FAILED) None)))
                         (after (updateTasksAndSync [Samples.valveTask; Samples.pumpTask])
                                (Samples.connected [Samples.pumpTask] online))))
     = error
  /\ tasks (react (after (pushSettled (Samples.env Samples.serverError true)
                            (Normal (mkSyncResult false None (Some SAVE_FAILED) None)))
                    (after (updateTasksAndSync [Samples.valveTask; Samples.pumpTask])
                           (Samples.connected [Samples.pumpTask] online))))
     = [Samples.valveTask; Samples.pumpTask].
Proof.
  destruct (push_is_optimistic (Samples.env Samples.serverError true)
              (Samples.connected [Samples.pumpTask] online)
              (JsString.lit "fabrika-1") eq_refl eq_refl) as (H1 & H2 & _ & H4).
  split; [|split].
  - exact (proj1 (H4 (cons Samples.valveTask)
                     (newTaskList 1700000500000 (JsString.lit "k3x9q2m1a")
                                        Types.IN_PROGRESS None None)
                     (Normal (mkSyncResult false None (Some SAVE_FAILED) None)))).
  - destruct (H2 (after (updateTasksAndSync [Samples.valveTask; Samples.pumpTask])
                        (Samples.connected [Samples.pumpTask] online))
                 (Normal (mkSyncResult false None (Some SAVE_FAILED) None)))
      as (_ & _ & _ & _ & H).
    exact (proj1 (H _ eq_refl eq_refl)).
  - destruct (H2 (after (updateTasksAndSync [Samples.valveTask; Samples.pumpTask])
                        (Samples.connected [Samples.pumpTask] online))
                 (Normal (mkSyncResult false None (Some SAVE_FAILED) None)))
      as (H & _).
    rewrite H. exact (proj1 (H1 [Samples.valveTask; Samples.pumpTask])).
Defined.

End SyncCoordinator.

(** C9.  Normalising a bucket identifier twice gives what normalising
    it once gives. *)
Theorem cleanIdOf_idempotent (raw : JsString.t) :
  cleanIdOf (cleanIdOf raw) = cleanIdOf raw.
Proof. apply cleanIdOf_fixed, cleanIdOf_idUnits. Qed.

(** * More of the code

    Properties of the code around the places above: the write side of
    the remote client, the requests, the other branches of the sync
    handlers, the task handlers, login and logout, the load on mount, and
    what a render computes. *)

(** ** The remote client, write side and requests *)

Section RemoteWrites.
Import StorageService.

(** X1.  [updateCloudTasks] always returns a result and never throws; the
    result carries no task; it is a success exactly when [fetch] returned
    a response with an ok status; with a response that is not ok the
    error is the save-failed message, and when [fetch] itself throws it
    is the connection-error message. *)
Theorem updateCloudTasks_results (fetch : Fetch) (blobId : JsString.t) (ts : list Types.Task) :
  exists res,
    updateCloudTasks fetch blobId ts = Normal res
    /\ data res = None
    /\ (success res = true <->
        exists response,
          fetch (updateRequest blobId ts) = Normal response /\ ok response = true)
    /\ (success res = true -> error res = None)
    /\ (error res = Some SAVE_FAILED <->
        exists response,
          fetch (updateRequest blobId ts) = Normal response /\ ok response = false)
    /\ (error res = Some CONNECTION_ERROR <-> fetch (updateRequest blobId ts) = Throw).
Proof.
  unfold updateCloudTasks.
  destruct (fetch (updateRequest blobId ts)) as [response|] eqn:Hf; cbn.
  - destruct (ok response) eqn:Hok; cbn; eexists; (split; [reflexivity|]); cbn.
    + repeat split; try discriminate; eauto.
      intros (r & [= <-] & Hr). congruence.
    + repeat split; try discriminate; eauto.
      intros (r & [= <-] & Hr). congruence.
  - eexists; (split; [reflexivity|]); cbn.
    repeat split; try discriminate.
    + intros (r & Hr & _). discriminate Hr.
    + intros (r & Hr & _). discriminate Hr.
Qed.

(** X2.  Every result of [fetchCloudTasks] is well formed: it is a
    success exactly when it carries a task list (so that testing
    [res.data] after [res.success] adds nothing); a failure carries one
    of the two failure messages; the not-found sentinel appears exactly
    when the response had status 404; and tasks come only without any
    error field. *)
Theorem fetchCloudTasks_result_shape (fetch : Fetch) (now : Z) (blobId : JsString.t)
    (res : SyncResult) :
  fetchCloudTasks fetch now blobId = Normal res ->
  (success res = true <-> is_Some (data res))
  /\ (success res = false <->
      error res = Some FETCH_FAILED \/ error res = Some NO_CONNECTION)
  /\ (error res = Some NOT_FOUND <->
      exists response,
        fetch (fetchRequest now blobId) = Normal response /\ status response = 404%N)
  /\ (forall t ts, data res = Some (t :: ts) -> error res = None)
  /\ StorageService.blobId res = None.
Proof.
  unfold fetchCloudTasks.
  destruct (fetch (fetchRequest now blobId)) as [response|] eqn:Hf; cbn.
  - destruct (ok response) eqn:Hok; [|destruct (N.eqb_spec (status response) 404)]; cbn.
    + assert (Hst : status response <> 404%N).
      { intros E. rewrite (not_found_status_not_ok _ E) in Hok. discriminate. }
      destruct (json response) as [[]|]; cbn; intros [= <-]; cbn;
        (repeat split; try discriminate; eauto;
         try (intros [[=]|[=]]);
         try (intros (r & [= <-] & Hr); congruence);
         try (intros [x [=]])).
    + intros [= <-]; cbn.
      repeat split; try discriminate; eauto; try (intros [[=]|[=]]).
    + intros [= <-]; cbn.
      repeat split; try discriminate; eauto;
        try (intros (r & [= <-] & Hr); congruence); try (intros [x [=]]).
  - intros [= <-]; cbn.
    repeat split; try discriminate; eauto;
      try (intros (r & [=] & _)); try (intros [x [=]]).
Qed.

Lemma fetchCloudTasks_result_shape_witness :
  success (mkSyncResult true (Some []) (Some NOT_FOUND) None) = true
  <-> is_Some (data (mkSyncResult true (Some []) (Some NOT_FOUND) None)).
Proof.
  exact (proj1 (fetchCloudTasks_result_shape
                  (fun _ => Normal {| status := 404; json := Throw |})
                  1700000400000 (JsString.lit "fabrika-1")
                  (mkSyncResult true (Some []) (Some NOT_FOUND) None) eq_refl)).
Defined.

Lemma bucket_url_inj (id1 id2 : JsString.t) :
  BASE_URL ++ JsString.lit "/" ++ id1 ++ JsString.lit "/tasks"
  = BASE_URL ++ JsString.lit "/" ++ id2 ++ JsString.lit "/tasks" ->
  id1 = id2.
Proof.
  intros H. apply app_inv_head in H. apply app_inv_head in H.
  now apply app_inv_tail in H.
Qed.

(** X3.  A write request determines the bucket and the task collection
    it carries, and it goes to the address that the reads of the same
    bucket use, the reads adding only their cache-busting query. *)
Theorem updateRequest_determines (id1 id2 : JsString.t) (ts1 ts2 : list Types.Task) :
  (updateRequest id1 ts1 = updateRequest id2 ts2 -> id1 = id2 /\ ts1 = ts2)
  /\ (forall now,
        url (fetchRequest now id1)
        = url (updateRequest id1 ts1) ++ JsString.lit "?_t=" ++ Json.numberToString now).
Proof.
  split.
  - intros H. split.
    + apply bucket_url_inj. exact (f_equal url H).
    + pose proof (f_equal body H) as Hb. cbn [body updateRequest] in Hb.
      apply stringify_inj. congruence.
  - intros now. cbn [url fetchRequest updateRequest].
    rewrite <- !app_assoc. reflexivity.
Qed.

Lemma updateRequest_determines_witness :
  JsString.lit "fabrika-1" = JsString.lit "fabrika-1"
  /\ [Samples.pumpTask] = [Samples.pumpTask].
Proof.
  exact (proj1 (updateRequest_determines (JsString.lit "fabrika-1") (JsString.lit "fabrika-1")
                  [Samples.pumpTask] [Samples.pumpTask]) eq_refl).
Defined.

Lemma idUnit_not_slash c : JsString.isIdUnit c = true -> c <> 47%N.
Proof.
  unfold JsString.isIdUnit, JsString.isLower, JsString.isDigit,
    JsString.hyphen, JsString.underscore.
  rewrite !orb_true_iff, !andb_true_iff, !N.leb_le, !N.eqb_eq. lia.
Qed.

Lemma split_at_slash (a : JsString.t) : forall b x y,
  Forall (fun c => c <> 47%N) a -> Forall (fun c => c <> 47%N) b ->
  a ++ 47%N :: x = b ++ 47%N :: y -> a = b /\ x = y.
Proof.
  induction a as [|c a IH]; intros [|d b] x y Ha Hb H; cbn in H.
  - injection H as ->. auto.
  - injection H as <- _. inversion Hb; congruence.
  - injection H as -> _. inversion Ha; congruence.
  - injection H as -> H. inversion Ha; inversion Hb; subst.
    destruct (IH b x y) as [-> ->]; auto.
Qed.

(** X4.  For normalised identifiers the address of a read determines
    the bucket and the cache-busting number: no two buckets share a read
    address, and no identifier can reach into the path or the query. *)
Theorem fetchRequest_url_inj (now1 now2 : Z) (id1 id2 : JsString.t) :
  Forall (fun c => JsString.isIdUnit c = true) id1 ->
  Forall (fun c => JsString.isIdUnit c = true) id2 ->
  url (fetchRequest now1 id1) = url (fetchRequest now2 id2) ->
  id1 = id2 /\ now1 = now2.
Proof.
  intros H1 H2 H. cbn [url fetchRequest] in H.
  apply app_inv_head in H. apply app_inv_head in H.
  change (JsString.lit "/tasks?_t=") with (47%N :: JsString.lit "tasks?_t=") in H.
  cbn [app] in H.
  apply split_at_slash in H.
  - destruct H as [-> H]. split; [reflexivity|].
    apply app_inv_head in H.
    rewrite <- (app_nil_r (Json.numberToString now1)) in H.
    rewrite <- (app_nil_r (Json.numberToString now2)) in H.
    now apply numberToString_cancel in H.
  - eapply Forall_impl; [exact H1 | exact idUnit_not_slash].
  - eapply Forall_impl; [exact H2 | exact idUnit_not_slash].
Qed.

Lemma fetchRequest_url_inj_witness :
  cleanIdOf (JsString.lit "Erkan Usta!") = cleanIdOf (JsString.lit " erkan usta? ")
  /\ 1700000400000%Z = 1700000400000%Z.
Proof.
  apply (fetchRequest_url_inj 1700000400000 1700000400000
           (cleanIdOf (JsString.lit "Erkan Usta!")) (cleanIdOf (JsString.lit " erkan usta? ")));
    [apply cleanIdOf_idUnits | apply cleanIdOf_idUnits | reflexivity].
Defined.

End RemoteWrites.

Lemma updateCloudTasks_results_witness :
  exists res,
    StorageService.updateCloudTasks (fun _ => Samples.serverError) (JsString.lit "fabrika-1")
      [Samples.pumpTask] = Normal res
    /\ StorageService.data res = None.
Proof.
  destruct (updateCloudTasks_results (fun _ => Samples.serverError) (JsString.lit "fabrika-1")
              [Samples.pumpTask]) as (res & H1 & H2 & _).
  exists res. split; [exact H1 | exact H2].
Defined.

(** ** Normalised identifiers *)

Section NormalisedIds.
Import JsString.

Lemma trimStart_all_space s :
  Forall (fun c => isWhiteSpace c = true) s -> trimStart s = [].
Proof. induction 1 as [|c s Hc _ IH]; [reflexivity|]. cbn. now rewrite Hc. Qed.

Lemma trim_length_le s : (length (trim s) <= length s)%nat.
Proof.
  destruct (trim_spec s) as (pre & post & E & _).
  rewrite E at 2. rewrite !length_app. lia.
Qed.

(** X5.  Whatever is typed, the normalised identifier is made of
    lower-case ASCII letters, digits, hyphens and underscores only, has
    exactly as many code units as the trimmed input, and so never more
    than the input. *)
Theorem cleanIdOf_url_safe (raw : t) :
  Forall (fun c => isIdUnit c = true) (cleanIdOf raw)
  /\ length (cleanIdOf raw) = length (trim raw)
  /\ (length (cleanIdOf raw) <= length raw)%nat.
Proof.
  assert (Hlen : length (cleanIdOf raw) = length (trim raw)).
  { unfold cleanIdOf, toLowerCase, replaceOutsideClass. now rewrite !length_map. }
  split; [apply cleanIdOf_idUnits | split; [exact Hlen|]].
  rewrite Hlen. apply trim_length_le.
Qed.

End NormalisedIds.

(** ** The task handlers *)

Section TaskHandlers.
Import App.

Lemma get_assign key k v t :
  Types.get key (Types.assign k v t)
  = if bool_decide (k = key) then Some v else Types.get key t.
Proof.
  induction t as [|[k' x] t IH]; cbn [Types.assign Types.get]; [reflexivity|].
  destruct (decide (k' = k)) as [->|Hne].
  - rewrite bool_decide_eq_true_2 by reflexivity. cbn [Types.get].
    destruct (bool_decide (k = key)); reflexivity.
  - rewrite (bool_decide_eq_false_2 (k' = k)) by assumption. cbn [Types.get].
    rewrite IH. repeat case_bool_decide; congruence.
Qed.

Lemma assign_same k v t : Types.get k t = Some v -> Types.assign k v t = t.
Proof.
  induction t as [|[k' x] t IH]; cbn [Types.assign Types.get]; [discriminate|].
  destruct (bool_decide (k' = k)); [congruence|].
  intros H. now rewrite IH.
Qed.

Lemma keys_assign k v t :
  Types.keys (Types.assign k v t)
  = Types.keys t ++ (if bool_decide (k ∈ Types.keys t) then [] else [k]).
Proof.
  unfold Types.keys. induction t as [|[k' x] t IH]; cbn [Types.assign map fst app].
  - rewrite bool_decide_eq_false_2; [reflexivity | apply not_elem_of_nil].
  - destruct (decide (k' = k)) as [->|Hne].
    + rewrite !bool_decide_eq_true_2; [| (apply elem_of_cons; now left) | reflexivity].
      cbn [map fst]. now rewrite app_nil_r.
    + rewrite (bool_decide_eq_false_2 (k' = k)) by assumption. cbn [map fst].
      assert (E : bool_decide (k ∈ k' :: map fst t) = bool_decide (k ∈ map fst t)).
      { apply bool_decide_ext. rewrite elem_of_cons.
        split; [intros [?|?]; [congruence | assumption] | now right]. }
      rewrite IH, E. reflexivity.
Qed.

Lemma assign_wellFormed k v t :
  Types.wellFormed t -> Types.wellFormed (Types.assign k v t).
Proof.
  unfold Types.wellFormed. intros H. rewrite keys_assign. case_bool_decide.
  - now rewrite app_nil_r.
  - apply NoDup_app. split; [assumption|]. split.
    + intros x Hx Hin. apply list_elem_of_singleton in Hin. now subst.
    + apply NoDup_singleton.
Qed.

(** One conditional assignment of [handleUpdateStatus]. *)
Lemma keys_step (b : bool) k v t :
  exists added,
    Types.keys (if b then Types.assign k v t else t) = Types.keys t ++ added
    /\ (added = [] \/ added = [k]).
Proof.
  destruct b.
  - rewrite keys_assign. case_bool_decide; eauto.
  - exists []. rewrite app_nil_r. auto.
Qed.

(** [updatedTask] written as its five steps, each an assignment made or
    not. *)
Lemma updatedTask_steps now s note rating t :
  updatedTask now s note rating t =
  let copied := Types.assign Types.status (Types.statusValue s) t in
  let started :=
    if bool_decide (s = Types.IN_PROGRESS)
       && negb (truthyProperty (Types.get Types.startedAt t))
    then Types.assign Types.startedAt (Types.VNumber now) copied else copied in
  let completed :=
    if bool_decide (s = Types.COMPLETED)
       && negb (truthyProperty (Types.get Types.completedAt t))
    then Types.assign Types.completedAt (Types.VNumber now) started else started in
  let noted :=
    if truthy (default [] note)
    then Types.assign Types.managerNote (Types.VString (default [] note)) completed
    else completed in
  if negb (default 0 rating =? 0)%Z
  then Types.assign Types.rating (Types.VNumber (default 0%Z rating)) noted
  else noted.
Proof.
  unfold updatedTask. cbv zeta.
  destruct note as [n|], rating as [x|]; cbn [from_option]; unfold id;
    try destruct (truthy n); try destruct (x =? 0)%Z; reflexivity.
Qed.

Lemma updatedTask_get_status now s note rating t :
  Types.get Types.status (updatedTask now s note rating t) = Some (Types.statusValue s).
Proof.
  rewrite updatedTask_steps. cbv zeta.
  repeat match goal with |- context [if ?b then _ else _] => destruct b end;
    rewrite ?get_assign; reflexivity.
Qed.

Lemma updatedTask_get_other now s note rating t key :
  key ∉ [Types.status; Types.startedAt; Types.completedAt; Types.managerNote; Types.rating] ->
  Types.get key (updatedTask now s note rating t) = Types.get key t.
Proof.
  intros Hk. rewrite updatedTask_steps. cbv zeta.
  destruct key; try (exfalso; apply Hk; apply (bool_decide_unpack _); reflexivity);
    repeat match goal with |- context [if ?b then _ else _] => destruct b end;
    rewrite ?get_assign; reflexivity.
Qed.

Lemma updatedTask_get_startedAt now s note rating t :
  Types.get Types.startedAt (updatedTask now s note rating t)
  = if bool_decide (s = Types.IN_PROGRESS)
       && negb (truthyProperty (Types.get Types.startedAt t))
    then Some (Types.VNumber now) else Types.get Types.startedAt t.
Proof.
  rewrite updatedTask_steps. cbv zeta.
  repeat match goal with |- context [if ?b then _ else _] => destruct b end;
    rewrite ?get_assign; reflexivity.
Qed.

Lemma updatedTask_get_completedAt now s note rating t :
  Types.get Types.completedAt (updatedTask now s note rating t)
  = if bool_decide (s = Types.COMPLETED)
       && negb (truthyProperty (Types.get Types.completedAt t))
    then Some (Types.VNumber now) else Types.get Types.completedAt t.
Proof.
  rewrite updatedTask_steps. cbv zeta.
  repeat match goal with |- context [if ?b then _ else _] => destruct b end;
    rewrite ?get_assign; reflexivity.
Qed.

Lemma updatedTask_get_managerNote now s note rating t :
  Types.get Types.managerNote (updatedTask now s note rating t)
  = if truthy (default [] note) then Some (Types.VString (default [] note))
    else Types.get Types.managerNote t.
Proof.
  rewrite updatedTask_steps. cbv zeta.
  repeat match goal with |- context [if ?b then _ else _] => destruct b end;
    rewrite ?get_assign; reflexivity.
Qed.

Lemma updatedTask_get_rating now s note rating t :
  Types.get Types.rating (updatedTask now s note rating t)
  = if negb (default 0 rating =? 0)%Z then Some (Types.VNumber (default 0%Z rating))
    else Types.get Types.rating t.
Proof.
  rewrite updatedTask_steps. cbv zeta.
  repeat match goal with |- context [if ?b then _ else _] => destruct b end;
    rewrite ?get_assign; reflexivity.
Qed.

(** An update of a task that already shows its outcome changes nothing. *)
Lemma updatedTask_settled now s note rating t :
  Types.get Types.status t = Some (Types.statusValue s) ->
  (s = Types.IN_PROGRESS -> truthyProperty (Types.get Types.startedAt t) = true) ->
  (s = Types.COMPLETED -> truthyProperty (Types.get Types.completedAt t) = true) ->
  (truthy (default [] note) = true ->
     Types.get Types.managerNote t = Some (Types.VString (default [] note))) ->
  ((default 0 rating =? 0)%Z = false ->
     Types.get Types.rating t = Some (Types.VNumber (default 0%Z rating))) ->
  updatedTask now s note rating t = t.
Proof.
  intros Hs Hst Hco Hno Hra. rewrite updatedTask_steps. cbv zeta.
  rewrite (assign_same _ _ _ Hs).
  assert (E1 : bool_decide (s = Types.IN_PROGRESS)
               && negb (truthyProperty (Types.get Types.startedAt t)) = false).
  { destruct (decide (s = Types.IN_PROGRESS)) as [e|e];
      [rewrite (Hst e); apply andb_false_r | now rewrite bool_decide_eq_false_2]. }
  assert (E2 : bool_decide (s = Types.COMPLETED)
               && negb (truthyProperty (Types.get Types.completedAt t)) = false).
  { destruct (decide (s = Types.COMPLETED)) as [e|e];
      [rewrite (Hco e); apply andb_false_r | now rewrite bool_decide_eq_false_2]. }
  rewrite E1, E2.
  destruct (truthy (default [] note)).
  - rewrite (assign_same _ _ _ (Hno eq_refl)).
    destruct (default 0 rating =? 0)%Z; cbn [negb]; [reflexivity|].
    now rewrite (assign_same _ _ _ (Hra eq_refl)).
  - destruct (default 0 rating =? 0)%Z; cbn [negb]; [reflexivity|].
    now rewrite (assign_same _ _ _ (Hra eq_refl)).
Qed.

Lemma updatedTask_twice now now' s note rating t :
  now <> 0%Z ->
  updatedTask now' s note rating (updatedTask now s note rating t)
  = updatedTask now s note rating t.
Proof.
  intros Hnow. apply Z.eqb_neq in Hnow. apply updatedTask_settled.
  - apply updatedTask_get_status.
  - intros ->. rewrite updatedTask_get_startedAt.
    rewrite bool_decide_eq_true_2 by reflexivity. cbn [andb].
    destruct (truthyProperty (Types.get Types.startedAt t)) eqn:E; cbn [negb].
    + exact E.
    + cbn [truthyProperty]. now rewrite Hnow.
  - intros ->. rewrite updatedTask_get_completedAt.
    rewrite bool_decide_eq_true_2 by reflexivity. cbn [andb].
    destruct (truthyProperty (Types.get Types.completedAt t)) eqn:E; cbn [negb].
    + exact E.
    + cbn [truthyProperty]. now rewrite Hnow.
  - intros Hn. rewrite updatedTask_get_managerNote. now rewrite Hn.
  - intros Hr. rewrite updatedTask_get_rating. now rewrite Hr.
Qed.

(** X6.  The list [handleUpdateStatus] hands on has the tasks of the old
    one, in the same order and with the same ids; a task with another id
    is untouched; in the task it updates, every property other than the
    status, the two times, the note and the rating holds what it held;
    and when no task has the id, the list is the old one. *)
Theorem newTaskList_touches_one_task (now : Z) (taskId : JsString.t)
    (s : Types.TaskStatus) (note : option JsString.t) (rating : option Z)
    (ts : list Types.Task) :
  map (Types.get Types.id) (newTaskList now taskId s note rating ts)
  = map (Types.get Types.id) ts
  /\ (forall i t, ts !! i = Some t -> Types.get Types.id t <> Some (Types.VString taskId) ->
        newTaskList now taskId s note rating ts !! i = Some t)
  /\ (forall i t', newTaskList now taskId s note rating ts !! i = Some t' ->
        exists t, ts !! i = Some t
          /\ forall key,
               key ∉ [Types.status; Types.startedAt; Types.completedAt;
                      Types.managerNote; Types.rating] ->
               Types.get key t' = Types.get key t)
  /\ (Forall (fun t => Types.get Types.id t <> Some (Types.VString taskId)) ts ->
        newTaskList now taskId s note rating ts = ts).
Proof.
  unfold newTaskList. split; [|split; [|split]].
  - rewrite map_map. apply map_ext. intros t.
    destruct (bool_decide (Types.get Types.id t ≠ Some (Types.VString taskId)));
      [reflexivity|].
    apply updatedTask_get_other. apply (bool_decide_unpack _). reflexivity.
  - intros i t Hi Hne. rewrite list_lookup_fmap, Hi. cbn.
    now rewrite bool_decide_eq_true_2.
  - intros i t' Hi. rewrite list_lookup_fmap in Hi.
    destruct (ts !! i) as [t|]; [|discriminate]. cbn in Hi. injection Hi as <-.
    exists t. split; [reflexivity|]. intros key Hkey.
    destruct (bool_decide (Types.get Types.id t ≠ Some (Types.VString taskId)));
      [reflexivity|].
    now apply updatedTask_get_other.
  - intros Hall. induction Hall as [|t ts Ht _ IH]; [reflexivity|].
    cbn [map]. rewrite IH. now rewrite bool_decide_eq_true_2.
Qed.

Lemma newTaskList_touches_one_task_witness :
  newTaskList 1700000500000 (JsString.lit "k3x9q2m1a") Types.COMPLETED None (Some 5%Z)
    [Samples.valveTask; Samples.pumpTask] !! 0%nat = Some Samples.valveTask.
Proof.
  destruct (newTaskList_touches_one_task 1700000500000 (JsString.lit "k3x9q2m1a")
              Types.COMPLETED None (Some 5%Z) [Samples.valveTask; Samples.pumpTask])
    as (_ & H & _).
  apply (H 0%nat Samples.valveTask); [reflexivity | discriminate].
Defined.

(** X7.  Repeating an update changes nothing more: with a first clock
    reading that is not zero, the same update applied again, at whatever
    later time, gives the list the first one gave. *)
Theorem newTaskList_idempotent (now now' : Z) (taskId : JsString.t)
    (s : Types.TaskStatus) (note : option JsString.t) (rating : option Z)
    (ts : list Types.Task) :
  now <> 0%Z ->
  newTaskList now' taskId s note rating (newTaskList now taskId s note rating ts)
  = newTaskList now taskId s note rating ts.
Proof.
  intros Hnow. unfold newTaskList. rewrite map_map. apply map_ext. intros t.
  destruct (bool_decide (Types.get Types.id t ≠ Some (Types.VString taskId))) eqn:E.
  - now rewrite E.
  - rewrite updatedTask_get_other by (apply (bool_decide_unpack _); reflexivity).
    rewrite E. now apply updatedTask_twice.
Qed.

Lemma newTaskList_idempotent_witness :
  newTaskList 1700000900000 (JsString.lit "k3x9q2m1a") Types.IN_PROGRESS None None
    (newTaskList 1700000500000 (JsString.lit "k3x9q2m1a") Types.IN_PROGRESS None None
       [Samples.valveTask; Samples.pumpTask])
  = newTaskList 1700000500000 (JsString.lit "k3x9q2m1a") Types.IN_PROGRESS None None
      [Samples.valveTask; Samples.pumpTask].
Proof.
  apply (newTaskList_idempotent 1700000500000 1700000900000). discriminate.
Defined.

(** X8.  An update never loses what was recorded: a start time or a
    completion time that is set (and truthy) stays what it is, whatever
    the new status; a task that has a manager note or a rating still has
    one; and an empty note or a rating of zero counts as none given. *)
Theorem updatedTask_keeps_records (now : Z) (s : Types.TaskStatus)
    (note : option JsString.t) (rating : option Z) (t : Types.Task) :
  (truthyProperty (Types.get Types.startedAt t) = true ->
     Types.get Types.startedAt (updatedTask now s note rating t)
     = Types.get Types.startedAt t)
  /\ (truthyProperty (Types.get Types.completedAt t) = true ->
     Types.get Types.completedAt (updatedTask now s note rating t)
     = Types.get Types.completedAt t)
  /\ (is_Some (Types.get Types.managerNote t) ->
      is_Some (Types.get Types.managerNote (updatedTask now s note rating t)))
  /\ (is_Some (Types.get Types.rating t) ->
      is_Some (Types.get Types.rating (updatedTask now s note rating t)))
  /\ updatedTask now s (Some []) (Some 0%Z) t = updatedTask now s None None t.
Proof.
  split; [|split; [|split; [|split]]].
  - intros H. rewrite updatedTask_get_startedAt, H. now rewrite andb_false_r.
  - intros H. rewrite updatedTask_get_completedAt, H. now rewrite andb_false_r.
  - intros H. rewrite updatedTask_get_managerNote.
    destruct (truthy (default [] note)); [eauto | assumption].
  - intros H. rewrite updatedTask_get_rating.
    destruct (negb (default 0 rating =? 0)%Z); [eauto | assumption].
  - reflexivity.
Qed.

Lemma updatedTask_keeps_records_witness :
  Types.get Types.startedAt
    (updatedTask 1700000900000 Types.IN_PROGRESS None None Samples.valveTask)
  = Types.get Types.startedAt Samples.valveTask.
Proof.
  destruct (updatedTask_keeps_records 1700000900000 Types.IN_PROGRESS None None
              Samples.valveTask) as (H & _).
  apply H. reflexivity.
Defined.

(** X9.  The order of the properties under [handleUpdateStatus]: the
    properties a task has keep their places, and the ones the update
    creates come behind them, in the order status, start time,
    completion time, note, rating.  A task with each property once still
    has each property once. *)
Theorem updatedTask_property_order (now : Z) (s : Types.TaskStatus)
    (note : option JsString.t) (rating : option Z) (t : Types.Task) :
  (exists added,
     Types.keys (updatedTask now s note rating t) = Types.keys t ++ added
     /\ added `sublist_of` [Types.status; Types.startedAt; Types.completedAt;
                            Types.managerNote; Types.rating])
  /\ (Types.wellFormed t -> Types.wellFormed (updatedTask now s note rating t)).
Proof.
  rewrite updatedTask_steps. cbv zeta. split.
  - set (t1 := Types.assign Types.status (Types.statusValue s) t).
    destruct (keys_step true Types.status (Types.statusValue s) t) as (a1 & E1 & C1).
    fold t1 in E1.
    match goal with |- context [Types.keys (if ?b then Types.assign ?k ?v ?x else _)] =>
      destruct (keys_step b k v x) as (a5 & E5 & C5) end.
    match type of E5 with context [Types.keys (if ?b then Types.assign ?k ?v ?x else _) ++ _] =>
      destruct (keys_step b k v x) as (a4 & E4 & C4) end.
    match type of E4 with context [Types.keys (if ?b then Types.assign ?k ?v ?x else _) ++ _] =>
      destruct (keys_step b k v x) as (a3 & E3 & C3) end.
    match type of E3 with context [Types.keys (if ?b then Types.assign ?k ?v ?x else _) ++ _] =>
      destruct (keys_step b k v x) as (a2 & E2 & C2) end.
    exists (a1 ++ a2 ++ a3 ++ a4 ++ a5). split.
    + rewrite E5, E4, E3, E2, E1. now rewrite <- !app_assoc.
    + destruct C1 as [-> | ->], C2 as [-> | ->], C3 as [-> | ->], C4 as [-> | ->],
        C5 as [-> | ->]; cbn [app];
        repeat first [apply sublist_nil | apply sublist_skip | apply sublist_cons].
  - intros H.
    repeat match goal with |- context [if ?b then _ else _] => destruct b end;
      repeat apply assign_wellFormed; exact H.
Qed.

Lemma updatedTask_property_order_witness :
  Types.wellFormed Samples.notedThenRated.
Proof.
  apply (proj2 (updatedTask_property_order 1700000700000 Types.COMPLETED None (Some 5%Z)
                  (updatedTask 1700000600000 Types.COMPLETED (Some (JsString.lit "iyi")) None
                     Samples.valveTask))).
  apply (proj2 (updatedTask_property_order 1700000600000 Types.COMPLETED
                  (Some (JsString.lit "iyi")) None Samples.valveTask)).
  unfold Types.wellFormed. apply (bool_decide_unpack _). reflexivity.
Defined.

End TaskHandlers.

(** ** The sync handlers, other branches *)

Section SyncHandlersMore.
Import StorageService App.

Ltac run :=
  repeat progress
    (cbv beta iota delta
       [after poll pollCallback call_fetchCloudTasks call_updateCloudTasks
        updateTasksAndSync updateTasksAndSync_then pushSettled
        handleConnectCloud connectReconcile connectSuccessFlow handleDisconnectCloud
        handleUpdateStatus handleCreateTask
        mbind mret M_bind M_ret render modifyReact
        localStorage_setItem localStorage_removeItem perform Date_now alert confirm
        await setTasks setCloudId setInputCloudId setSyncStatus setLastSyncTime
        setIsSyncModalOpen];
     cbn [react localStorage clockReads effects tasks cloudId inputCloudId syncStatus
          lastSyncTime isSyncModalOpen fst snd andb negb]).


Lemma hasTasks_dataOf res : hasTasks res = true -> dataOf res <> [].
Proof. unfold hasTasks, dataOf. destruct (data res) as [[|]|]; discriminate. Qed.

(** X10.  [handleConnectCloud] goes to the network exactly when the raw
    identifier is not empty and has at least three code units once
    trimmed, whatever these are; then its first call is a fetch of the
    normalised identifier.  Otherwise it calls nothing and changes
    neither the state nor the storage; an identifier of white space only
    is such a case. *)
Theorem handleConnectCloud_network_iff (env : Env) (w : World) :
  (if truthy (inputCloudId (react w))
      && (3 <=? length (JsString.trim (inputCloudId (react w))))%nat
   then exists rest,
       effects (after (handleConnectCloud env) w)
       = effects w ++ Call_fetchCloudTasks (cleanIdOf (inputCloudId (react w))) :: rest
   else react (after (handleConnectCloud env) w) = react w
        /\ localStorage (after (handleConnectCloud env) w) = localStorage w
        /\ filter isNetworkCall (effects (after (handleConnectCloud env) w))
           = filter isNetworkCall (effects w))
  /\ (Forall (fun c => JsString.isWhiteSpace c = true) (inputCloudId (react w)) ->
      truthy (inputCloudId (react w))
      && (3 <=? length (JsString.trim (inputCloudId (react w))))%nat = false).
Proof.
  assert (Hlen : length (cleanIdOf (inputCloudId (react w)))
                 = length (JsString.trim (inputCloudId (react w)))).
  { unfold cleanIdOf, JsString.toLowerCase, JsString.replaceOutsideClass.
    now rewrite !length_map. }
  split.
  - destruct (truthy (inputCloudId (react w))) eqn:Ht; cbn [andb].
    + destruct (Nat.leb_spec 3 (length (JsString.trim (inputCloudId (react w))))) as [Hl|Hl].
      * destruct (handleConnectCloud_accepts env w Ht) as (rest & E & _); [lia|].
        now exists rest.
      * assert (Hs : (length (cleanIdOf (inputCloudId (react w))) <? 3)%nat = true)
          by (apply Nat.ltb_lt; lia).
        run. rewrite Ht. run. rewrite Hs. run.
        repeat split. now rewrite filter_app, app_nil_r.
    + run. rewrite Ht. run. destruct w. repeat split.
  - intros Hall. unfold JsString.trim, JsString.trimEnd.
    rewrite (trimStart_all_space _ Hall). cbn. apply andb_false_r.
Qed.

Lemma handleConnectCloud_network_iff_witness :
  truthy (JsString.lit "   ") && (3 <=? length (JsString.trim (JsString.lit "   ")))%nat = false.
Proof.
  apply (proj2 (handleConnectCloud_network_iff
                  (Samples.env Samples.serverError true)
                  (Samples.disconnected [Samples.pumpTask] (JsString.lit "   ")))).
  repeat constructor.
Defined.

(** X11.  [handleUpdateStatus] with an id that no task has leaves the
    tasks as they are, and all the same, while a bucket is active, sets
    the status to [syncing] and starts a remote write of the whole
    collection. *)
Theorem handleUpdateStatus_unknown_id (now : Z) (taskId : JsString.t)
    (s : Types.TaskStatus) (note : option JsString.t) (rating : option Z)
    (w : World) (blobId : JsString.t) :
  cloudId (react w) = Some blobId -> truthy blobId = true ->
  Forall (fun t => Types.get Types.id t <> Some (Types.VString taskId)) (tasks (react w)) ->
  let w' := after (handleUpdateStatus now taskId s note rating) w in
  tasks (react w') = tasks (react w)
  /\ syncStatus (react w') = syncing
  /\ effects w' = effects w ++ [Call_updateCloudTasks blobId (tasks (react w))].
Proof.
  intros Hid Ht Hall. cbv zeta.
  assert (E : newTaskList now taskId s note rating (tasks (react w)) = tasks (react w)).
  { unfold newTaskList. induction Hall as [|t ts Hne _ IH]; [reflexivity|].
    cbn. rewrite IH. now rewrite bool_decide_eq_true_2. }
  run. rewrite Hid. run. rewrite Ht. run. rewrite E. repeat split.
Qed.

Lemma handleUpdateStatus_unknown_id_witness :
  syncStatus (react (after (handleUpdateStatus 1700000500000 (JsString.lit "nobody")
                              Types.COMPLETED None None)
                           (Samples.connected [Samples.pumpTask] online))) = syncing.
Proof.
  destruct (handleUpdateStatus_unknown_id 1700000500000 (JsString.lit "nobody")
              Types.COMPLETED None None (Samples.connected [Samples.pumpTask] online)
              (JsString.lit "fabrika-1") eq_refl eq_refl) as (_ & H & _).
  - repeat constructor. discriminate.
  - exact H.
Defined.

(** X12.  Without an active bucket [updateTasksAndSync] puts the new
    collection in the task store and its mirror and does nothing else: no
    remote call, no change of status or of last-sync time, no reading of
    the clock. *)
Theorem updateTasksAndSync_offline (newTasks : list Types.Task) (w : World) :
  Screen.truthyItem (cloudId (react w)) = false ->
  let w' := after (updateTasksAndSync newTasks) w in
  tasks (react w') = newTasks
  /\ localStorage w' = <["hidro_tasks" := JSON.stringify newTasks]> (localStorage w)
  /\ syncStatus (react w') = syncStatus (react w)
  /\ lastSyncTime (react w') = lastSyncTime (react w)
  /\ effects w' = effects w
  /\ clockReads w' = clockReads w.
Proof.
  intros Hoff. cbv zeta. run.
  destruct (cloudId (react w)) as [blobId|]; cbn in Hoff; run.
  - rewrite Hoff. run. repeat split.
  - repeat split.
Qed.

Lemma updateTasksAndSync_offline_witness :
  effects (after (updateTasksAndSync [Samples.valveTask; Samples.pumpTask])
                 (Samples.disconnected [Samples.pumpTask] [])) = [].
Proof.
  destruct (updateTasksAndSync_offline [Samples.valveTask; Samples.pumpTask]
              (Samples.disconnected [Samples.pumpTask] []) eq_refl)
    as (_ & _ & _ & _ & H & _).
  exact H.
Defined.

(** X13.  A remote write that settles successfully after the user has
    disconnected sets the status back to [online], with no bucket active
    or persisted; the poll loop stays silent in that state. *)
Theorem write_settling_after_disconnect (env : Env) (w : World)
    (newTasks : list Types.Task) (res : SyncResult) :
  confirmAnswer env DisconnectConfirm = true -> success res = true ->
  let w' := after (pushSettled env (Normal res))
              (after (handleDisconnectCloud env) (after (updateTasksAndSync newTasks) w)) in
  tasks (react w') = newTasks
  /\ cloudId (react w') = None
  /\ localStorage w' !! "hidro_cloud_id" = None
  /\ syncStatus (react w') = online
  /\ (forall env', after (poll env') w' = w').
Proof.
  intros Hc Hs. cbv zeta. run.
  destruct (cloudId (react w)) as [blobId|]; run.
  - destruct (truthy blobId); run; rewrite Hc; run; rewrite Hs; run;
      repeat split; apply lookup_delete_eq.
  - rewrite Hc. run. rewrite Hs. run. repeat split. apply lookup_delete_eq.
Qed.

Lemma write_settling_after_disconnect_witness :
  syncStatus (react (after (pushSettled (Samples.env Samples.serverError true)
                              (Normal (mkSyncResult true None None None)))
                      (after (handleDisconnectCloud (Samples.env Samples.serverError true))
                         (after (updateTasksAndSync [Samples.valveTask])
                                (Samples.connected [Samples.pumpTask] online))))) = online.
Proof.
  destruct (write_settling_after_disconnect (Samples.env Samples.serverError true)
              (Samples.connected [Samples.pumpTask] online) [Samples.valveTask]
              (mkSyncResult true None None None) eq_refl eq_refl) as (_ & _ & _ & H & _).
  exact H.
Defined.

(** What a poll never touches, and what it does when no task comes. *)
Lemma poll_frame_fields (env : Env) (w : World) :
  cloudId (react (after (poll env) w)) = cloudId (react w)
  /\ inputCloudId (react (after (poll env) w)) = inputCloudId (react w)
  /\ isSyncModalOpen (react (after (poll env) w)) = isSyncModalOpen (react w)
  /\ localStorage (after (poll env) w) !! "hidro_cloud_id"
     = localStorage w !! "hidro_cloud_id"
  /\ (tasks (react (after (poll env) w)) = tasks (react w)
      \/ tasks (react (after (poll env) w)) <> [])
  /\ (forall blobId res,
        cloudId (react w) = Some blobId ->
        fetchCloudTasks (fetch env) (clock env (clockReads w)) blobId = Normal res ->
        hasTasks res = false ->
        react (after (poll env) w) = react w
        /\ localStorage (after (poll env) w) = localStorage w).
Proof.
  run. destruct (cloudId (react w)) as [blobId|] eqn:Hid; run.
  2: { repeat split; auto; intros ? ? [=]. }
  destruct (truthy blobId) eqn:Ht; run.
  2: { repeat split; auto; intros b res [= <-] Hf Hh; run; split; reflexivity. }
  destruct (fetchCloudTasks (fetch env) (clock env (clockReads w)) blobId)
    as [res|] eqn:Hf; run.
  2: { repeat split; auto; intros b res [= <-]; rewrite Hf; discriminate. }
  destruct (success res) eqn:Hs; run.
  2: { repeat split; auto; intros b res' [= <-]; rewrite Hf; intros [= <-] Hh;
       run; split; reflexivity. }
  destruct (hasTasks res) eqn:Hh; run.
  2: { repeat split; auto; intros b res' [= <-]; rewrite Hf; intros [= <-] _;
       run; split; reflexivity. }
  pose proof (hasTasks_dataOf _ Hh) as Hne.
  destruct (bool_decide (JSON.stringify (dataOf res) ≠ JSON.stringify (tasks (react w)))); run;
    destruct (bool_decide (syncStatus (react w) ≠ online)); run;
    (repeat split; auto; try (now apply lookup_insert_ne); congruence).
Qed.

(** X14.  A poll never changes the active bucket, the persisted bucket
    id, the text in the connect dialog or the dialog itself; it never
    leaves the task store empty unless it was empty before; and when the
    fetch brings no task (a failure, a 404, an empty array, a body that is
    not an array) it changes nothing at all, not even the status. *)
Theorem poll_frame (env : Env) (w : World) :
  let w' := after (poll env) w in
  cloudId (react w') = cloudId (react w)
  /\ inputCloudId (react w') = inputCloudId (react w)
  /\ isSyncModalOpen (react w') = isSyncModalOpen (react w)
  /\ localStorage w' !! "hidro_cloud_id" = localStorage w !! "hidro_cloud_id"
  /\ (tasks (react w') = tasks (react w) \/ tasks (react w') <> [])
  /\ (forall blobId res,
        cloudId (react w) = Some blobId ->
        fetchCloudTasks (fetch env) (clock env (clockReads w)) blobId = Normal res ->
        hasTasks res = false ->
        react w' = react w /\ localStorage w' = localStorage w).
Proof. cbv zeta. apply poll_frame_fields. Qed.

Lemma poll_frame_witness :
  react (after (poll (Samples.env (Samples.holding []) true))
               (Samples.connected [Samples.pumpTask] error))
  = react (Samples.connected [Samples.pumpTask] error).
Proof.
  destruct (poll_frame (Samples.env (Samples.holding []) true)
              (Samples.connected [Samples.pumpTask] error)) as (_ & _ & _ & _ & _ & H).
  exact (proj1 (H (JsString.lit "fabrika-1") (mkSyncResult true (Some []) None None)
                  eq_refl eq_refl eq_refl)).
Defined.



(** X16.  When the fetch of an accepted identifier fails,
    [handleConnectCloud] shows the server error with the message of the
    result and sets the status to [error]; the tasks, the active bucket
    (a bucket connected before stays so), the text typed, the dialog, the
    last-sync time and the storage are as before, and no write is
    attempted. *)
Theorem handleConnectCloud_fetch_fails (env : Env) (w : World) (res : SyncResult) :
  truthy (inputCloudId (react w)) = true ->
  (3 <= length (cleanIdOf (inputCloudId (react w))))%nat ->
  fetchCloudTasks (fetch env) (clock env (clockReads w)) (cleanIdOf (inputCloudId (react w)))
    = Normal res ->
  success res = false ->
  let w' := after (handleConnectCloud env) w in
  syncStatus (react w') = error
  /\ tasks (react w') = tasks (react w)
  /\ cloudId (react w') = cloudId (react w)
  /\ inputCloudId (react w') = inputCloudId (react w)
  /\ isSyncModalOpen (react w') = isSyncModalOpen (react w)
  /\ lastSyncTime (react w') = lastSyncTime (react w)
  /\ localStorage w' = localStorage w
  /\ effects w' = effects w ++ [Call_fetchCloudTasks (cleanIdOf (inputCloudId (react w)));
                               Alert (ServerErrorAlert (StorageService.error res))].
Proof.
  intros Ht Hlen Hf Hs. apply Nat.ltb_ge in Hlen. cbv zeta.
  run. rewrite Ht. run. rewrite Hlen. run. rewrite Hf. run. rewrite Hs. run.
  rewrite <- app_assoc. repeat split.
Qed.

Lemma handleConnectCloud_fetch_fails_witness :
  syncStatus (react (after (handleConnectCloud (Samples.env Samples.serverError true))
                           (Samples.disconnected [Samples.pumpTask] (JsString.lit "Erkan Usta!"))))
  = error.
Proof.
  destruct (handleConnectCloud_fetch_fails (Samples.env Samples.serverError true)
              (Samples.disconnected [Samples.pumpTask] (JsString.lit "Erkan Usta!"))
              (mkSyncResult false None (Some FETCH_FAILED) None)
              eq_refl ltac:(vm_compute; lia) eq_refl eq_refl) as (H & _).
  exact H.
Defined.

(** X17.  When the fetch of an accepted identifier brings a non-empty
    collection and the user agrees to load it, the remote collection
    takes the place of the local one in the task store and in its
    mirror, the identifier becomes the active and the persisted bucket
    id, the status is [online], the dialog is closed and its input
    emptied; the only dialog shown is the confirmation. *)
Theorem handleConnectCloud_loads_remote (env : Env) (w : World) (res : SyncResult)
    (remote : list Types.Task) :
  truthy (inputCloudId (react w)) = true ->
  (3 <= length (cleanIdOf (inputCloudId (react w))))%nat ->
  fetchCloudTasks (fetch env) (clock env (clockReads w)) (cleanIdOf (inputCloudId (react w)))
    = Normal res ->
  data res = Some remote -> remote <> [] ->
  confirmAnswer env LoadRemoteConfirm = true ->
  let w' := after (handleConnectCloud env) w in
  tasks (react w') = remote
  /\ localStorage w' =
       <["hidro_cloud_id" := cleanIdOf (inputCloudId (react w))]>
         (<["hidro_tasks" := JSON.stringify remote]> (localStorage w))
  /\ cloudId (react w') = Some (cleanIdOf (inputCloudId (react w)))
  /\ syncStatus (react w') = online
  /\ isSyncModalOpen (react w') = false
  /\ inputCloudId (react w') = []
  /\ effects w' = effects w ++ [Call_fetchCloudTasks (cleanIdOf (inputCloudId (react w)));
                               Confirm LoadRemoteConfirm true].
Proof.
  intros Ht Hlen Hf Hd Hne Hc. apply Nat.ltb_ge in Hlen. cbv zeta.
  destruct remote as [|t ts]; [congruence|].
  destruct (fetchCloudTasks_with_tasks _ _ _ _ _ _ Hf Hd) as [Hs He].
  pose proof (hasTasks_cons _ _ _ Hd) as Hh.
  pose proof (dataOf_Some _ _ Hd) as Hdo.
  run. rewrite Ht. run. rewrite Hlen. run. rewrite Hf. run. rewrite Hs.
  rewrite bool_decide_eq_false_2 by (rewrite He; discriminate).
  rewrite Hh. run. rewrite Hc. run. rewrite Hdo, <- app_assoc. repeat split.
Qed.

Lemma handleConnectCloud_loads_remote_witness :
  tasks (react (after (handleConnectCloud (Samples.env (Samples.holding [Samples.valveTask]) true))
                      (Samples.disconnected [Samples.pumpTask] (JsString.lit "Erkan Usta!"))))
  = [Samples.valveTask].
Proof.
  destruct (handleConnectCloud_loads_remote
              (Samples.env (Samples.holding [Samples.valveTask]) true)
              (Samples.disconnected [Samples.pumpTask] (JsString.lit "Erkan Usta!"))
              (mkSyncResult true (Some [Samples.valveTask]) None None)
              [Samples.valveTask]
              eq_refl ltac:(vm_compute; lia) eq_refl eq_refl ltac:(discriminate) eq_refl)
    as (H & _).
  exact H.
Defined.

(** X18.  When the fetch of an accepted identifier finds the bucket
    there but without tasks (a successful result with no task and no
    sentinel), [handleConnectCloud] connects without asking or writing
    anything: the only remote call is the fetch, no dialog is shown, the
    local tasks stay, the identifier is active and persisted and the
    status is [online]. *)
Theorem handleConnectCloud_empty_bucket (env : Env) (w : World) (res : SyncResult) :
  truthy (inputCloudId (react w)) = true ->
  (3 <= length (cleanIdOf (inputCloudId (react w))))%nat ->
  fetchCloudTasks (fetch env) (clock env (clockReads w)) (cleanIdOf (inputCloudId (react w)))
    = Normal res ->
  success res = true -> hasTasks res = false ->
  StorageService.error res <> Some NOT_FOUND ->
  let w' := after (handleConnectCloud env) w in
  effects w' = effects w ++ [Call_fetchCloudTasks (cleanIdOf (inputCloudId (react w)))]
  /\ tasks (react w') = tasks (react w)
  /\ cloudId (react w') = Some (cleanIdOf (inputCloudId (react w)))
  /\ localStorage w' =
       <["hidro_cloud_id" := cleanIdOf (inputCloudId (react w))]> (localStorage w)
  /\ syncStatus (react w') = online.
Proof.
  intros Ht Hlen Hf Hs Hh He. apply Nat.ltb_ge in Hlen. cbv zeta.
  run. rewrite Ht. run. rewrite Hlen. run. rewrite Hf. run. rewrite Hs.
  rewrite bool_decide_eq_false_2 by assumption.
  rewrite Hh. run. repeat split.
Qed.

Lemma handleConnectCloud_empty_bucket_witness :
  effects (after (handleConnectCloud (Samples.env (Samples.holding []) true))
                 (Samples.disconnected [Samples.pumpTask] (JsString.lit "Erkan Usta!")))
  = [Call_fetchCloudTasks (JsString.lit "erkan-usta-")].
Proof.
  destruct (handleConnectCloud_empty_bucket (Samples.env (Samples.holding []) true)
              (Samples.disconnected [Samples.pumpTask] (JsString.lit "Erkan Usta!"))
              (mkSyncResult true (Some []) None None)
              eq_refl ltac:(vm_compute; lia) eq_refl eq_refl eq_refl ltac:(discriminate))
    as (H & _).
  exact H.
Defined.

End SyncHandlersMore.

(** ** What a render computes *)

Section RenderedLists.
Import Screen.

Lemma filter_sublist {A : Type} (f : A -> bool) (l : list A) :
  List.filter f l `sublist_of` l.
Proof.
  induction l as [|a l IH]; cbn; [constructor|].
  destruct (f a); [now apply sublist_skip | now apply sublist_cons].
Qed.

Lemma filter_cons_status (s : Types.TaskStatus) (t : Types.Task) (l : list Types.Task) :
  length (List.filter (hasStatus s) (t :: l))
  = ((if hasStatus s t then 1 else 0) + length (List.filter (hasStatus s) l))%nat.
Proof. cbn [List.filter]. destruct (hasStatus s t); reflexivity. Qed.

(** A task is counted by one counter at most. *)
Lemma hasStatus_one (s1 s2 : Types.TaskStatus) (t : Types.Task) :
  hasStatus s1 t = true -> hasStatus s2 t = true -> s1 = s2.
Proof.
  unfold hasStatus, Types.statusValue. intros H1 H2.
  apply bool_decide_eq_true in H1, H2. rewrite H1 in H2.
  injection H2 as H2. now apply statusName_inj.
Qed.

Lemma status_partition (l : list Types.Task) :
  (length (List.filter (hasStatus Types.PENDING) l)
   + length (List.filter (hasStatus Types.IN_PROGRESS) l)
   + length (List.filter (hasStatus Types.COMPLETED) l) <= length l)%nat
  /\ (Forall (fun t => exists s, hasStatus s t = true) l ->
      (length (List.filter (hasStatus Types.PENDING) l)
       + length (List.filter (hasStatus Types.IN_PROGRESS) l)
       + length (List.filter (hasStatus Types.COMPLETED) l) = length l)%nat).
Proof.
  induction l as [|t l [IHle IHeq]]; [split; [reflexivity | intros _; reflexivity]|].
  rewrite !filter_cons_status. cbn [length].
  assert (Hone : forall s1 s2, hasStatus s1 t = true -> hasStatus s2 t = true -> s1 = s2)
    by (intros s1 s2; apply hasStatus_one).
  split.
  - destruct (hasStatus Types.PENDING t) eqn:E1, (hasStatus Types.IN_PROGRESS t) eqn:E2,
      (hasStatus Types.COMPLETED t) eqn:E3;
      try (specialize (Hone _ _ E1 E2); discriminate Hone);
      try (specialize (Hone _ _ E1 E3); discriminate Hone);
      try (specialize (Hone _ _ E2 E3); discriminate Hone); lia.
  - intros Hall. apply Forall_cons in Hall. destruct Hall as [[s Hs] Hall].
    specialize (IHeq Hall).
    destruct (hasStatus Types.PENDING t) eqn:E1, (hasStatus Types.IN_PROGRESS t) eqn:E2,
      (hasStatus Types.COMPLETED t) eqn:E3;
      try (specialize (Hone _ _ E1 E2); discriminate Hone);
      try (specialize (Hone _ _ E1 E3); discriminate Hone);
      try (specialize (Hone _ _ E2 E3); discriminate Hone); try lia.
    destruct s; congruence.
Qed.

(** X19.  The three counters of the dashboard never count a task twice:
    together they are at most the number of tasks the user sees, and
    exactly that number when every such task holds one of the three
    statuses (a task with another status, or with none, is seen and not
    counted). *)
Theorem dashboard_counts_add_up (user : Users.User) (ts : list Types.Task) :
  (pendingCount user ts + inProgressCount user ts + completedCount user ts
   <= length (relevantTasks user ts))%nat
  /\ (Forall (fun t => exists s, hasStatus s t = true) (relevantTasks user ts) ->
      (pendingCount user ts + inProgressCount user ts + completedCount user ts
       = length (relevantTasks user ts))%nat).
Proof. apply status_partition. Qed.

Lemma dashboard_counts_add_up_witness :
  (pendingCount ScreenSamples.chief [Samples.valveTask; Samples.pumpTask]
   + inProgressCount ScreenSamples.chief [Samples.valveTask; Samples.pumpTask]
   + completedCount ScreenSamples.chief [Samples.valveTask; Samples.pumpTask]
   = 2)%nat.
Proof.
  apply (proj2 (dashboard_counts_add_up ScreenSamples.chief
                  [Samples.valveTask; Samples.pumpTask])).
  repeat constructor.
  - exists Types.IN_PROGRESS. reflexivity.
  - exists Types.PENDING. reflexivity.
Defined.

(** X20.  A manager sees every task; anyone else sees exactly the tasks
    whose assignee is their id; in both cases in the order of the task
    store. *)
Theorem relevantTasks_by_role (user : Users.User) (ts : list Types.Task) :
  (Users.role user = Users.MANAGER -> relevantTasks user ts = ts)
  /\ (Users.role user <> Users.MANAGER ->
      forall t, In t (relevantTasks user ts)
                <-> In t ts /\ Types.get Types.assigneeId t
                               = Some (Types.VString (Users.id user)))
  /\ relevantTasks user ts `sublist_of` ts.
Proof.
  unfold relevantTasks. split; [|split].
  - intros Hm. rewrite bool_decide_eq_true_2 by assumption.
    induction ts as [|t ts IH]; cbn; [reflexivity | now rewrite IH].
  - intros Hnm t. split.
    + intros Hin. apply filter_In in Hin. destruct Hin as [Hin Hf].
      rewrite bool_decide_eq_false_2 in Hf by assumption.
      apply bool_decide_eq_true in Hf. auto.
    + intros [Hin Ha]. apply filter_In. split; [assumption|].
      rewrite bool_decide_eq_false_2 by assumption.
      now apply bool_decide_eq_true_2.
  - apply filter_sublist.
Qed.

Lemma relevantTasks_by_role_witness :
  relevantTasks ScreenSamples.chief [Samples.valveTask; Samples.pumpTask]
  = [Samples.valveTask; Samples.pumpTask]
  /\ (In Samples.pumpTask (relevantTasks ScreenSamples.fitter [Samples.valveTask; Samples.pumpTask])
      <-> In Samples.pumpTask [Samples.valveTask; Samples.pumpTask]
          /\ Types.get Types.assigneeId Samples.pumpTask
             = Some (Types.VString (Users.id ScreenSamples.fitter))).
Proof.
  split.
  - exact (proj1 (relevantTasks_by_role ScreenSamples.chief
                    [Samples.valveTask; Samples.pumpTask]) eq_refl).
  - apply (proj1 (proj2 (relevantTasks_by_role ScreenSamples.fitter
                           [Samples.valveTask; Samples.pumpTask]))).
    discriminate.
Defined.

(** X21.  Under the "urgent" heading at most three cards are shown; they
    are the first relevant tasks of priority HIGH or URGENT, in the order
    of the task store; and the all-clear box is shown exactly when there
    is no such card. *)
Theorem pressingCards_first_three (user : Users.User) (ts : list Types.Task) :
  (length (pressingCards user ts) <= 3)%nat
  /\ Forall (fun t => isPressing t = true) (pressingCards user ts)
  /\ pressingCards user ts `prefix_of` List.filter isPressing (relevantTasks user ts)
  /\ pressingCards user ts `sublist_of` ts
  /\ (showsAllClear user ts = true <-> pressingCards user ts = []).
Proof.
  unfold pressingCards, showsAllClear.
  set (l := List.filter isPressing (relevantTasks user ts)).
  assert (Hall : Forall (fun t => isPressing t = true) l).
  { apply Forall_forall. intros t Hin. apply list_elem_of_In in Hin.
    now apply filter_In in Hin. }
  repeat split.
  - rewrite length_take. lia.
  - now apply Forall_take.
  - apply prefix_take.
  - transitivity l; [apply sublist_take|].
    transitivity (relevantTasks user ts); apply filter_sublist.
  - intros H. apply Nat.eqb_eq in H. destruct l; [reflexivity | discriminate].
  - intros H. apply Nat.eqb_eq. destruct l; [reflexivity | discriminate].
Qed.

End RenderedLists.

(** ** Login, logout, the task form *)

Section PageHandlers.
Import StorageService App Screen.

Ltac runP :=
  repeat progress
    (cbv beta iota delta
       [afterP after Session.act
        Screen.handleLogin Screen.handleLogout Screen.handleCreateTask
        Screen.handleEnrichWithAI Screen.handleRemoveImage
        loadEffect mount reload initialFetchThen setTasksOnly
        liftApp renderPage awaitP localStorage_getItem
        setCurrentUser setCurrentView setNewTaskTitle updateNewTaskDesc setNewTaskDesc
        setMachineNameInput setTaskImage setIsGeneratingAI
        P_bind P_ret
        poll pollCallback call_fetchCloudTasks call_updateCloudTasks
        updateTasksAndSync updateTasksAndSync_then pushSettled
        handleConnectCloud connectReconcile connectSuccessFlow handleDisconnectCloud
        App.handleUpdateStatus App.handleCreateTask
        mbind mret M_bind M_ret render modifyReact
        localStorage_setItem localStorage_removeItem perform Date_now alert confirm
        await setTasks setCloudId setInputCloudId setSyncStatus setLastSyncTime
        setIsSyncModalOpen];
     cbn [currentUser currentView newTaskTitle newTaskDesc machineNameInput taskImage
          selectedAssignee selectedPriority isGeneratingAI world
          react localStorage clockReads effects tasks cloudId inputCloudId syncStatus
          lastSyncTime isSyncModalOpen fst snd andb negb]).

Lemma find_first_match (userId : JsString.t) (before : list Users.User) :
  forall user rest,
    Forall (fun u => Users.id u <> userId) before -> Users.id user = userId ->
    List.find (fun u => bool_decide (Users.id u = userId)) (before ++ user :: rest)
    = Some user.
Proof.
  induction before as [|u before IH]; intros user rest Hb Hu; cbn.
  - now rewrite bool_decide_eq_true_2.
  - inversion Hb; subst. rewrite bool_decide_eq_false_2 by assumption. now apply IH.
Qed.

Lemma find_no_match (userId : JsString.t) (users : list Users.User) :
  Forall (fun u => Users.id u <> userId) users ->
  List.find (fun u => bool_decide (Users.id u = userId)) users = None.
Proof.
  induction 1 as [|u users Hu _ IH]; cbn; [reflexivity|].
  now rewrite bool_decide_eq_false_2.
Qed.

(** X22.  [handleLogin] with an id that no user of [USERS] has changes
    nothing.  Otherwise it logs in the first user of [USERS] with that
    id: that user is the current user, its JSON text is stored under
    [hidro_user], the view is the task list, and the sync state (tasks,
    bucket, status) and the other storage keys are untouched. *)
Theorem handleLogin_first_match (host : Host) (userId : JsString.t) (p : Page) :
  (Forall (fun u => Users.id u <> userId) (USERS host) ->
     afterP (handleLogin host userId) p = p)
  /\ (forall before user rest,
        USERS host = before ++ user :: rest ->
        Forall (fun u => Users.id u <> userId) before -> Users.id user = userId ->
        let p' := afterP (handleLogin host userId) p in
        currentUser p' = Some user
        /\ currentView p' = JsString.lit "tasks"
        /\ localStorage (world p')
           = <["hidro_user" := stringifyUser host user]> (localStorage (world p))
        /\ react (world p') = react (world p)
        /\ effects (world p') = effects (world p)).
Proof.
  split.
  - intros Hall. unfold afterP, handleLogin. now rewrite (find_no_match _ _ Hall).
  - intros before user rest HU Hb Hu. cbv zeta. unfold afterP, handleLogin.
    rewrite HU, (find_first_match _ _ _ _ Hb Hu). runP. repeat split.
Qed.

Lemma handleLogin_first_match_witness :
  afterP (handleLogin (ScreenSamples.host (Samples.env Samples.serverError true) Throw)
            (JsString.lit "u9"))
         (ScreenSamples.page None (Samples.connected [Samples.pumpTask] online))
  = ScreenSamples.page None (Samples.connected [Samples.pumpTask] online)
  /\ currentUser
       (afterP (handleLogin (ScreenSamples.host (Samples.env Samples.serverError true) Throw)
                  (JsString.lit "u2"))
               (ScreenSamples.page None (Samples.connected [Samples.pumpTask] online)))
     = Some ScreenSamples.fitter.
Proof.
  split.
  - apply (proj1 (handleLogin_first_match _ _ _)).
    repeat constructor; discriminate.
  - destruct (proj2 (handleLogin_first_match
                       (ScreenSamples.host (Samples.env Samples.serverError true) Throw)
                       (JsString.lit "u2")
                       (ScreenSamples.page None (Samples.connected [Samples.pumpTask] online)))
                    [ScreenSamples.chief] ScreenSamples.fitter [] eq_refl) as (H & _).
    + repeat constructor; discriminate.
    + reflexivity.
    + exact H.
Defined.

Lemma poll_effects (env : Env) (w : World) (blobId : JsString.t) :
  cloudId (react w) = Some blobId -> truthy blobId = true ->
  effects (after (poll env) w) = effects w ++ [Call_fetchCloudTasks blobId].
Proof.
  intros Hid Ht. runP. rewrite Hid. runP. rewrite Ht. runP.
  destruct (fetchCloudTasks _ _ _) as [res|]; runP; [|reflexivity].
  destruct (success res && hasTasks res); runP; [|reflexivity].
  destruct (bool_decide (JSON.stringify (dataOf res) ≠ JSON.stringify (tasks (react w)))); runP;
    destruct (bool_decide (syncStatus (react w) ≠ online)); runP; reflexivity.
Qed.

(** X23.  [handleLogout] clears the current user and removes
    [hidro_user], and that is all: the tasks, the active bucket, the
    status and the other storage keys stay, so the device stays connected
    and the next poll tick still fetches the bucket. *)
Theorem handleLogout_keeps_sync (p : Page) :
  let p' := afterP handleLogout p in
  currentUser p' = None
  /\ localStorage (world p') = delete "hidro_user" (localStorage (world p))
  /\ localStorage (world p') !! "hidro_user" = None
  /\ localStorage (world p') !! "hidro_cloud_id" = localStorage (world p) !! "hidro_cloud_id"
  /\ localStorage (world p') !! "hidro_tasks" = localStorage (world p) !! "hidro_tasks"
  /\ react (world p') = react (world p)
  /\ (forall env blobId,
        cloudId (react (world p)) = Some blobId -> truthy blobId = true ->
        effects (after (poll env) (world p'))
        = effects (world p) ++ [Call_fetchCloudTasks blobId]).
Proof.
  cbv zeta.
  assert (Hw : world (afterP handleLogout p)
               = {| react := react (world p);
                    localStorage := delete "hidro_user" (localStorage (world p));
                    clockReads := clockReads (world p);
                    effects := effects (world p) |}) by reflexivity.
  rewrite Hw. cbn [react localStorage].
  split; [reflexivity|]. split; [reflexivity|]. split; [apply lookup_delete_eq|].
  split; [now apply lookup_delete_ne|]. split; [now apply lookup_delete_ne|].
  split; [reflexivity|].
  intros env blobId Hid Ht. now rewrite (poll_effects env _ blobId).
Qed.

Lemma handleLogout_keeps_sync_witness :
  effects (after (poll (Samples.env Samples.serverError true))
                 (world (afterP handleLogout
                           (ScreenSamples.page (Some ScreenSamples.chief)
                              (Samples.connected [Samples.pumpTask] online)))))
  = [Call_fetchCloudTasks (JsString.lit "fabrika-1")].
Proof.
  destruct (handleLogout_keeps_sync
              (ScreenSamples.page (Some ScreenSamples.chief)
                 (Samples.connected [Samples.pumpTask] online)))
    as (_ & _ & _ & _ & _ & _ & H).
  exact (H (Samples.env Samples.serverError true) (JsString.lit "fabrika-1") eq_refl eq_refl).
Defined.



(** X25.  [handleEnrichWithAI] does nothing while the title is empty.
    Otherwise it asks the service about the title, with the machine name
    or, when that is empty, the default context; what comes back is
    added after the description typed so far and a blank line (or becomes
    the description when there was none) and the busy flag is off again.
    When the service throws, the description stays and the busy flag is
    left on. *)
Theorem handleEnrichWithAI_appends (host : Host) (p : Page) :
  let context :=
    if truthy (machineNameInput p) then machineNameInput p
    else JsString.lit "Hidrolik Makine" in
  let p' := afterP (handleEnrichWithAI host) p in
  (truthy (newTaskTitle p) = false -> p' = p)
  /\ (forall suggestion,
        truthy (newTaskTitle p) = true ->
        generateTaskDetails host (newTaskTitle p) context = Normal suggestion ->
        newTaskDesc p' =
          (if truthy (newTaskDesc p) then newTaskDesc p ++ blankLine else []) ++ suggestion
        /\ isGeneratingAI p' = false
        /\ newTaskTitle p' = newTaskTitle p
        /\ world p' = world p)
  /\ (truthy (newTaskTitle p) = true ->
      generateTaskDetails host (newTaskTitle p) context = Throw ->
      isGeneratingAI p' = true
      /\ newTaskDesc p' = newTaskDesc p
      /\ world p' = world p).
Proof.
  cbv zeta. unfold handleEnrichWithAI. repeat split.
  - intros Ht. runP. rewrite Ht. reflexivity.
  - runP. rewrite H. runP. rewrite H0. reflexivity.
  - runP. rewrite H. runP. rewrite H0. reflexivity.
  - runP. rewrite H. runP. rewrite H0. reflexivity.
  - runP. rewrite H. runP. rewrite H0. reflexivity.
  - runP. rewrite H. runP. rewrite H0. reflexivity.
  - runP. rewrite H. runP. rewrite H0. reflexivity.
  - runP. rewrite H. runP. rewrite H0. reflexivity.
Qed.

Lemma handleEnrichWithAI_appends_witness :
  newTaskDesc (afterP (handleEnrichWithAI
                         (ScreenSamples.host (Samples.env Samples.serverError true)
                            (Normal (JsString.lit "Contayi degistir"))))
                      (ScreenSamples.page (Some ScreenSamples.chief)
                         (Samples.connected [Samples.pumpTask] online)))
  = JsString.lit "Acil" ++ [10; 10]%N ++ JsString.lit "Contayi degistir"
  /\ isGeneratingAI (afterP (handleEnrichWithAI
                               (ScreenSamples.host (Samples.env Samples.serverError true) Throw))
                            (ScreenSamples.page (Some ScreenSamples.chief)
                               (Samples.connected [Samples.pumpTask] online)))
     = true.
Proof.
  split.
  - destruct (proj1 (proj2 (handleEnrichWithAI_appends
                              (ScreenSamples.host (Samples.env Samples.serverError true)
                                 (Normal (JsString.lit "Contayi degistir")))
                              (ScreenSamples.page (Some ScreenSamples.chief)
                                 (Samples.connected [Samples.pumpTask] online))))
                    (JsString.lit "Contayi degistir") eq_refl eq_refl) as (H & _).
    exact H.
  - destruct (proj2 (proj2 (handleEnrichWithAI_appends
                              (ScreenSamples.host (Samples.env Samples.serverError true) Throw)
                              (ScreenSamples.page (Some ScreenSamples.chief)
                                 (Samples.connected [Samples.pumpTask] online))))
                    eq_refl eq_refl) as (H & _).
    exact H.
Defined.

(** *** What every step keeps *)

(** X26.  The first commit on a device without a persisted bucket, no
    user being remembered: no request is started and the sync state is
    left alone.  When [hidro_tasks] holds a text that parses, the parsed
    tasks become the task store and the mirror is written anew from
    them; when it holds nothing, the tasks of the first render stay and
    the mirror is written from them.  Either way the mirror holds the
    text of the tasks on screen afterwards. *)
Theorem mount_without_bucket (host : Host) (p : Page) :
  localStorage (world p) !! "hidro_user" = None ->
  truthyItem (localStorage (world p) !! "hidro_cloud_id") = false ->
  let p' := afterP (mount host) p in
  (forall text ts,
     localStorage (world p) !! "hidro_tasks" = Some text -> truthy text = true ->
     parseTasks host text = Normal ts ->
     tasks (react (world p')) = ts
     /\ localStorage (world p') !! "hidro_tasks" = Some (JSON.stringify ts)
     /\ cloudId (react (world p')) = cloudId (react (world p))
     /\ syncStatus (react (world p')) = syncStatus (react (world p))
     /\ effects (world p') = effects (world p))
  /\ (truthyItem (localStorage (world p) !! "hidro_tasks") = false ->
     tasks (react (world p')) = tasks (react (world p))
     /\ localStorage (world p') !! "hidro_tasks"
        = Some (JSON.stringify (tasks (react (world p))))
     /\ cloudId (react (world p')) = cloudId (react (world p))
     /\ syncStatus (react (world p')) = syncStatus (react (world p))
     /\ effects (world p') = effects (world p)).
Proof.
  intros Hu Hc. cbv zeta. split.
  - intros text ts Hs Ht Hp.
    runP. rewrite Hu. cbn [truthyItem]. runP. rewrite Hc. runP. rewrite Hs.
    cbn [truthyItem default from_option]. unfold id. rewrite Ht. runP. rewrite Hp. runP.
    split; [reflexivity|]. split; [apply lookup_insert_eq|].
    split; [reflexivity|]. split; reflexivity.
  - intros Hs.
    runP. rewrite Hu. cbn [truthyItem]. runP. rewrite Hc. runP. rewrite Hs. runP.
    split; [reflexivity|]. split; [apply lookup_insert_eq|].
    split; [reflexivity|]. split; reflexivity.
Qed.

Lemma mount_without_bucket_witness :
  tasks (react (world (afterP (mount (ScreenSamples.host (Samples.env Samples.serverError true) Throw))
                              (ScreenSamples.firstRender
                                 (ScreenSamples.host (Samples.env Samples.serverError true) Throw)
                                 (<["hidro_tasks" := JSON.stringify [Samples.pumpTask]]> ∅)))))
  = [Samples.pumpTask].
Proof.
  destruct (mount_without_bucket
              (ScreenSamples.host (Samples.env Samples.serverError true) Throw)
              (ScreenSamples.firstRender
                 (ScreenSamples.host (Samples.env Samples.serverError true) Throw)
                 (<["hidro_tasks" := JSON.stringify [Samples.pumpTask]]> ∅)))
    as [H _]; [vm_compute; reflexivity | vm_compute; reflexivity |].
  destruct (H (JSON.stringify [Samples.pumpTask]) [Samples.pumpTask]) as [H1 _];
    [vm_compute; reflexivity | reflexivity | reflexivity |].
  exact H1.
Defined.

(** X27.  The first commit on a device with a persisted bucket, no user
    being remembered, followed by the settling of the fetch it starts:
    the persisted id is the active bucket and one fetch of it was
    started.  The mirror is written from the tasks of the first render
    before anything is known of the bucket, so what [hidro_tasks] held
    is lost.  A fetch that fails leaves those tasks and the status
    [error]; one that succeeds gives the status [online] and, when it
    brings tasks, puts them in the task store and in the mirror. *)
Theorem reload_with_bucket (host : Host) (p : Page) (blobId : JsString.t)
    (res : SyncResult) :
  localStorage (world p) !! "hidro_user" = None ->
  localStorage (world p) !! "hidro_cloud_id" = Some blobId -> truthy blobId = true ->
  fetchCloudTasks (fetch (env host)) (clock (env host) (clockReads (world p))) blobId
    = Normal res ->
  let p' := afterP (reload host) p in
  cloudId (react (world p')) = Some blobId
  /\ effects (world p') = effects (world p) ++ [Call_fetchCloudTasks blobId]
  /\ localStorage (world p') !! "hidro_tasks"
     = Some (JSON.stringify (tasks (react (world p'))))
  /\ (success res = false ->
      syncStatus (react (world p')) = error
      /\ tasks (react (world p')) = tasks (react (world p)))
  /\ (forall remote, success res = true -> data res = Some remote ->
      syncStatus (react (world p')) = online
      /\ tasks (react (world p'))
         = if bool_decide (remote = []) then tasks (react (world p)) else remote).
Proof.
  intros Hu Hc Ht Hf. cbv zeta.
  assert (Hrun : reload host p =
    (if success res && bool_decide (is_Some (data res))
     then (if hasTasks res
           then liftApp (setTasks (dataOf res);; setSyncStatus online)
           else liftApp (setSyncStatus online))
     else liftApp (setSyncStatus error))
    {| currentUser := currentUser p; currentView := currentView p;
       newTaskTitle := newTaskTitle p; newTaskDesc := newTaskDesc p;
       machineNameInput := machineNameInput p; taskImage := taskImage p;
       selectedAssignee := selectedAssignee p; selectedPriority := selectedPriority p;
       isGeneratingAI := isGeneratingAI p;
       world :=
         {| react :=
              {| tasks := tasks (react (world p)); cloudId := Some blobId;
                 inputCloudId := inputCloudId (react (world p)); syncStatus := syncing;
                 lastSyncTime := lastSyncTime (react (world p));
                 isSyncModalOpen := isSyncModalOpen (react (world p)) |};
            localStorage :=
              <["hidro_tasks" := JSON.stringify (tasks (react (world p)))]>
                (localStorage (world p));
            clockReads := S (clockReads (world p));
            effects := effects (world p) ++ [Call_fetchCloudTasks blobId] |} |}).
  { runP. rewrite Hu. cbn [truthyItem]. runP. rewrite Hc.
    cbn [truthyItem default from_option]. unfold id. rewrite Ht. runP. rewrite Hf. runP.
    destruct (success res && bool_decide (is_Some (data res))); [|reflexivity].
    destruct (hasTasks res); reflexivity. }
  unfold afterP. rewrite Hrun. clear Hrun.
  destruct (success res) eqn:Hs; cbn [andb].
  - destruct (data res) as [remote|] eqn:Hd.
    + rewrite bool_decide_eq_true_2 by eauto.
      unfold hasTasks, dataOf. rewrite Hd.
      destruct remote as [|t remote]; runP.
      * split; [reflexivity|]. split; [reflexivity|]. split; [apply lookup_insert_eq|].
        split; [discriminate|]. intros remote' _ [= <-]. split; reflexivity.
      * split; [reflexivity|]. split; [reflexivity|]. split; [apply lookup_insert_eq|].
        split; [discriminate|]. intros remote' _ [= <-]. split; reflexivity.
    + rewrite bool_decide_eq_false_2 by (intros [x Hx]; discriminate Hx). runP.
      split; [reflexivity|]. split; [reflexivity|]. split; [apply lookup_insert_eq|].
      split; [discriminate|]. intros remote' _ Hd'. discriminate Hd'.
  - runP.
    split; [reflexivity|]. split; [reflexivity|]. split; [apply lookup_insert_eq|].
    split; [intros _; split; reflexivity|]. intros remote' Hs'. discriminate Hs'.
Qed.

Lemma reload_with_bucket_witness :
  syncStatus (react (world (afterP
    (reload (ScreenSamples.host (Samples.env Samples.serverError true) Throw))
    (ScreenSamples.firstRender
       (ScreenSamples.host (Samples.env Samples.serverError true) Throw)
       (<["hidro_cloud_id" := JsString.lit "fabrika-1"]>
          (<["hidro_tasks" := JSON.stringify [Samples.pumpTask]]> ∅)))))) = error
  /\ localStorage (world (afterP
       (reload (ScreenSamples.host (Samples.env Samples.serverError true) Throw))
       (ScreenSamples.firstRender
          (ScreenSamples.host (Samples.env Samples.serverError true) Throw)
          (<["hidro_cloud_id" := JsString.lit "fabrika-1"]>
             (<["hidro_tasks" := JSON.stringify [Samples.pumpTask]]> ∅))))) !! "hidro_tasks"
     = Some (JSON.stringify [Samples.valveTask]).
Proof.
  destruct (reload_with_bucket
              (ScreenSamples.host (Samples.env Samples.serverError true) Throw)
              (ScreenSamples.firstRender
                 (ScreenSamples.host (Samples.env Samples.serverError true) Throw)
                 (<["hidro_cloud_id" := JsString.lit "fabrika-1"]>
                    (<["hidro_tasks" := JSON.stringify [Samples.pumpTask]]> ∅)))
              (JsString.lit "fabrika-1")
              (mkSyncResult false None (Some FETCH_FAILED) None))
    as (_ & _ & Hm & Hfail & _);
    [vm_compute; reflexivity | vm_compute; reflexivity | reflexivity | reflexivity |].
  destruct (Hfail eq_refl) as [Hst Hts].
  split; [exact Hst|]. rewrite Hm, Hts. reflexivity.
Defined.

Lemma liftApp_world {A : Type} (m : M A) (p : Page) :
  world (afterP (liftApp m) p) = after m (world p).
Proof. unfold afterP, liftApp, after. now destruct (m (world p)). Qed.

Lemma footprint_refl (w : World) : Session.footprint w w.
Proof. split; left; split; reflexivity. Qed.

Ltac lookups :=
  cbn [react localStorage tasks cloudId];
  repeat first
    [ rewrite lookup_insert_eq
    | rewrite lookup_delete_eq
    | rewrite lookup_insert_ne by done
    | rewrite lookup_delete_ne by done ].

Ltac closing := first [reflexivity | congruence].

(** Both pairs left alone, whatever else changed. *)
Ltac untouched := split; left; split; lookups; closing.

Lemma poll_footprint (env : Env) (w : World) : Session.footprint w (after (poll env) w).
Proof.
  runP. destruct (cloudId (react w)) as [blobId|] eqn:Hid; runP; [|apply footprint_refl].
  destruct (truthy blobId); runP; [|apply footprint_refl].
  destruct (fetchCloudTasks _ _ _) as [res|]; runP; [|untouched].
  destruct (success res && hasTasks res); runP; [|untouched].
  destruct (bool_decide (JSON.stringify (dataOf res) ≠ JSON.stringify (tasks (react w)))); runP;
    destruct (bool_decide (syncStatus (react w) ≠ online)); runP;
    try untouched;
    (split; [right; lookups; closing | left; split; lookups; closing]).
Qed.

Lemma updateTasksAndSync_footprint (newTasks : list Types.Task) (w : World) :
  Session.footprint w (after (updateTasksAndSync newTasks) w).
Proof.
  runP. destruct (cloudId (react w)) as [blobId|] eqn:Hid; runP;
    [destruct (truthy blobId); runP|];
    (split; [right; lookups; closing | left; split; lookups; closing]).
Qed.

Lemma pushSettled_footprint (env : Env) (outcome : Completion SyncResult) (w : World) :
  Session.footprint w (after (pushSettled env outcome) w).
Proof.
  destruct outcome as [res|]; runP; [|apply footprint_refl].
  destruct (success res); runP; untouched.
Qed.

Lemma initialFetchThen_footprint (res : SyncResult) (w : World) :
  Session.footprint w (after (initialFetchThen res) w).
Proof.
  runP. destruct (success res && bool_decide (is_Some (data res))); runP; [|untouched].
  destruct (hasTasks res); runP; [|untouched].
  split; [right; lookups; closing | left; split; lookups; closing].
Qed.

Lemma handleDisconnectCloud_footprint (env : Env) (w : World) :
  Session.footprint w (after (handleDisconnectCloud env) w).
Proof.
  runP. destruct (confirmAnswer env DisconnectConfirm); runP; [|untouched].
  split; [left; split; lookups; closing | right; left; split; lookups; closing].
Qed.

Lemma handleConnectCloud_footprint (env : Env) (w : World) :
  Session.footprint w (after (handleConnectCloud env) w).
Proof.
  runP. destruct (truthy (inputCloudId (react w))); runP; [|apply footprint_refl].
  destruct (Nat.ltb_spec (length (cleanIdOf (inputCloudId (react w)))) 3) as [Hl|Hl];
    runP; [untouched|].
  assert (Hnew : forall ls : gmap string JsString.t,
             exists blobId,
               Some (cleanIdOf (inputCloudId (react w))) = Some blobId
               /\ <["hidro_cloud_id" := cleanIdOf (inputCloudId (react w))]> ls
                  !! "hidro_cloud_id" = Some blobId
               /\ (3 <= length blobId)%nat
               /\ Forall (fun c => JsString.isIdUnit c = true) blobId).
  { intros ls. eexists. split; [reflexivity|]. split; [apply lookup_insert_eq|].
    split; [exact Hl | apply cleanIdOf_idUnits]. }
  destruct (fetchCloudTasks _ _ _) as [res|]; runP; [|untouched].
  destruct (success res); runP; [|untouched].
  destruct (bool_decide (StorageService.error res = Some NOT_FOUND)); runP.
  - destruct (updateCloudTasks _ _ _) as [initRes|]; runP; [|untouched].
    destruct (success initRes); runP; [|untouched].
    split; [left; split; lookups; closing | right; right; apply Hnew].
  - destruct (hasTasks res); runP.
    + destruct (confirmAnswer env LoadRemoteConfirm); runP.
      * split; [right; lookups; closing | right; right; apply Hnew].
      * split; [left; split; lookups; closing | right; right; apply Hnew].
    + split; [left; split; lookups; closing | right; right; apply Hnew].
Qed.

Lemma act_footprint (host : Host) (a : Session.Action) (p : Page) :
  Session.footprint (world p) (world (afterP (Session.act host a) p)).
Proof.
  destruct a; cbn [Session.act]; rewrite ?liftApp_world.
  - (* Login *)
    unfold afterP, handleLogin. destruct (List.find _ _); runP; [untouched | apply footprint_refl].
  - (* Logout *) unfold handleLogout. runP. untouched.
  - (* CreateTask *)
    unfold handleCreateTask. runP.
    destruct (currentUser p); runP; [|apply footprint_refl].
    destruct (cloudId (react (world p))) as [blobId|] eqn:Hid; runP;
      [destruct (truthy blobId); runP|];
      (split; [right; lookups; closing | left; split; lookups; closing]).
  - (* UpdateStatus *) apply updateTasksAndSync_footprint.
  - (* EnrichWithAI *)
    unfold handleEnrichWithAI. runP.
    destruct (truthy (newTaskTitle p)); runP; [|apply footprint_refl].
    destruct (generateTaskDetails _ _ _); runP; apply footprint_refl.
  - (* RemoveImage *) apply footprint_refl.
  - (* TypeCloudId *) runP. untouched.
  - (* ShowSyncModal *) runP. untouched.
  - apply handleConnectCloud_footprint.
  - apply handleDisconnectCloud_footprint.
  - apply poll_footprint.
  - apply pushSettled_footprint.
  - destruct outcome as [res|]; [|apply footprint_refl].
    rewrite liftApp_world. apply initialFetchThen_footprint.
Qed.

Lemma history_keeps (I : World -> Prop) :
  (forall w w', Session.footprint w w' -> I w -> I w') ->
  forall steps p, I (world p) -> I (world (Session.history steps p)).
Proof.
  intros Hstep steps. induction steps as [|[host a] steps IH]; intros p Hp; [exact Hp|].
  cbn [Session.history]. apply IH. eapply Hstep; [apply act_footprint | exact Hp].
Qed.

(** X28.  The local mirror follows the task store: if [hidro_tasks] holds
    the JSON text of the tasks on screen, it still does after any history
    of logins, logouts, task creations and updates, AI requests, typing,
    connects, disconnects, poll ticks and settling requests, whatever the
    network, the user and the clock answer. *)
Theorem mirror_kept (steps : list (Host * Session.Action)) (p : Page) :
  Session.mirrored (world p) -> Session.mirrored (world (Session.history steps p)).
Proof.
  apply (history_keeps Session.mirrored).
  unfold Session.mirrored. intros w w' [[[Ht Hl]|Hm] _] Hw; [|exact Hm].
  now rewrite Hl, Ht.
Qed.

Lemma mirror_kept_witness :
  Session.mirrored
    (world (Session.history
              [(ScreenSamples.host (Samples.env (Samples.holding [Samples.valveTask]) true) Throw,
                Session.PollTick);
               (ScreenSamples.host (Samples.env Samples.serverError true) Throw,
                Session.UpdateStatus 1700000500000 (JsString.lit "b7w0z5c4d")
                  Types.COMPLETED None (Some 4%Z))]
              (ScreenSamples.page (Some ScreenSamples.chief)
                 (Samples.connected [Samples.pumpTask] online)))).
Proof. apply mirror_kept. reflexivity. Defined.

(** X29.  The persisted bucket id follows the active one: if
    [hidro_cloud_id] holds the active bucket id (or is absent when there
    is none), it still does after any history of actions. *)
Theorem persisted_bucket_kept (steps : list (Host * Session.Action)) (p : Page) :
  Session.bucketPersisted (world p) ->
  Session.bucketPersisted (world (Session.history steps p)).
Proof.
  apply (history_keeps Session.bucketPersisted).
  unfold Session.bucketPersisted.
  intros w w' [_ [[Hc Hl]|[[Hc Hl]|(blobId & Hc & Hl & _)]]] Hw; congruence.
Qed.

Lemma persisted_bucket_kept_witness :
  Session.bucketPersisted
    (world (Session.history
              [(ScreenSamples.host (Samples.env Samples.serverError true) Throw,
                Session.DisconnectCloud);
               (ScreenSamples.host (Samples.freshBucket (Samples.holding [])) Throw,
                Session.TypeCloudId (JsString.lit " Hat B "));
               (ScreenSamples.host (Samples.freshBucket (Samples.holding [])) Throw,
                Session.ConnectCloud)]
              (ScreenSamples.page (Some ScreenSamples.chief)
                 (Samples.connected [Samples.pumpTask] online)))).
Proof. apply persisted_bucket_kept. reflexivity. Defined.

(** X30.  The active bucket id is always a normalised identifier: if it
    has at least three code units, all of them lower-case letters,
    digits, hyphens or underscores (or there is none), this is still so
    after any history of actions; no handler activates an identifier that
    could not be put in a URL as it is. *)
Theorem normalised_bucket_kept (steps : list (Host * Session.Action)) (p : Page) :
  Session.bucketNormalised (world p) ->
  Session.bucketNormalised (world (Session.history steps p)).
Proof.
  apply (history_keeps Session.bucketNormalised).
  unfold Session.bucketNormalised.
  intros w w' [_ [[Hc Hl]|[[Hc Hl]|(blobId & Hc & Hl & Hlen & Hall)]]] Hw b Hb.
  - apply Hw. congruence.
  - congruence.
  - assert (b = blobId) as -> by congruence. now split.
Qed.

Lemma normalised_bucket_kept_witness :
  Session.bucketNormalised
    (world (Session.history
              [(ScreenSamples.host (Samples.freshBucket (Samples.holding [])) Throw,
                Session.TypeCloudId (JsString.lit " Hat B "));
               (ScreenSamples.host (Samples.freshBucket (Samples.holding [])) Throw,
                Session.ConnectCloud)]
              (ScreenSamples.page (Some ScreenSamples.chief)
                 (Samples.disconnected [Samples.pumpTask] [])))).
Proof.
  apply normalised_bucket_kept. intros blobId Hb. discriminate Hb.
Defined.

End PageHandlers.
